(** * acl-operator: the ACL reconciler and the TsuruAppAdress resolver

    A shallow embedding of [controllers/acl_controller.go] and
    [controllers/tsuruappadress_controller.go], with the properties of
    the reconciliation pipeline proved over it.

    Go values are rendered as follows.
    - [string] is a byte sequence: Rocq's [string], one [ascii] per byte.
    - a slice that [reflect.DeepEqual] compares is a [slice A]: [None] is
      the nil slice, [Some l] a non-nil one, because the comparison tells
      the two apart; a slice that is only ranged over or measured is a
      list.
    - [map[string]string] is a [gmap string string]; a nil map is [None].
    - a pointer field is an [option].
    - [error] is a record of the message and of whether
      [k8sErrors.IsNotFound] holds of it.
    - the object store behind [client.Client] is a record of finite maps,
      threaded through every call together with the list of calls issued
      and a schedule of faults the store may answer with. *)

From Stdlib Require Import ZArith Ascii String List Lia Bool.
From stdpp Require Import base option list gmap strings sorting.

Local Open Scope Z_scope.

(** ** Byte strings *)

Module GoString.

Definition bytes (s : string) : list ascii := list_ascii_of_string s.
Definition ofBytes (l : list ascii) : string := string_of_list_ascii l.

Definition code (c : ascii) : Z := Z.of_N (N_of_ascii c).

(** [len(s)] *)
Definition len (s : string) : nat := List.length (bytes s).

(** [s[:n]], for [n <= len(s)] (Go panics beyond that). *)
Definition prefix (n : nat) (s : string) : string :=
  ofBytes (firstn n (bytes s)).

Fixpoint isPrefixOf (p l : list ascii) : bool :=
  match p, l with
  | [], _ => true
  | a :: p', b :: l' => if Ascii.eqb a b then isPrefixOf p' l' else false
  | _ :: _, [] => false
  end.

(** [strings.HasSuffix] *)
Definition HasSuffix (s suffix : string) : bool :=
  isPrefixOf (rev (bytes suffix)) (rev (bytes s)).

(** [strings.Contains(s, sep)] for a one-byte separator, the only use
    the controllers make of it. *)
Definition ContainsByte (s : string) (c : ascii) : bool :=
  existsb (Ascii.eqb c) (bytes s).

Fixpoint beforeByte (c : ascii) (l : list ascii) : list ascii :=
  match l with
  | [] => []
  | a :: l' => if Ascii.eqb a c then [] else a :: beforeByte c l'
  end.

(** [strings.Split(s, sep)[0]] for a one-byte separator: everything
    before its first occurrence, or all of [s]. *)
Definition SplitHead (s : string) (c : ascii) : string :=
  ofBytes (beforeByte c (bytes s)).

End GoString.

(** ** crypto/sha256 and the [%x] verb

    [sha256String] hashes the bytes of its argument and prints the 32
    bytes of the sum in lower-case hexadecimal.  The hash is FIPS 180-4
    SHA-256 on 32-bit words, each kept in [0, 2^32). *)

Module SHA256.

Definition w32 (x : Z) : Z := x mod 2 ^ 32.
Definition add32 (x y : Z) : Z := w32 (x + y).
Definition rotr (n x : Z) : Z :=
  Z.lor (Z.shiftr x n) (w32 (Z.shiftl x (32 - n))).
Definition not32 (x : Z) : Z := Z.lxor x 0xffffffff.

Definition Ch (x y z : Z) : Z := Z.lxor (Z.land x y) (Z.land (not32 x) z).
Definition Maj (x y z : Z) : Z :=
  Z.lxor (Z.lxor (Z.land x y) (Z.land x z)) (Z.land y z).
Definition bigSigma0 (x : Z) : Z :=
  Z.lxor (Z.lxor (rotr 2 x) (rotr 13 x)) (rotr 22 x).
Definition bigSigma1 (x : Z) : Z :=
  Z.lxor (Z.lxor (rotr 6 x) (rotr 11 x)) (rotr 25 x).
Definition smallSigma0 (x : Z) : Z :=
  Z.lxor (Z.lxor (rotr 7 x) (rotr 18 x)) (Z.shiftr x 3).
Definition smallSigma1 (x : Z) : Z :=
  Z.lxor (Z.lxor (rotr 17 x) (rotr 19 x)) (Z.shiftr x 10).

(** The first sixty-four primes. *)
Definition primes : list Z :=
  [2; 3; 5; 7; 11; 13; 17; 19; 23; 29; 31; 37; 41; 43; 47; 53; 59; 61; 67;
   71; 73; 79; 83; 89; 97; 101; 103; 107; 109; 113; 127; 131; 137; 139; 149;
   151; 157; 163; 167; 173; 179; 181; 191; 193; 197; 199; 211; 223; 227;
   229; 233; 239; 241; 251; 257; 263; 269; 271; 277; 281; 283; 293; 307;
   311].

(** The largest [r] below [2 ^ bits] with [r ^ 3 <= n], bit by bit. *)
Fixpoint cubeRoot (bits : nat) (n r : Z) : Z :=
  match bits with
  | O => r
  | S b =>
      let r' := r + 2 ^ Z.of_nat b in
      cubeRoot b n (if r' * r' * r' <=? n then r' else r)
  end.

(** The round constants: the first 32 bits of the fractional parts of
    the cube roots of the primes. *)
Definition K : list Z :=
  List.map (fun p => w32 (cubeRoot 40 (p * 2 ^ 96) 0)) primes.

(** The eight working words. *)
Record digest := Digest {
  h0 : Z; h1 : Z; h2 : Z; h3 : Z; h4 : Z; h5 : Z; h6 : Z; h7 : Z
}.

(** The initial words: the first 32 bits of the fractional parts of
    the square roots of the first eight primes. *)
Definition fracSqrt (p : Z) : Z := w32 (Z.sqrt (p * 2 ^ 64)).

Definition init : digest :=
  Digest (fracSqrt 2) (fracSqrt 3) (fracSqrt 5) (fracSqrt 7)
         (fracSqrt 11) (fracSqrt 13) (fracSqrt 17) (fracSqrt 19).

(** Padding: a 1 bit, zeros up to 56 mod 64, the bit length on 8 bytes. *)
Definition be64 (n : Z) : list Z :=
  List.map (fun i => Z.shiftr n (8 * i) mod 256) [7; 6; 5; 4; 3; 2; 1; 0].

Definition pad (msg : list Z) : list Z :=
  let n := Z.of_nat (List.length msg) in
  let zeros := Z.to_nat ((55 - n) mod 64) in
  msg ++ 0x80 :: List.repeat 0 zeros ++ be64 (8 * n).

Fixpoint beWords (l : list Z) : list Z :=
  match l with
  | a :: b :: c :: d :: l' =>
      (Z.shiftl a 24 + Z.shiftl b 16 + Z.shiftl c 8 + d) :: beWords l'
  | _ => []
  end.

(** The message schedule, latest word first: [rev] gives W0..W63. *)
Fixpoint extend (n : nat) (r : list Z) : list Z :=
  match n with
  | O => r
  | S n' =>
      let w := add32 (add32 (smallSigma1 (nth 1 r 0)) (nth 6 r 0))
                     (add32 (smallSigma0 (nth 14 r 0)) (nth 15 r 0)) in
      extend n' (w :: r)
  end.

Definition schedule (block : list Z) : list Z :=
  rev (extend 48 (rev (beWords block))).

Definition round (s : digest) (kw : Z * Z) : digest :=
  let '(Digest a b c d e f g h) := s in
  let t1 := add32 (add32 (add32 h (bigSigma1 e)) (add32 (Ch e f g) (fst kw)))
                  (snd kw) in
  let t2 := add32 (bigSigma0 a) (Maj a b c) in
  Digest (add32 t1 t2) a b c (add32 d t1) e f g.

Definition compress (s : digest) (block : list Z) : digest :=
  let '(Digest a b c d e f g h) :=
    fold_left round (combine K (schedule block)) s in
  Digest (add32 (h0 s) a) (add32 (h1 s) b) (add32 (h2 s) c) (add32 (h3 s) d)
         (add32 (h4 s) e) (add32 (h5 s) f) (add32 (h6 s) g) (add32 (h7 s) h).

Fixpoint blocks (fuel : nat) (s : digest) (l : list Z) : digest :=
  match fuel, l with
  | S fuel', _ :: _ => blocks fuel' (compress s (firstn 64 l)) (skipn 64 l)
  | _, _ => s
  end.

Definition be32 (x : Z) : list Z :=
  [Z.shiftr x 24 mod 256; Z.shiftr x 16 mod 256; Z.shiftr x 8 mod 256;
   x mod 256].

(** [hash.Sum(nil)] after writing [msg]. *)
Definition Sum (msg : list Z) : list Z :=
  let p := pad msg in
  let '(Digest a b c d e f g h) := blocks (List.length p) init p in
  be32 a ++ be32 b ++ be32 c ++ be32 d ++ be32 e ++ be32 f ++ be32 g ++ be32 h.

Definition hexDigit (d : Z) : ascii :=
  nth (Z.to_nat d) (GoString.bytes "0123456789abcdef") "0"%char.

(** [fmt.Sprintf("%x", bs)] *)
Definition hex (bs : list Z) : list ascii :=
  flat_map (fun b => [hexDigit (b / 16); hexDigit (b mod 16)]) bs.

End SHA256.

(** [sha256String], acl_controller.go:699 *)
Definition sha256String (str : string) : string :=
  GoString.ofBytes
    (SHA256.hex (SHA256.Sum (List.map GoString.code (GoString.bytes str)))).

(** ** The identity namer *)

Module Regexp.

Import GoString.

Definition between (lo hi : Z) (c : ascii) : bool :=
  (lo <=? code c) && (code c <=? hi).

(** The class [[a-z0-9]]. *)
Definition lowerAlnum (c : ascii) : bool :=
  between 97 122 c || between 48 57 c.

(** The class [[a-z0-9.-]]. *)
Definition nameByte (c : ascii) : bool :=
  lowerAlnum c || Ascii.eqb c "."%char || Ascii.eqb c "-"%char.

(** The number of bytes the matcher consumes for the rune that starts
    with byte [c] and goes on with [rest]: [utf8.DecodeRuneInString],
    which yields width 1 on every malformed or truncated encoding. *)
Definition runeSize (c : ascii) (rest : list ascii) : nat :=
  let cont lo hi (b : ascii) := between lo hi b in
  let tail n lo hi :=
    match n, rest with
    | 2%nat, b1 :: _ => if cont lo hi b1 then 2%nat else 1%nat
    | 3%nat, b1 :: b2 :: _ =>
        if cont lo hi b1 && cont 0x80 0xbf b2 then 3%nat else 1%nat
    | 4%nat, b1 :: b2 :: b3 :: _ =>
        if cont lo hi b1 && cont 0x80 0xbf b2 && cont 0x80 0xbf b3
        then 4%nat else 1%nat
    | _, _ => 1%nat
    end in
  let x := code c in
  if x <? 0x80 then 1%nat
  else if x <? 0xc2 then 1%nat
  else if x <? 0xe0 then tail 2%nat 0x80 0xbf
  else if x =? 0xe0 then tail 3%nat 0xa0 0xbf
  else if x =? 0xed then tail 3%nat 0x80 0x9f
  else if x <? 0xf0 then tail 3%nat 0x80 0xbf
  else if x =? 0xf0 then tail 4%nat 0x90 0xbf
  else if x <? 0xf4 then tail 4%nat 0x80 0xbf
  else if x =? 0xf4 then tail 4%nat 0x80 0x8f
  else 1%nat.

(** [regexp.MustCompile("[^a-z0-9.-]").ReplaceAllString(s, "-")]: every
    rune outside the class becomes one ["-"].  [skip] counts the bytes
    of the current rune still to be passed over. *)
Fixpoint replaceOutside (skip : nat) (l : list ascii) : list ascii :=
  match l with
  | [] => []
  | c :: rest =>
      match skip with
      | S k => replaceOutside k rest
      | O =>
          if nameByte c then c :: replaceOutside 0 rest
          else "-"%char :: replaceOutside (runeSize c rest - 1) rest
      end
  end.

(** [regexp.MustCompile("^[^a-z0-9]+").ReplaceAllString(s, "")]: the
    leading run of runes outside [[a-z0-9]] is removed; [^] anchors at
    the start of the text, so nothing further on matches. *)
Fixpoint dropLeading (skip : nat) (l : list ascii) : list ascii :=
  match l with
  | [] => []
  | c :: rest =>
      match skip with
      | S k => dropLeading k rest
      | O =>
          if lowerAlnum c then l
          else dropLeading (runeSize c rest - 1) rest
      end
  end.

(** Where the matcher of
    [^[a-z0-9]([-a-z0-9]*[a-z0-9])?(\.[a-z0-9]([-a-z0-9]*[a-z0-9])?)*$]
    stands: at the start of a label, after an alphanumeric, or after a
    hyphen inside a label. *)
Inductive labelState := LabelStart | AfterAlnum | AfterHyphen.

Fixpoint dns1123Subdomain (st : labelState) (l : list ascii) : bool :=
  match l with
  | [] => match st with AfterAlnum => true | _ => false end
  | c :: rest =>
      if lowerAlnum c then dns1123Subdomain AfterAlnum rest
      else if Ascii.eqb c "-"%char then
        match st with
        | LabelStart => false
        | _ => dns1123Subdomain AfterHyphen rest
        end
      else if Ascii.eqb c "."%char then
        match st with
        | AfterAlnum => dns1123Subdomain LabelStart rest
        | _ => false
        end
      else false
  end.

End Regexp.

(** [validation.DNS1123SubdomainMaxLength] *)
Definition DNS1123SubdomainMaxLength : nat := 253.

(** [validation.IsDNS1123Subdomain] returns the list of violations; this
    is [len(errs) == 0]: at most 253 bytes and a match of the subdomain
    expression. *)
Definition IsDNS1123Subdomain (value : string) : bool :=
  negb (DNS1123SubdomainMaxLength <? GoString.len value)%nat
  && Regexp.dns1123Subdomain Regexp.LabelStart (GoString.bytes value).

Definition maxChars : nat := 253.

(** The local [truncatedName] of [validResourceName] after its two
    replacements, acl_controller.go:685-686. *)
Definition truncatedName (name : string) : string :=
  GoString.ofBytes
    (Regexp.dropLeading 0 (Regexp.replaceOutside 0 (GoString.bytes name))).

(** The local [digest], acl_controller.go:688. *)
Definition digest (name : string) : string :=
  GoString.prefix 10 (sha256String name).

(** [validResourceName], acl_controller.go:680 *)
Definition validResourceName (name : string) : string :=
  if IsDNS1123Subdomain name then name
  else if (GoString.len (truncatedName name) <? maxChars - 11)%nat
  then truncatedName name +:+ "-" +:+ digest name
  else GoString.prefix (maxChars - 11) (truncatedName name)
         +:+ "-" +:+ digest name.


(** ** Slices, errors, durations *)

Definition slice (A : Type) : Type := option (list A).

Module Slice.

(** The elements a [range] visits. *)
Definition elems {A} (s : slice A) : list A := default [] s.

Definition len {A} (s : slice A) : nat := List.length (elems s).

(** [append(s, xs...)]: appending nothing to the nil slice leaves it
    nil. *)
Definition append {A} (s : slice A) (xs : list A) : slice A :=
  match s, xs with
  | None, [] => None
  | _, _ => Some (elems s ++ xs)
  end.

End Slice.

Record error := Error { NotFound : bool; message : string }.

(** [k8sErrors.IsNotFound] *)
Definition IsNotFound (err : option error) : bool :=
  match err with
  | Some e => NotFound e
  | None => false
  end.

(** [time.Duration], in nanoseconds. *)
Definition Minute : Z := 60 * 1000000000.

(** acl_controller.go:50 *)
Definition requeueAfter : Z := Minute * 10.

Module Result.
(** [ctrl.Result] *)
Record t := Make { Requeue : bool; RequeueAfter : Z }.
Definition zero : t := Make false 0.
End Result.

Definition NamespacedName : Type := string * string.

(** [ctrl.Request]: [req.Namespace] and [req.Name]. *)
Definition Request : Type := NamespacedName.
Definition reqNamespace (req : Request) : string := fst req.
Definition reqName (req : Request) : string := snd req.

(** ** The API types the controllers read and write

    The declarations live in [api/v1alpha1] and in the Kubernetes API
    packages; each record lists the fields the two controllers touch. *)

Module OwnerReference.
Record t := Make {
  APIVersion : string; Kind : string; Name : string; UID : string;
  Controller : bool; BlockOwnerDeletion : bool
}.
End OwnerReference.

Module TypeMeta.
Record t := Make { APIVersion : string; Kind : string }.
Definition zero : t := Make "" "".
End TypeMeta.

Module ObjectMeta.
Record t := Make {
  Namespace : string; Name : string; UID : string;
  CreationTimestamp : option string;
  OwnerReferences : list OwnerReference.t
}.
Definition zero : t := Make "" "" "" None [].
Definition named (name : string) : t := Make "" name "" None [].
Definition key (m : t) : NamespacedName := (Namespace m, Name m).
Definition setNamespace (ns : string) (m : t) : t :=
  Make ns (Name m) (UID m) (CreationTimestamp m) (OwnerReferences m).
Definition setName (n : string) (m : t) : t :=
  Make (Namespace m) n (UID m) (CreationTimestamp m) (OwnerReferences m).
Definition setCreationTimestamp (ts : option string) (m : t) : t :=
  Make (Namespace m) (Name m) (UID m) ts (OwnerReferences m).
Definition setOwnerReferences (o : list OwnerReference.t) (m : t) : t :=
  Make (Namespace m) (Name m) (UID m) (CreationTimestamp m) o.
End ObjectMeta.

Module ProtoPort.
(** [Number] is a [uint16]. *)
Record t := Make { Protocol : string; Number : Z }.
End ProtoPort.

Module ACLSpecRpaasInstance.
Record t := Make { ServiceName : string; Instance : string }.
End ACLSpecRpaasInstance.

Module ACLSpecExternalDNS.
Record t := Make { Name : string; Ports : list ProtoPort.t }.
End ACLSpecExternalDNS.

Module ACLSpecExternalIP.
Record t := Make { IP : string; Ports : list ProtoPort.t }.
End ACLSpecExternalIP.

Module ACLSpecSource.
Record t := Make {
  TsuruApp : string;
  RpaasInstance : option ACLSpecRpaasInstance.t
}.
Definition zero : t := Make "" None.
End ACLSpecSource.

Module ACLSpecDestination.
Record t := Make {
  TsuruApp : string;
  TsuruAppPool : string;
  ExternalDNS : option ACLSpecExternalDNS.t;
  ExternalIP : option ACLSpecExternalIP.t;
  RpaasInstance : option ACLSpecRpaasInstance.t
}.
End ACLSpecDestination.

Module ACLSpec.
Record t := Make {
  Source : ACLSpecSource.t;
  Destinations : list ACLSpecDestination.t
}.
Definition zero : t := Make ACLSpecSource.zero [].
End ACLSpec.

Module ACLStatus.
Record t := Make { NetworkPolicy : string; Ready : bool; Reason : string }.
Definition zero : t := Make "" false "".
End ACLStatus.

Module ACL.
Record t := Make {
  Type_ : TypeMeta.t;
  Meta : ObjectMeta.t;
  Spec : ACLSpec.t;
  Status : ACLStatus.t
}.
Definition zero : t :=
  Make TypeMeta.zero ObjectMeta.zero ACLSpec.zero ACLStatus.zero.
Definition setMeta (m : ObjectMeta.t) (a : t) : t :=
  Make (Type_ a) m (Spec a) (Status a).
Definition setStatus (s : ACLStatus.t) (a : t) : t :=
  Make (Type_ a) (Meta a) (Spec a) s.
End ACL.

Module LabelSelector.
Record t := Make { MatchLabels : option (gmap string string) }.
Definition zero : t := Make None.
End LabelSelector.

Module IPBlock.
Record t := Make { CIDR : string }.
End IPBlock.

Module NetworkPolicyPeer.
Record t := Make {
  PodSelector : option LabelSelector.t;
  NamespaceSelector : option LabelSelector.t;
  IPBlock : option IPBlock.t
}.
End NetworkPolicyPeer.

Module NetworkPolicyPort.
(** [Port] holds the [intstr.FromInt] of the port number. *)
Record t := Make { Protocol : option string; Port : option Z }.
End NetworkPolicyPort.

Module NetworkPolicyEgressRule.
Record t := Make {
  Ports : slice NetworkPolicyPort.t;
  To : slice NetworkPolicyPeer.t
}.
Definition setTo (to : slice NetworkPolicyPeer.t) (r : t) : t :=
  Make (Ports r) to.
End NetworkPolicyEgressRule.

Inductive PolicyType := PolicyTypeIngress | PolicyTypeEgress.

#[global] Instance PolicyType_eq_dec : EqDecision PolicyType.
Proof. solve_decision. Defined.

Module NetworkPolicySpec.
Record t := Make {
  PodSelector : LabelSelector.t;
  Egress : slice NetworkPolicyEgressRule.t;
  PolicyTypes : list PolicyType
}.
Definition zero : t := Make LabelSelector.zero None [].
Definition setPodSelector (s : LabelSelector.t) (x : t) : t :=
  Make s (Egress x) (PolicyTypes x).
Definition setEgress (e : slice NetworkPolicyEgressRule.t) (x : t) : t :=
  Make (PodSelector x) e (PolicyTypes x).
Definition setPolicyTypes (p : list PolicyType) (x : t) : t :=
  Make (PodSelector x) (Egress x) p.
End NetworkPolicySpec.

Module NetworkPolicy.
Record t := Make { Meta : ObjectMeta.t; Spec : NetworkPolicySpec.t }.
Definition zero : t := Make ObjectMeta.zero NetworkPolicySpec.zero.
Definition setMeta (m : ObjectMeta.t) (x : t) : t := Make m (Spec x).
Definition setSpec (s : NetworkPolicySpec.t) (x : t) : t := Make (Meta x) s.
End NetworkPolicy.

Module ResourceAddressStatus.
(** [IPs] is spelled [RouterIPs] in tsuruappadress_controller.go. *)
Record t := Make { Ready : bool; IPs : slice string; UpdatedAt : string }.
Definition zero : t := Make false None "".
End ResourceAddressStatus.

Module TsuruAppAddress.
(** Spelled [TsuruAppAdress] in tsuruappadress_controller.go;
    [SpecName] is [Spec.Name]. *)
Record t := Make {
  Meta : ObjectMeta.t;
  SpecName : string;
  Status : ResourceAddressStatus.t
}.
Definition zero : t := Make ObjectMeta.zero "" ResourceAddressStatus.zero.
Definition setMeta (m : ObjectMeta.t) (x : t) : t :=
  Make m (SpecName x) (Status x).
Definition setStatus (s : ResourceAddressStatus.t) (x : t) : t :=
  Make (Meta x) (SpecName x) s.
End TsuruAppAddress.

Module RpaasInstanceAddress.
Record t := Make {
  Meta : ObjectMeta.t;
  SpecServiceName : string;
  SpecInstance : string;
  Status : ResourceAddressStatus.t
}.
Definition zero : t :=
  Make ObjectMeta.zero "" "" ResourceAddressStatus.zero.
Definition setMeta (m : ObjectMeta.t) (x : t) : t :=
  Make m (SpecServiceName x) (SpecInstance x) (Status x).
Definition setStatus (s : ResourceAddressStatus.t) (x : t) : t :=
  Make (Meta x) (SpecServiceName x) (SpecInstance x) s.
End RpaasInstanceAddress.

Module ACLDNSEntryStatusIP.
Record t := Make { Address : string }.
End ACLDNSEntryStatusIP.

Module ACLDNSEntryStatus.
Record t := Make { Ready : bool; IPs : slice ACLDNSEntryStatusIP.t }.
Definition zero : t := Make false None.
End ACLDNSEntryStatus.

Module ACLDNSEntry.
(** [SpecHost] is [Spec.Host]. *)
Record t := Make {
  Meta : ObjectMeta.t;
  SpecHost : string;
  Status : ACLDNSEntryStatus.t
}.
Definition zero : t := Make ObjectMeta.zero "" ACLDNSEntryStatus.zero.
Definition setMeta (m : ObjectMeta.t) (x : t) : t :=
  Make m (SpecHost x) (Status x).
Definition setStatus (s : ACLDNSEntryStatus.t) (x : t) : t :=
  Make (Meta x) (SpecHost x) s.
End ACLDNSEntry.

(** [tsuruapi]: what [AppInfo] reports of an application. *)
Module AppRouter.
Record t := Make { Address : string; Addresses : list string }.
End AppRouter.

Module AppInfo.
Record t := Make { Routers : list AppRouter.t }.
Definition zero : t := Make [].
End AppInfo.

(** [corev1.Service], as the address cache hands it out. *)
Module Service.
Record t := Make {
  Namespace : string;
  Selector : option (gmap string string)
}.
End Service.

(** [reflect.DeepEqual] on these values is equality: a nil slice or map
    is [None] and differs from an empty one. *)
#[global] Instance LabelSelector_eq_dec : EqDecision LabelSelector.t.
Proof. solve_decision. Defined.
#[global] Instance IPBlock_eq_dec : EqDecision IPBlock.t.
Proof. solve_decision. Defined.
#[global] Instance NetworkPolicyPeer_eq_dec : EqDecision NetworkPolicyPeer.t.
Proof. solve_decision. Defined.
#[global] Instance NetworkPolicyPort_eq_dec : EqDecision NetworkPolicyPort.t.
Proof. solve_decision. Defined.
#[global] Instance NetworkPolicyEgressRule_eq_dec :
  EqDecision NetworkPolicyEgressRule.t.
Proof. solve_decision. Defined.

#[global] Instance ACLDNSEntryStatusIP_eq_dec :
  EqDecision ACLDNSEntryStatusIP.t.
Proof. solve_decision. Defined.

Definition DeepEqual {A} `{EqDecision A} (x y : A) : bool :=
  bool_decide (x = y).

(** ** The object store and the reconcilers' collaborators *)

Inductive Kind :=
  | KindACL
  | KindNetworkPolicy
  | KindTsuruAppAddress
  | KindACLDNSEntry
  | KindRpaasInstanceAddress.

#[global] Instance Kind_eq_dec : EqDecision Kind.
Proof. solve_decision. Defined.

#[global] Instance Kind_countable : Countable Kind.
Proof.
  refine (inj_countable'
    (fun k => match k with
              | KindACL => 0%nat
              | KindNetworkPolicy => 1%nat
              | KindTsuruAppAddress => 2%nat
              | KindACLDNSEntry => 3%nat
              | KindRpaasInstanceAddress => 4%nat
              end)
    (fun n => match n with
              | 0%nat => KindACL
              | 1%nat => KindNetworkPolicy
              | 2%nat => KindTsuruAppAddress
              | 3%nat => KindACLDNSEntry
              | _ => KindRpaasInstanceAddress
              end) _).
  intros []; reflexivity.
Defined.

(** [client.Object] *)
Inductive Object :=
  | ObjACL (x : ACL.t)
  | ObjNetworkPolicy (x : NetworkPolicy.t)
  | ObjTsuruAppAddress (x : TsuruAppAddress.t)
  | ObjACLDNSEntry (x : ACLDNSEntry.t)
  | ObjRpaasInstanceAddress (x : RpaasInstanceAddress.t).

(** What a reconciler asks of the outside: the four client verbs and
    the calls to the platform API, the resolver and the address cache. *)
Inductive Call :=
  | CallGet (k : Kind) (key : NamespacedName)
  | CallCreate (o : Object)
  | CallUpdate (o : Object)
  | CallStatusUpdate (o : Object)
  | CallAppInfo (appName : string)
  | CallServiceInstanceInfo (service instance : string)
  | CallLookupIPAddr (host : string)
  | CallGetByIP (ip : string).

(** The store, the answers it will give to the coming client calls
    ([None]: the call goes through; [Some e]: it is refused with [e]; an
    exhausted schedule refuses nothing), and the calls issued so far,
    latest first. *)
Record World := MkWorld {
  objects : gmap (Kind * NamespacedName) Object;
  faults : list (option error);
  calls : list Call
}.

(** The typed view of the store a [client.Client] gives. *)
Class Resource (X : Type) := {
  kind : Kind;
  toObject : X -> Object;
  ofObject : Object -> option X;
  meta : X -> ObjectMeta.t;
  withMeta : ObjectMeta.t -> X -> X;
  zero : X;
  (** the stored object with the status of the given one *)
  withStatusOf : X -> X -> X
}.

#[global] Instance ACL_resource : Resource ACL.t := {|
  kind := KindACL;
  toObject := ObjACL;
  ofObject o := match o with ObjACL x => Some x | _ => None end;
  meta := ACL.Meta;
  withMeta := ACL.setMeta;
  zero := ACL.zero;
  withStatusOf stored given := ACL.setStatus (ACL.Status given) stored
|}.

#[global] Instance NetworkPolicy_resource : Resource NetworkPolicy.t := {|
  kind := KindNetworkPolicy;
  toObject := ObjNetworkPolicy;
  ofObject o := match o with ObjNetworkPolicy x => Some x | _ => None end;
  meta := NetworkPolicy.Meta;
  withMeta := NetworkPolicy.setMeta;
  zero := NetworkPolicy.zero;
  withStatusOf stored given := stored
|}.

#[global] Instance TsuruAppAddress_resource : Resource TsuruAppAddress.t := {|
  kind := KindTsuruAppAddress;
  toObject := ObjTsuruAppAddress;
  ofObject o := match o with ObjTsuruAppAddress x => Some x | _ => None end;
  meta := TsuruAppAddress.Meta;
  withMeta := TsuruAppAddress.setMeta;
  zero := TsuruAppAddress.zero;
  withStatusOf stored given :=
    TsuruAppAddress.setStatus (TsuruAppAddress.Status given) stored
|}.

#[global] Instance ACLDNSEntry_resource : Resource ACLDNSEntry.t := {|
  kind := KindACLDNSEntry;
  toObject := ObjACLDNSEntry;
  ofObject o := match o with ObjACLDNSEntry x => Some x | _ => None end;
  meta := ACLDNSEntry.Meta;
  withMeta := ACLDNSEntry.setMeta;
  zero := ACLDNSEntry.zero;
  withStatusOf stored given :=
    ACLDNSEntry.setStatus (ACLDNSEntry.Status given) stored
|}.

#[global] Instance RpaasInstanceAddress_resource :
  Resource RpaasInstanceAddress.t := {|
  kind := KindRpaasInstanceAddress;
  toObject := ObjRpaasInstanceAddress;
  ofObject o :=
    match o with ObjRpaasInstanceAddress x => Some x | _ => None end;
  meta := RpaasInstanceAddress.Meta;
  withMeta := RpaasInstanceAddress.setMeta;
  zero := RpaasInstanceAddress.zero;
  withStatusOf stored given :=
    RpaasInstanceAddress.setStatus (RpaasInstanceAddress.Status given) stored
|}.

(** Everything the two controllers call that is not part of them. *)
Record Externals := {
  (** [TsuruAPI.AppInfo(ctx, name)] *)
  TsuruAPI_AppInfo : string -> AppInfo.t * option error;
  (** the platform API's report of a service instance's addresses *)
  TsuruAPI_ServiceInstanceInfo : string -> string -> list string * option error;
  (** [Resolver.LookupIPAddr(ctx, host)], each address by its [IP.String()] *)
  Resolver_LookupIPAddr : string -> list string * option error;
  (** [serviceCache.GetByIP(ctx, ip)], on one snapshot of the index *)
  serviceCache_GetByIP : string -> option Service.t * option error;
  (** [tsuruNet.URLToHost] *)
  URLToHost : string -> string;
  (** [strings.ToUpper] *)
  ToUpper : string -> string;
  (** [json.Marshal] of a destination *)
  Marshal : ACLSpecDestination.t -> string;
  (** the [%q] verb *)
  Quote : string -> string;
  (** the message of a [tsuruErrors.MultiError] holding several errors *)
  MultiErrorMessage : list error -> string;
  (** [time.Now().UTC().Format(time.RFC3339)], also the store's clock *)
  Now : string
}.

(** ** Stateful computations *)

Definition M (A : Type) : Type := World -> World * A.

Definition ret {A} (a : A) : M A := fun w => (w, a).

Definition bind {A B} (m : M A) (k : A -> M B) : M B :=
  fun w => let (w', a) := m w in k a w'.

Declare Scope go_scope.
Delimit Scope go_scope with go.
Notation "'let*' p := m 'in' k" := (bind m (fun p => k))
  (at level 10, p pattern, m at level 200, k at level 200,
   format "'[v' 'let*'  p  :=  m  'in'  '/' k ']'") : go_scope.
Local Open Scope go_scope.

Definition logged (c : Call) (w : World) : World :=
  MkWorld (objects w) (faults w) (c :: calls w).

(** A call outside the store: logged, answered by the collaborator. *)
Definition external {A} (c : Call) (answer : A) : M A :=
  fun w => (logged c w, answer).

(** A call to the store: logged, and refused if the schedule says so. *)
Definition request (c : Call) : M (option error) :=
  fun w =>
    match faults w with
    | [] => (logged c w, None)
    | f :: fs => (MkWorld (objects w) fs (c :: calls w), f)
    end.

Definition stored {X} `{Resource X} (key : NamespacedName) : M (option X) :=
  fun w => (w, objects w !! (kind, key) ≫= ofObject).

Definition store {X} `{Resource X} (key : NamespacedName) (x : X) : M unit :=
  fun w =>
    (MkWorld (<[(kind, key) := toObject x]> (objects w)) (faults w) (calls w),
     tt).

Definition notFound : error := Error true "not found".
Definition alreadyExists : error := Error false "already exists".

Section Client.

Context {X : Type} `{Resource X}.

(** [Client.Get(ctx, key, obj)] into a zero-valued [obj]. *)
Definition clientGet (key : NamespacedName) : M (X * option error) :=
  let* refused := request (CallGet kind key) in
  match refused with
  | Some e => ret (zero, Some e)
  | None =>
      let* found := stored key in
      match found with
      | Some x => ret (x, None)
      | None => ret (zero, Some notFound)
      end
  end.

(** [Client.Create(ctx, obj)]: the store stamps the creation time. *)
Definition clientCreate (now : string) (obj : X) : M (option error) :=
  let* refused := request (CallCreate (toObject obj)) in
  match refused with
  | Some e => ret (Some e)
  | None =>
      let* found := stored (X:=X) (ObjectMeta.key (meta obj)) in
      match found with
      | Some _ => ret (Some alreadyExists)
      | None =>
          let* _ :=
            store (ObjectMeta.key (meta obj))
                  (withMeta (ObjectMeta.setCreationTimestamp (Some now)
                               (meta obj)) obj) in
          ret None
      end
  end.

(** [Client.Update(ctx, obj)] *)
Definition clientUpdate (obj : X) : M (option error) :=
  let* refused := request (CallUpdate (toObject obj)) in
  match refused with
  | Some e => ret (Some e)
  | None =>
      let* found := stored (X:=X) (ObjectMeta.key (meta obj)) in
      match found with
      | None => ret (Some notFound)
      | Some _ => let* _ := store (ObjectMeta.key (meta obj)) obj in ret None
      end
  end.

(** [Client.Status().Update(ctx, obj)]: only the status is written. *)
Definition clientStatusUpdate (obj : X) : M (option error) :=
  let* refused := request (CallStatusUpdate (toObject obj)) in
  match refused with
  | Some e => ret (Some e)
  | None =>
      let* found := stored (X:=X) (ObjectMeta.key (meta obj)) in
      match found with
      | None => ret (Some notFound)
      | Some old =>
          let* _ := store (ObjectMeta.key (meta obj)) (withStatusOf old obj) in
          ret None
      end
  end.

End Client.

(** [sort.Strings]: ascending in the byte order of [<] on strings. *)
Definition sortStrings (l : list string) : list string :=
  merge_sort String.le l.

(** The two-way test both reconcilers make after a [Get]: a not-found
    answer is not an error to return. *)
Definition unlessNotFound (err : option error) : option error :=
  if IsNotFound err then None else err.

(** ** tsuruappadress_controller.go *)

Module TsuruAppAdressReconciler.
Section Reconciler.

Variable E : Externals.

(** [resolveAddress], tsuruappadress_controller.go:120; the ten-second
    deadline is the resolver's to honour. *)
Definition resolveAddress (addr : string) : M (list string * option error) :=
  external (CallLookupIPAddr addr) (Resolver_LookupIPAddr E addr).

(** The local [addrs], lines 76-85. *)
Definition routerAddrs (appInfo : AppInfo.t) : list string :=
  flat_map
    (fun r =>
       if (0 <? List.length (AppRouter.Addresses r))%nat
       then List.map (URLToHost E) (AppRouter.Addresses r)
       else [URLToHost E (AppRouter.Address r)])
    (AppInfo.Routers appInfo).

(** The loop filling [foundIPs], lines 88-98: a failed lookup is
    passed over. *)
Fixpoint resolveAll (addrs : list string) (foundIPs : gset string)
  : M (gset string) :=
  match addrs with
  | [] => ret foundIPs
  | addr :: rest =>
      let* (ipAddrs, err) := resolveAddress addr in
      match err with
      | Some _ => resolveAll rest foundIPs
      | None => resolveAll rest (foundIPs ∪ list_to_set ipAddrs)
      end
  end.

(** [Reconcile], tsuruappadress_controller.go:59 *)
Definition Reconcile (req : Request) : M (Result.t * option error) :=
  let* (appAddress, err) := clientGet (X:=TsuruAppAddress.t) req in
  if IsNotFound err then ret (Result.zero, None)
  else match err with
  | Some e => ret (Result.zero, Some e)
  | None =>
      let name := TsuruAppAddress.SpecName appAddress in
      let* (appInfo, err) :=
        external (CallAppInfo name) (TsuruAPI_AppInfo E name) in
      match err with
      | Some e => ret (Result.zero, Some e)
      | None =>
          let* foundIPs := resolveAll (routerAddrs appInfo) ∅ in
          let resolvedIPs : slice string :=
            Some (sortStrings (elements foundIPs)) in
          let status := TsuruAppAddress.Status appAddress in
          if negb (ResourceAddressStatus.Ready status)
             || negb (DeepEqual resolvedIPs (ResourceAddressStatus.IPs status))
          then
            let appAddress :=
              TsuruAppAddress.setStatus
                (ResourceAddressStatus.Make true resolvedIPs (Now E))
                appAddress in
            let* err := clientStatusUpdate appAddress in
            match err with
            | Some e => ret (Result.zero, Some e)
            | None => ret (Result.zero, None)
            end
          else ret (Result.zero, None)
      end
  end.

End Reconciler.
End TsuruAppAdressReconciler.

(** ** The resolvers whose controllers are not in this development *)

Module TsuruAppAddressReconciler.
Section Reconciler.

Variable E : Externals.

(** Modelled from the spec: the resolver that [ensureTsuruAppAddress]
    runs on a record it has just created, acl_controller.go:499
    ([TsuruAppAddressReconciler.Reconcile], over the record
    [v1alpha1.TsuruAppAddress]), is not among the sources;
    tsuruappadress_controller.go holds the reconciler of the record of
    the other spelling.  The spec gives the platform-application
    resolver this contract: the record is read, and a record that is
    not there ends the run; the platform is asked for the routers of
    the application the record names, and a failure of the platform
    is returned; the host of every router address is looked up, a
    failed lookup is passed over; the addresses are deduplicated and
    sorted, and the status is written only when the record is not
    ready yet or the addresses differ. *)
Definition Reconcile (req : Request) : M (Result.t * option error) :=
  let* (appAddress, err) := clientGet (X:=TsuruAppAddress.t) req in
  if IsNotFound err then ret (Result.zero, None)
  else match err with
  | Some e => ret (Result.zero, Some e)
  | None =>
      let name := TsuruAppAddress.SpecName appAddress in
      let* (appInfo, err) :=
        external (CallAppInfo name) (TsuruAPI_AppInfo E name) in
      match err with
      | Some e => ret (Result.zero, Some e)
      | None =>
          let* foundIPs :=
            TsuruAppAdressReconciler.resolveAll E
              (TsuruAppAdressReconciler.routerAddrs E appInfo) ∅ in
          let resolvedIPs : slice string :=
            Some (sortStrings (elements foundIPs)) in
          let status := TsuruAppAddress.Status appAddress in
          if negb (ResourceAddressStatus.Ready status)
             || negb (DeepEqual resolvedIPs
                        (ResourceAddressStatus.IPs status))
          then
            let* err :=
              clientStatusUpdate
                (TsuruAppAddress.setStatus
                   (ResourceAddressStatus.Make true resolvedIPs (Now E))
                   appAddress) in
            ret (Result.zero, err)
          else ret (Result.zero, None)
      end
  end.

End Reconciler.
End TsuruAppAddressReconciler.

Module ACLDNSEntryReconciler.
Section Reconciler.

Variable E : Externals.

(** Modelled from the spec: the external-hostname resolver
    ([ACLDNSEntryReconciler.Reconcile]) is not among the sources.  The
    spec gives it the contract of the platform-application resolver with
    the address resolver itself as the upstream: the host of the record
    is looked up, a failed lookup is passed over, the addresses are
    deduplicated and sorted, and the status is written only when the
    record is not ready yet or the addresses differ. *)
Definition Reconcile (req : Request) : M (Result.t * option error) :=
  let* (dnsEntry, err) := clientGet (X:=ACLDNSEntry.t) req in
  if IsNotFound err then ret (Result.zero, None)
  else match err with
  | Some e => ret (Result.zero, Some e)
  | None =>
      let* foundIPs :=
        TsuruAppAdressReconciler.resolveAll E
          [ACLDNSEntry.SpecHost dnsEntry] ∅ in
      let resolvedIPs : slice ACLDNSEntryStatusIP.t :=
        Some (List.map ACLDNSEntryStatusIP.Make
                (sortStrings (elements foundIPs))) in
      let status := ACLDNSEntry.Status dnsEntry in
      if negb (ACLDNSEntryStatus.Ready status)
         || negb (DeepEqual resolvedIPs (ACLDNSEntryStatus.IPs status))
      then
        let* err :=
          clientStatusUpdate
            (ACLDNSEntry.setStatus
               (ACLDNSEntryStatus.Make true resolvedIPs) dnsEntry) in
        ret (Result.zero, err)
      else ret (Result.zero, None)
  end.

End Reconciler.
End ACLDNSEntryReconciler.

Module RpaasInstanceAddressReconciler.
Section Reconciler.

Variable E : Externals.

(** Modelled from the spec: the managed-instance resolver
    ([RpaasInstanceAddressReconciler.Reconcile]) is not among the
    sources.  The spec gives it the contract of the
    platform-application resolver with the platform's report of the
    instance as the upstream: a failure of that report is returned, a
    failed lookup of one address is passed over, the addresses are
    deduplicated and sorted, and the status is written only when the
    record is not ready yet or the addresses differ. *)
Definition Reconcile (req : Request) : M (Result.t * option error) :=
  let* (address, err) := clientGet (X:=RpaasInstanceAddress.t) req in
  if IsNotFound err then ret (Result.zero, None)
  else match err with
  | Some e => ret (Result.zero, Some e)
  | None =>
      let service := RpaasInstanceAddress.SpecServiceName address in
      let instance := RpaasInstanceAddress.SpecInstance address in
      let* (addrs, err) :=
        external (CallServiceInstanceInfo service instance)
                 (TsuruAPI_ServiceInstanceInfo E service instance) in
      match err with
      | Some e => ret (Result.zero, Some e)
      | None =>
          let* foundIPs :=
            TsuruAppAdressReconciler.resolveAll E
              (List.map (URLToHost E) addrs) ∅ in
          let resolvedIPs : slice string :=
            Some (sortStrings (elements foundIPs)) in
          let status := RpaasInstanceAddress.Status address in
          if negb (ResourceAddressStatus.Ready status)
             || negb (DeepEqual resolvedIPs (ResourceAddressStatus.IPs status))
          then
            let* err :=
              clientStatusUpdate
                (RpaasInstanceAddress.setStatus
                   (ResourceAddressStatus.Make true resolvedIPs (Now E))
                   address) in
            ret (Result.zero, err)
          else ret (Result.zero, None)
      end
  end.

End Reconciler.
End RpaasInstanceAddressReconciler.

(** ** acl_controller.go *)

(** [isWildCard], acl_controller.go:676 *)
Definition isWildCard (name : string) : bool :=
  match name with
  | EmptyString => false
  | String c _ => Ascii.eqb c "."%char
  end.

(** [metav1.NewControllerRef(acl, acl.GroupVersionKind())] *)
Definition NewControllerRef (acl : ACL.t) : OwnerReference.t :=
  OwnerReference.Make
    (TypeMeta.APIVersion (ACL.Type_ acl)) (TypeMeta.Kind (ACL.Type_ acl))
    (ObjectMeta.Name (ACL.Meta acl)) (ObjectMeta.UID (ACL.Meta acl))
    true true.

(** The two assignments of [setUnreadyStatus], acl_controller.go:201-202. *)
Definition unready (acl : ACL.t) (reason : string) : ACL.t :=
  ACL.setStatus
    (ACLStatus.Make (ACLStatus.NetworkPolicy (ACL.Status acl)) false reason)
    acl.

(** The local [networkPolicyName] of [Reconcile], acl_controller.go:78-81. *)
Definition networkPolicyName (acl : ACL.t) (req : Request) : string :=
  let networkPolicyName := ACLStatus.NetworkPolicy (ACL.Status acl) in
  if String.eqb networkPolicyName "" then "acl-" +:+ reqName req
  else networkPolicyName.

Module ACLReconciler.
Section Reconciler.

Variable E : Externals.

(** [setUnreadyStatus], acl_controller.go:198 *)
Definition setUnreadyStatus (acl : ACL.t) (reason : string)
  : M (option error) :=
  let acl := unready acl reason in
  clientStatusUpdate acl.

(** [podSelectorForTsuruApp], acl_controller.go:603 *)
Definition podSelectorForTsuruApp (tsuruApp : string)
  : option (gmap string string) :=
  Some {[ "tsuru.io/app-name" := tsuruApp ]}.

(** [podSelectorForRpasInstance], acl_controller.go:609 *)
Definition podSelectorForRpasInstance (rpaasInstance : ACLSpecRpaasInstance.t)
  : option (gmap string string) :=
  Some (<[ "rpaas.extensions.tsuru.io/instance-name" :=
             ACLSpecRpaasInstance.Instance rpaasInstance ]>
        {[ "rpaas.extensions.tsuru.io/service-name" :=
             ACLSpecRpaasInstance.ServiceName rpaasInstance ]}).

(** [podSelectorForSource], acl_controller.go:211 *)
Definition podSelectorForSource (source : ACLSpecSource.t)
  : option (gmap string string) :=
  if negb (String.eqb (ACLSpecSource.TsuruApp source) "")
  then podSelectorForTsuruApp (ACLSpecSource.TsuruApp source)
  else match ACLSpecSource.RpaasInstance source with
       | Some rpaasInstance => podSelectorForRpasInstance rpaasInstance
       | None => None
       end.

(** [ports], acl_controller.go:585 *)
Definition ports (p : list ProtoPort.t) : slice NetworkPolicyPort.t :=
  Some (List.map
          (fun port =>
             let protocol :=
               if negb (String.eqb (ProtoPort.Protocol port) "")
               then Some (ToUpper E (ProtoPort.Protocol port))
               else None in
             NetworkPolicyPort.Make protocol (Some (ProtoPort.Number port)))
          p).

Definition ipBlockPeer (cidr : string) : NetworkPolicyPeer.t :=
  NetworkPolicyPeer.Make None None (Some (IPBlock.Make cidr)).

Definition podSelectorPeer (labels : option (gmap string string))
  : NetworkPolicyPeer.t :=
  NetworkPolicyPeer.Make (Some (LabelSelector.Make labels)) None None.

(** [egressRulesForExternalIP], acl_controller.go:355 *)
Definition egressRulesForExternalIP (externalIP : ACLSpecExternalIP.t)
  : list NetworkPolicyEgressRule.t * option error :=
  let cidr := ACLSpecExternalIP.IP externalIP in
  let cidr :=
    if negb (GoString.ContainsByte cidr "/")
    then if GoString.ContainsByte cidr ":" then cidr +:+ "/128"
         else if GoString.ContainsByte cidr "." then cidr +:+ "/32"
         else cidr
    else cidr in
  ([NetworkPolicyEgressRule.Make
      (ports (ACLSpecExternalIP.Ports externalIP))
      (Some [ipBlockPeer cidr])], None).

(** [errors.Wrapf(err, "could not generate egress rule for: %q", ip)] *)
Definition wrapRouterIP (err : error) (routerIP : string) : error :=
  Error (NotFound err)
        ("could not generate egress rule for: " +:+ Quote E routerIP
         +:+ ": " +:+ message err).

(** [egressRulesForResourceAddressStatus], acl_controller.go:271 *)
Fixpoint resourceAddressRules (ips : list string)
  : list NetworkPolicyEgressRule.t * list error :=
  match ips with
  | [] => ([], [])
  | routerIP :: rest =>
      let (addrEgresses, err) :=
        egressRulesForExternalIP (ACLSpecExternalIP.Make routerIP []) in
      let (egresses, errs) := resourceAddressRules rest in
      (addrEgresses ++ egresses,
       match err with
       | Some e => wrapRouterIP e routerIP :: errs
       | None => errs
       end)
  end.

Definition egressRulesForResourceAddressStatus
    (status : ResourceAddressStatus.t)
  : list NetworkPolicyEgressRule.t * list error :=
  resourceAddressRules (Slice.elems (ResourceAddressStatus.IPs status)).

(** [ToError] of [tsuruErrors.MultiError] *)
Definition ToError (allErrors : list error) : option error :=
  match allErrors with
  | [] => None
  | [e] => Some e
  | _ => Some (Error false (MultiErrorMessage E allErrors))
  end.

(** [ensureTsuruAppAddress], acl_controller.go:474 *)
Definition ensureTsuruAppAddress (appName : string)
  : M (TsuruAppAddress.t * option error) :=
  let resourceName := validResourceName appName in
  let* (existingTsuruAppAddress, err) :=
    clientGet (X:=TsuruAppAddress.t) ("", resourceName) in
  if IsNotFound err then
    let tsuruAppAddress :=
      TsuruAppAddress.Make (ObjectMeta.named resourceName) resourceName
                           ResourceAddressStatus.zero in
    let* err := clientCreate (Now E) tsuruAppAddress in
    match err with
    | Some e => ret (TsuruAppAddress.zero, Some e)
    | None =>
        let* (_, err) :=
          TsuruAppAddressReconciler.Reconcile E
            ("", ObjectMeta.Name (TsuruAppAddress.Meta tsuruAppAddress)) in
        match err with
        | Some e => ret (TsuruAppAddress.zero, Some e)
        | None => clientGet (X:=TsuruAppAddress.t) ("", resourceName)
        end
    end
  else match err with
       | Some e => ret (TsuruAppAddress.zero, Some e)
       | None => ret (existingTsuruAppAddress, None)
       end.

(** [ensureDNSEntry], acl_controller.go:419 *)
Definition ensureDNSEntry (host : string) : M (ACLDNSEntry.t * option error) :=
  let resourceName := validResourceName host in
  let* (existingDNSEntry, err) :=
    clientGet (X:=ACLDNSEntry.t) ("", resourceName) in
  if IsNotFound err then
    let dnsEntry :=
      ACLDNSEntry.Make (ObjectMeta.named resourceName) host
                       ACLDNSEntryStatus.zero in
    let* err := clientCreate (Now E) dnsEntry in
    match err with
    | Some e => ret (ACLDNSEntry.zero, Some e)
    | None =>
        let* (_, err) :=
          ACLDNSEntryReconciler.Reconcile E
            ("", ObjectMeta.Name (ACLDNSEntry.Meta dnsEntry)) in
        match err with
        | Some e => ret (ACLDNSEntry.zero, Some e)
        | None => clientGet (X:=ACLDNSEntry.t) ("", resourceName)
        end
    end
  else match err with
       | Some e => ret (ACLDNSEntry.zero, Some e)
       | None => ret (existingDNSEntry, None)
       end.

(** [ensureRpaasInstanceAddress], acl_controller.go:529 *)
Definition ensureRpaasInstanceAddress (rpaasInstance : ACLSpecRpaasInstance.t)
  : M (RpaasInstanceAddress.t * option error) :=
  let resourceName :=
    validResourceName (ACLSpecRpaasInstance.ServiceName rpaasInstance
                       +:+ "-" +:+ ACLSpecRpaasInstance.Instance rpaasInstance) in
  let* (existingRpaasInstanceAddress, err) :=
    clientGet (X:=RpaasInstanceAddress.t) ("", resourceName) in
  if IsNotFound err then
    let rpaasInstanceAddress :=
      RpaasInstanceAddress.Make
        (ObjectMeta.named resourceName)
        (ACLSpecRpaasInstance.ServiceName rpaasInstance)
        (ACLSpecRpaasInstance.Instance rpaasInstance)
        ResourceAddressStatus.zero in
    let* err := clientCreate (Now E) rpaasInstanceAddress in
    match err with
    | Some e => ret (RpaasInstanceAddress.zero, Some e)
    | None =>
        let* (_, err) :=
          RpaasInstanceAddressReconciler.Reconcile E
            ("", ObjectMeta.Name
                   (RpaasInstanceAddress.Meta rpaasInstanceAddress)) in
        match err with
        | Some e => ret (RpaasInstanceAddress.zero, Some e)
        | None => clientGet (X:=RpaasInstanceAddress.t) ("", resourceName)
        end
    end
  else match err with
       | Some e => ret (RpaasInstanceAddress.zero, Some e)
       | None => ret (existingRpaasInstanceAddress, None)
       end.

(** [egressRulesForTsuruApp], acl_controller.go:238 *)
Definition egressRulesForTsuruApp (tsuruApp : string)
  : M (list NetworkPolicyEgressRule.t * option error) :=
  let egress :=
    [NetworkPolicyEgressRule.Make None
       (Some [podSelectorPeer (podSelectorForTsuruApp tsuruApp)])] in
  let* (existingTsuruAppAddress, err) := ensureTsuruAppAddress tsuruApp in
  match err with
  | Some e => ret ([], Some e)
  | None =>
      let (resourceEgress, errors) :=
        egressRulesForResourceAddressStatus
          (TsuruAppAddress.Status existingTsuruAppAddress) in
      ret (egress ++ resourceEgress, ToError errors)
  end.

(** [egressRulesForTsuruAppPool], acl_controller.go:290 *)
Definition egressRulesForTsuruAppPool (tsuruAppPool : string)
  : list NetworkPolicyEgressRule.t * option error :=
  ([NetworkPolicyEgressRule.Make None
      (Some [podSelectorPeer (Some {[ "tsuru.io/app-pool" := tsuruAppPool ]})])],
   None).

(** The loop of [egressRulesForExternalDNS] over the entry's addresses,
    acl_controller.go:328-343. *)
Definition dnsPeers (ips : list ACLDNSEntryStatusIP.t)
  : list NetworkPolicyPeer.t :=
  flat_map
    (fun ip =>
       let address := ACLDNSEntryStatusIP.Address ip in
       if GoString.ContainsByte address ":"
       then [ipBlockPeer (address +:+ "/128")]
       else if GoString.ContainsByte address "."
       then [ipBlockPeer (address +:+ "/32")]
       else [])
    ips.

(** [egressRulesForExternalDNS], acl_controller.go:309 *)
Definition egressRulesForExternalDNS (externalDNS : ACLSpecExternalDNS.t)
  : M (list NetworkPolicyEgressRule.t * option error) :=
  if isWildCard (ACLSpecExternalDNS.Name externalDNS) then ret ([], None)
  else
    let* (existingDNSEntry, err) :=
      ensureDNSEntry (ACLSpecExternalDNS.Name externalDNS) in
    match err with
    | Some e => ret ([], Some e)
    | None =>
        let status := ACLDNSEntry.Status existingDNSEntry in
        if negb (ACLDNSEntryStatus.Ready status) then ret ([], None)
        else
          let to := dnsPeers (Slice.elems (ACLDNSEntryStatus.IPs status)) in
          ret ([NetworkPolicyEgressRule.Make
                  (ports (ACLSpecExternalDNS.Ports externalDNS))
                  (Some to)], None)
    end.

(** [egressRulesForRpaasInstance], acl_controller.go:383 *)
Definition egressRulesForRpaasInstance (rpaasInstance : ACLSpecRpaasInstance.t)
  : M (list NetworkPolicyEgressRule.t * option error) :=
  let egress :=
    [NetworkPolicyEgressRule.Make None
       (Some [podSelectorPeer (podSelectorForRpasInstance rpaasInstance)])] in
  let* (existingRpaasInstanceAddress, err) :=
    ensureRpaasInstanceAddress rpaasInstance in
  match err with
  | Some e => ret ([], Some e)
  | None =>
      let (resourceEgress, errors) :=
        egressRulesForResourceAddressStatus
          (RpaasInstanceAddress.Status existingRpaasInstanceAddress) in
      ret (egress ++ resourceEgress, ToError errors)
  end.

(** [egressRulesForDestination], acl_controller.go:223 *)
Definition egressRulesForDestination (destination : ACLSpecDestination.t)
  : M (list NetworkPolicyEgressRule.t * option error) :=
  if negb (String.eqb (ACLSpecDestination.TsuruApp destination) "")
  then egressRulesForTsuruApp (ACLSpecDestination.TsuruApp destination)
  else if negb (String.eqb (ACLSpecDestination.TsuruAppPool destination) "")
  then ret (egressRulesForTsuruAppPool
              (ACLSpecDestination.TsuruAppPool destination))
  else match ACLSpecDestination.ExternalDNS destination with
  | Some externalDNS => egressRulesForExternalDNS externalDNS
  | None =>
  match ACLSpecDestination.ExternalIP destination with
  | Some externalIP => ret (egressRulesForExternalIP externalIP)
  | None =>
  match ACLSpecDestination.RpaasInstance destination with
  | Some rpaasInstance => egressRulesForRpaasInstance rpaasInstance
  | None => ret ([], None)
  end end end.

(** The selector peer [fillPodSelectorByCIDR] adds for an owner,
    acl_controller.go:648-657. *)
Definition ownerPeer (svc : Service.t) : NetworkPolicyPeer.t :=
  NetworkPolicyPeer.Make
    (Some (LabelSelector.Make (Service.Selector svc)))
    (Some (LabelSelector.Make (Some {[ "name" := Service.Namespace svc ]})))
    None.

(** Whether a peer is looked up: an IP block ending in [/32] or
    [/128], acl_controller.go:635-636. *)
Definition singleHost (to : NetworkPolicyPeer.t) : option string :=
  match NetworkPolicyPeer.IPBlock to with
  | Some block =>
      if GoString.HasSuffix (IPBlock.CIDR block) "/32"
         || GoString.HasSuffix (IPBlock.CIDR block) "/128"
      then Some (GoString.SplitHead (IPBlock.CIDR block) "/")
      else None
  | None => None
  end.

(** The inner loop [toLoop] of [fillPodSelectorByCIDR]. *)
Fixpoint toLoop (tos : list NetworkPolicyPeer.t)
                (newDestinations : list NetworkPolicyPeer.t)
  : M (list NetworkPolicyPeer.t * option error) :=
  match tos with
  | [] => ret (newDestinations, None)
  | to :: rest =>
      match singleHost to with
      | Some ip =>
          let* (svc, err) :=
            external (CallGetByIP ip) (serviceCache_GetByIP E ip) in
          match err with
          | Some e => ret (newDestinations, Some e)
          | None =>
              match svc with
              | None => toLoop rest newDestinations
              | Some svc => toLoop rest (newDestinations ++ [ownerPeer svc])
              end
          end
      | None => toLoop rest newDestinations
      end
  end.

(** [fillPodSelectorByCIDR], acl_controller.go:628.  The Go function
    writes into the caller's slice; the rules as they stand when it
    returns are part of the result here. *)
Fixpoint fillPodSelectorByCIDR (rules : list NetworkPolicyEgressRule.t)
  : M (list NetworkPolicyEgressRule.t * option error) :=
  match rules with
  | [] => ret ([], None)
  | egressRule :: rest =>
      let* (newDestinations, err) :=
        toLoop (Slice.elems (NetworkPolicyEgressRule.To egressRule)) [] in
      match err with
      | Some e => ret (rules, Some e)
      | None =>
          let filled :=
            NetworkPolicyEgressRule.setTo
              (Slice.append (NetworkPolicyEgressRule.To egressRule)
                            newDestinations)
              egressRule in
          let* (rest', err) := fillPodSelectorByCIDR rest in
          ret (filled :: rest', err)
      end
  end.

(** The loop of [Reconcile] over the destinations,
    acl_controller.go:126-137: the rules gathered, or the first
    destination that failed with its error. *)
Fixpoint destinationsLoop (destinations : list ACLSpecDestination.t)
                          (newEgressRules : list NetworkPolicyEgressRule.t)
  : M (list NetworkPolicyEgressRule.t
       * option (ACLSpecDestination.t * error)) :=
  match destinations with
  | [] => ret (newEgressRules, None)
  | destination :: rest =>
      let* (egressRules, err) := egressRulesForDestination destination in
      match err with
      | Some e => ret (newEgressRules, Some (destination, e))
      | None => destinationsLoop rest (newEgressRules ++ egressRules)
      end
  end.

(** The reason written when a destination fails, acl_controller.go:132. *)
Definition destinationFailure (destination : ACLSpecDestination.t)
                              (err : error) : string :=
  "could not generate egress rule for destination "
  +:+ Marshal E destination +:+ ", err: " +:+ message err.

(** The condition of acl_controller.go:107. *)
Definition policyTypesDiffer (types : list PolicyType) : bool :=
  let len := List.length types in
  ((len =? 1)%nat
   && negb (bool_decide (head types = Some PolicyTypeEgress)))
  || negb (len =? 1)%nat.

(** The tail of [Reconcile], acl_controller.go:184-195. *)
Definition finish (statusNeedsUpdate : bool) (acl : ACL.t)
  : M (Result.t * option error) :=
  if statusNeedsUpdate then
    let* err := clientStatusUpdate acl in
    match err with
    | Some e => ret (Result.zero, Some e)
    | None => ret (Result.Make true requeueAfter, None)
    end
  else ret (Result.Make true requeueAfter, None).

(** [Reconcile], acl_controller.go:66 *)
Definition Reconcile (req : Request) : M (Result.t * option error) :=
  let* (acl, err) := clientGet (X:=ACL.t) req in
  match unlessNotFound err with
  | Some e => ret (Result.zero, Some e)
  | None =>
  let networkPolicyName := networkPolicyName acl req in
  let* (networkPolicy, err) :=
    clientGet (X:=NetworkPolicy.t) (reqNamespace req, networkPolicyName) in
  match unlessNotFound err with
  | Some e => ret (Result.zero, Some e)
  | None =>
  let networkPolicyHasChanges := false in
  let statusNeedsUpdate := false in
  let networkPolicy :=
    NetworkPolicy.setMeta
      (ObjectMeta.setName networkPolicyName
         (ObjectMeta.setNamespace (ObjectMeta.Namespace (ACL.Meta acl))
            (NetworkPolicy.Meta networkPolicy)))
      networkPolicy in
  let '(networkPolicy, networkPolicyHasChanges) :=
    if (List.length (ObjectMeta.OwnerReferences
                       (NetworkPolicy.Meta networkPolicy)) =? 0)%nat
    then (NetworkPolicy.setMeta
            (ObjectMeta.setOwnerReferences [NewControllerRef acl]
               (NetworkPolicy.Meta networkPolicy))
            networkPolicy, true)
    else (networkPolicy, networkPolicyHasChanges) in
  let '(networkPolicy, networkPolicyHasChanges) :=
    if policyTypesDiffer
         (NetworkPolicySpec.PolicyTypes (NetworkPolicy.Spec networkPolicy))
    then (NetworkPolicy.setSpec
            (NetworkPolicySpec.setPolicyTypes [PolicyTypeEgress]
               (NetworkPolicy.Spec networkPolicy))
            networkPolicy, true)
    else (networkPolicy, networkPolicyHasChanges) in
  let podSelector := podSelectorForSource (ACLSpec.Source (ACL.Spec acl)) in
  match podSelector with
  | None =>
      let* err :=
        setUnreadyStatus acl "No podSelector generated by spec.source" in
      ret (Result.zero, err)
  | Some _ =>
  let '(networkPolicy, networkPolicyHasChanges) :=
    if negb (DeepEqual
               (LabelSelector.MatchLabels
                  (NetworkPolicySpec.PodSelector
                     (NetworkPolicy.Spec networkPolicy)))
               podSelector)
    then (NetworkPolicy.setSpec
            (NetworkPolicySpec.setPodSelector (LabelSelector.Make podSelector)
               (NetworkPolicy.Spec networkPolicy))
            networkPolicy, true)
    else (networkPolicy, networkPolicyHasChanges) in
  let* (newEgressRules, failed) :=
    destinationsLoop (ACLSpec.Destinations (ACL.Spec acl)) [] in
  match failed with
  | Some (destination, e) =>
      let* err := setUnreadyStatus acl (destinationFailure destination e) in
      ret (Result.zero, err)
  | None =>
  let* (newEgressRules, err) := fillPodSelectorByCIDR newEgressRules in
  match err with
  | Some e =>
      let* err :=
        setUnreadyStatus acl
          ("could not generate egress rule based on kubernetes selector, err: "
           +:+ message e) in
      ret (Result.zero, err)
  | None =>
  if (List.length newEgressRules =? 0)%nat then
    let* err :=
      setUnreadyStatus acl "No egress generated by spec.destinations" in
    ret (Result.zero, err)
  else
  let '(networkPolicy, networkPolicyHasChanges) :=
    if negb (DeepEqual
               (NetworkPolicySpec.Egress (NetworkPolicy.Spec networkPolicy))
               (Some newEgressRules))
    then (NetworkPolicy.setSpec
            (NetworkPolicySpec.setEgress (Some newEgressRules)
               (NetworkPolicy.Spec networkPolicy))
            networkPolicy, true)
    else (networkPolicy, networkPolicyHasChanges) in
  let ready :=
    ACL.setStatus
      (ACLStatus.Make (ObjectMeta.Name (NetworkPolicy.Meta networkPolicy))
                      true "")
      acl in
  if bool_decide (ObjectMeta.CreationTimestamp
                    (NetworkPolicy.Meta networkPolicy) = None) then
    let* err := clientCreate (Now E) networkPolicy in
    match err with
    | Some e => ret (Result.zero, Some e)
    | None => finish true ready
    end
  else if networkPolicyHasChanges then
    let* err := clientUpdate networkPolicy in
    match err with
    | Some e => ret (Result.zero, Some e)
    | None => finish true ready
    end
  else finish statusNeedsUpdate acl
  end end end end end.

End Reconciler.
End ACLReconciler.

(** ** What a run leaves behind *)

Definition kindOf (o : Object) : Kind :=
  match o with
  | ObjACL _ => KindACL
  | ObjNetworkPolicy _ => KindNetworkPolicy
  | ObjTsuruAppAddress _ => KindTsuruAppAddress
  | ObjACLDNSEntry _ => KindACLDNSEntry
  | ObjRpaasInstanceAddress _ => KindRpaasInstanceAddress
  end.

(** The calls issued between [w] and a later [w'], latest first. *)
Definition issuedSince (w w' : World) : list Call :=
  firstn (List.length (calls w') - List.length (calls w)) (calls w').

(** A write to the store, of any kind. *)
Definition isWrite (c : Call) : bool :=
  match c with
  | CallCreate _ | CallUpdate _ | CallStatusUpdate _ => true
  | _ => false
  end.

(** A create or update of a network policy. *)
Definition policyWrite (c : Call) : bool :=
  match c with
  | CallCreate (ObjNetworkPolicy _) | CallUpdate (ObjNetworkPolicy _) => true
  | _ => false
  end.

(** A write of the status of an ACL. *)
Definition statusWrite (c : Call) : bool :=
  match c with
  | CallStatusUpdate (ObjACL _) => true
  | _ => false
  end.

(** A write of the status of an ACL that says it is not ready. *)
Definition unreadyWrite (c : Call) : bool :=
  match c with
  | CallStatusUpdate (ObjACL acl) => negb (ACLStatus.Ready (ACL.Status acl))
  | _ => false
  end.

(** The kinds of the address records. *)
Definition addressKind (k : Kind) : bool :=
  match k with
  | KindTsuruAppAddress | KindACLDNSEntry | KindRpaasInstanceAddress => true
  | _ => false
  end.

(** The calls that concern address records and their upstreams. *)
Definition resolverCall (c : Call) : bool :=
  match c with
  | CallGet k _ => addressKind k
  | CallCreate o | CallStatusUpdate o => addressKind (kindOf o)
  | CallUpdate _ => false
  | CallAppInfo _ | CallServiceInstanceInfo _ _ | CallLookupIPAddr _ => true
  | CallGetByIP _ => false
  end.

Definition lookupCall (c : Call) : bool :=
  match c with
  | CallLookupIPAddr _ => true
  | _ => false
  end.

Definition cacheCall (c : Call) : bool :=
  match c with
  | CallGetByIP _ => true
  | _ => false
  end.

(** From [w] to [w'] only calls satisfying [P] were issued and only
    objects of the kinds in [K] were written. *)
Definition frame (P : Call -> bool) (K : Kind -> bool) (w w' : World) : Prop :=
  (exists delta, calls w' = delta ++ calls w /\ forallb P delta = true) /\
  (forall k key, K k = false -> objects w' !! (k, key) = objects w !! (k, key)).

(** The record of that name, when the store holds one. *)
Definition addressRecord (w : World) (key : NamespacedName)
  : option TsuruAppAddress.t :=
  objects w !! (KindTsuruAppAddress, key) ≫= ofObject.

Definition storedACL (w : World) (key : NamespacedName) : option ACL.t :=
  objects w !! (KindACL, key) ≫= ofObject.

Definition storedPolicy (w : World) (key : NamespacedName)
  : option NetworkPolicy.t :=
  objects w !! (KindNetworkPolicy, key) ≫= ofObject.

(** An address one of the application's routers resolved to. *)
Definition resolvedFrom (E : Externals) (appInfo : AppInfo.t) (ip : string)
  : Prop :=
  exists addr answer,
    addr ∈ TsuruAppAdressReconciler.routerAddrs E appInfo
    /\ Resolver_LookupIPAddr E addr = (answer, None)
    /\ ip ∈ answer.

(** An address the platform's report leads to: some router of the
    report lists a URL among its addresses or, listing none, has it as
    its address, and the lookup of that URL's host answered with the
    address. *)
Definition routerResolved (E : Externals) (appInfo : AppInfo.t) (ip : string)
  : Prop :=
  exists router url answer,
    router ∈ AppInfo.Routers appInfo
    /\ (url ∈ AppRouter.Addresses router
        \/ (AppRouter.Addresses router = []
            /\ url = AppRouter.Address router))
    /\ Resolver_LookupIPAddr E (URLToHost E url) = (answer, None)
    /\ ip ∈ answer.

(** The kind of object a call writes, if it writes. *)
Definition written (c : Call) : option Kind :=
  match c with
  | CallCreate o | CallUpdate o | CallStatusUpdate o => Some (kindOf o)
  | _ => None
  end.

(** A call that writes neither an ACL nor a network policy. *)
Definition quietCall (c : Call) : bool :=
  match written c with
  | Some k => addressKind k
  | None => true
  end.

(** A rule after enrichment: the ports and the peers of before, then
    the appended peers. *)
Definition enriched (E : Externals) (complete : bool)
    (rule rule' : NetworkPolicyEgressRule.t) : Prop :=
  NetworkPolicyEgressRule.Ports rule' = NetworkPolicyEgressRule.Ports rule
  /\ exists added,
       Slice.elems (NetworkPolicyEgressRule.To rule')
       = Slice.elems (NetworkPolicyEgressRule.To rule) ++ added
       /\ (forall peer, peer ∈ added ->
             exists svc, peer = ACLReconciler.ownerPeer svc)
       /\ (complete = true ->
           forall to ip svc,
             to ∈ Slice.elems (NetworkPolicyEgressRule.To rule) ->
             ACLReconciler.singleHost to = Some ip ->
             serviceCache_GetByIP E ip = (Some svc, None) ->
             ACLReconciler.ownerPeer svc ∈ added).

(** A pass from [w] that stops by writing [acl] not ready for [reason]:
    the status write is its last call and its only write of an ACL or
    of a network policy, no policy is created or updated and the stored
    policies are those of before, the result is the empty one, and when
    the store takes the write the stored ACL is not ready, with that
    reason. *)
Definition stopsUnready (run : World * (Result.t * option error))
    (w : World) (acl : ACL.t) (reason : string) : Prop :=
  let '(w', (result, err)) := run in
  result = Result.zero
  /\ head (issuedSince w w') = Some (CallStatusUpdate (ObjACL (unready acl reason)))
  /\ filter (fun c => quietCall c = false) (issuedSince w w')
     = [CallStatusUpdate (ObjACL (unready acl reason))]
  /\ filter (fun c => policyWrite c = true) (issuedSince w w') = []
  /\ (forall key, storedPolicy w' key = storedPolicy w key)
  /\ (err = None ->
      exists after,
        storedACL w' (ObjectMeta.key (ACL.Meta acl)) = Some after
        /\ ACLStatus.Ready (ACL.Status after) = false
        /\ ACLStatus.Reason (ACL.Status after) = reason).

(** From [w] to [w'] no status write said an ACL is not ready. *)
Definition calm (w w' : World) : Prop :=
  exists delta,
    calls w' = delta ++ calls w
    /\ forallb (fun c => negb (unreadyWrite c)) delta = true.

(** ** A small cluster to run the controllers on *)

Module Scenario.

Definition dbRouter : AppRouter.t := AppRouter.Make "db.example.com" [].

Definition dbService : Service.t :=
  Service.Make "data" (Some {[ "role" := "db" ]}).

(** The platform knows the application [db] behind one router, the
    resolver knows that router's host, and the address cache knows the
    owner of one of its addresses. *)
Definition externals : Externals := {|
  TsuruAPI_AppInfo name :=
    if String.eqb name "db" then (AppInfo.Make [dbRouter], None)
    else (AppInfo.zero, Some (Error false "app not found"));
  TsuruAPI_ServiceInstanceInfo service instance :=
    ([], Some (Error false "instance not found"));
  Resolver_LookupIPAddr host :=
    if String.eqb host "db.example.com"
    then (["10.0.0.9"; "10.0.0.8"; "10.0.0.9"], None)
    else ([], Some (Error false "no such host"));
  serviceCache_GetByIP ip :=
    if String.eqb ip "10.0.0.9" then (Some dbService, None)
    else (None, None);
  URLToHost url := url;
  ToUpper s := s;
  Marshal destination :=
    "{tsuruApp: " +:+ ACLSpecDestination.TsuruApp destination +:+ "}";
  Quote s := s;
  MultiErrorMessage errs := "multiple errors reported";
  Now := "2022-08-01T12:00:00Z"
|}.

(** A platform that reports [db] but whose resolver answers nothing. *)
Definition deafResolver : Externals := {|
  TsuruAPI_AppInfo := TsuruAPI_AppInfo externals;
  TsuruAPI_ServiceInstanceInfo := TsuruAPI_ServiceInstanceInfo externals;
  Resolver_LookupIPAddr host := ([], Some (Error false "no such host"));
  serviceCache_GetByIP := serviceCache_GetByIP externals;
  URLToHost := URLToHost externals;
  ToUpper := ToUpper externals;
  Marshal := Marshal externals;
  Quote := Quote externals;
  MultiErrorMessage := MultiErrorMessage externals;
  Now := Now externals
|}.

Definition world (objs : list Object) : World :=
  MkWorld
    (list_to_map
       (List.map
          (fun o =>
             let m :=
               match o with
               | ObjACL x => ACL.Meta x
               | ObjNetworkPolicy x => NetworkPolicy.Meta x
               | ObjTsuruAppAddress x => TsuruAppAddress.Meta x
               | ObjACLDNSEntry x => ACLDNSEntry.Meta x
               | ObjRpaasInstanceAddress x => RpaasInstanceAddress.Meta x
               end in
             ((kindOf o, ObjectMeta.key m), o))
          objs))
    [] [].

Definition request : Request := ("apps", "web").

Definition aclOf (destinations : list ACLSpecDestination.t) : ACL.t :=
  ACL.Make
    (TypeMeta.Make "extensions.tsuru.io/v1alpha1" "ACL")
    (ObjectMeta.Make "apps" "web" "uid-web" (Some "2022-07-01T00:00:00Z") [])
    (ACLSpec.Make (ACLSpecSource.Make "web" None) destinations)
    ACLStatus.zero.

Definition toIP (ip : string) : ACLSpecDestination.t :=
  ACLSpecDestination.Make "" ""
    None (Some (ACLSpecExternalIP.Make ip [])) None.

Definition toApp (app : string) : ACLSpecDestination.t :=
  ACLSpecDestination.Make app "" None None None.

Definition toDNS (name : string) : ACLSpecDestination.t :=
  ACLSpecDestination.Make "" ""
    (Some (ACLSpecExternalDNS.Make name [])) None None.

(** One reachable address, then an application the platform does not
    know. *)
Definition aclGhost : ACL.t := aclOf [toIP "10.0.0.5"; toApp "ghost"].

(** A wildcard hostname alone. *)
Definition aclWildcard : ACL.t := aclOf [toDNS ".example.com"].

(** One literal address, with its policy already in the store. *)
Definition aclLiteral : ACL.t := aclOf [toIP "10.0.0.5"].

Definition literalRules : list NetworkPolicyEgressRule.t :=
  [NetworkPolicyEgressRule.Make (Some [])
     (Some [ACLReconciler.ipBlockPeer "10.0.0.5/32"])].

Definition policyLiteral : NetworkPolicy.t :=
  NetworkPolicy.Make
    (ObjectMeta.Make "apps" "acl-web" "uid-policy"
       (Some "2022-07-01T00:00:01Z") [NewControllerRef aclLiteral])
    (NetworkPolicySpec.Make
       (LabelSelector.Make (Some {[ "tsuru.io/app-name" := "web" ]}))
       (Some literalRules)
       [PolicyTypeEgress]).

(** The address record of [db], not resolved yet. *)
Definition dbAddress : TsuruAppAddress.t :=
  TsuruAppAddress.Make (ObjectMeta.named "db") "db"
                       ResourceAddressStatus.zero.

(** A rule with the literal peer of an address the cache knows and one
    it does not know. *)
Definition dbRules : list NetworkPolicyEgressRule.t :=
  [NetworkPolicyEgressRule.Make None
     (Some [ACLReconciler.ipBlockPeer "10.0.0.9/32";
            ACLReconciler.ipBlockPeer "10.0.0.8/32"])].

(** The address record of [db] as a run of its resolver leaves it. *)
Definition dbResolved : TsuruAppAddress.t :=
  TsuruAppAddress.Make (ObjectMeta.named "db") "db"
    (ResourceAddressStatus.Make true (Some ["10.0.0.8"; "10.0.0.9"])
                                "2022-08-01T12:00:00Z").

(** A platform on which the application is called [My_App]. *)
Definition capitals : Externals := {|
  TsuruAPI_AppInfo name :=
    if String.eqb name "My_App" then (AppInfo.Make [dbRouter], None)
    else (AppInfo.zero, Some (Error false "app not found"));
  TsuruAPI_ServiceInstanceInfo := TsuruAPI_ServiceInstanceInfo externals;
  Resolver_LookupIPAddr := Resolver_LookupIPAddr externals;
  serviceCache_GetByIP := serviceCache_GetByIP externals;
  URLToHost := URLToHost externals;
  ToUpper := ToUpper externals;
  Marshal := Marshal externals;
  Quote := Quote externals;
  MultiErrorMessage := MultiErrorMessage externals;
  Now := Now externals
|}.

(** A key of three hundred bytes, each a legal one. *)
Definition longKey : string :=
  GoString.ofBytes (List.repeat "a"%char 300).

End Scenario.

(** ** Destinations that need no address record *)

(** A destination [egressRulesForDestination] answers without an
    address record: an application pool, a wildcard hostname, a literal
    address, or one with no field set. *)
Definition offline (destination : ACLSpecDestination.t) : bool :=
  String.eqb (ACLSpecDestination.TsuruApp destination) ""
  && (negb (String.eqb (ACLSpecDestination.TsuruAppPool destination) "")
      || match ACLSpecDestination.ExternalDNS destination with
         | Some externalDNS => isWildCard (ACLSpecExternalDNS.Name externalDNS)
         | None =>
             match ACLSpecDestination.ExternalIP destination with
             | Some _ => true
             | None =>
                 match ACLSpecDestination.RpaasInstance destination with
                 | Some _ => false
                 | None => true
                 end
             end
         end).

(** The value a selector gives a label, if it has the label. *)
Definition labelOf (key : string) (selector : option (gmap string string))
  : option string :=
  selector ≫= (fun labels => labels !! key).


(** ** The policy a pass aims at *)

#[global] Instance OwnerReference_eq_dec : EqDecision OwnerReference.t.
Proof. solve_decision. Defined.
#[global] Instance ObjectMeta_eq_dec : EqDecision ObjectMeta.t.
Proof. solve_decision. Defined.
#[global] Instance NetworkPolicySpec_eq_dec : EqDecision NetworkPolicySpec.t.
Proof. solve_decision. Defined.
#[global] Instance NetworkPolicy_eq_dec : EqDecision NetworkPolicy.t.
Proof. solve_decision. Defined.

(** The policy read, under the name and in the namespace the pass gives
    it (acl_controller.go:93-94). *)
Definition located (acl : ACL.t) (req : Request)
    (networkPolicy : NetworkPolicy.t) : NetworkPolicy.t :=
  NetworkPolicy.setMeta
    (ObjectMeta.setName (networkPolicyName acl req)
       (ObjectMeta.setNamespace (ObjectMeta.Namespace (ACL.Meta acl))
          (NetworkPolicy.Meta networkPolicy)))
    networkPolicy.

(** The policy of an ACL: the policy read, located, owned by the ACL
    unless it has owners already, of the egress type alone, selecting
    the pods of the source and allowing the rules computed. *)
Definition desired (acl : ACL.t) (req : Request)
    (networkPolicy : NetworkPolicy.t) (selector : gmap string string)
    (rules : list NetworkPolicyEgressRule.t) : NetworkPolicy.t :=
  let meta := NetworkPolicy.Meta (located acl req networkPolicy) in
  NetworkPolicy.Make
    (match ObjectMeta.OwnerReferences meta with
     | [] => ObjectMeta.setOwnerReferences [NewControllerRef acl] meta
     | _ :: _ => meta
     end)
    (NetworkPolicySpec.Make (LabelSelector.Make (Some selector))
                            (Some rules) [PolicyTypeEgress]).

(** The status a pass writes once the policy is written
    (acl_controller.go:164-166, 177-179). *)
Definition readied (acl : ACL.t) (req : Request) : ACL.t :=
  ACL.setStatus (ACLStatus.Make (networkPolicyName acl req) true "") acl.

(** A write of an ACL or of a network policy. *)
Definition loud (c : Call) : bool := negb (quietCall c).

(** ** Further fixtures *)

Module Outage.

(** The cluster of [Scenario] with an address cache that is down. *)
Definition brokenCache : Externals := {|
  TsuruAPI_AppInfo := TsuruAPI_AppInfo Scenario.externals;
  TsuruAPI_ServiceInstanceInfo :=
    TsuruAPI_ServiceInstanceInfo Scenario.externals;
  Resolver_LookupIPAddr := Resolver_LookupIPAddr Scenario.externals;
  serviceCache_GetByIP ip := (None, Some (Error false "cache is down"));
  URLToHost := URLToHost Scenario.externals;
  ToUpper := ToUpper Scenario.externals;
  Marshal := Marshal Scenario.externals;
  Quote := Quote Scenario.externals;
  MultiErrorMessage := MultiErrorMessage Scenario.externals;
  Now := Now Scenario.externals
|}.

(** A store that refuses the calls of the schedule, in order. *)
Definition refusing (schedule : list (option error)) (w : World) : World :=
  MkWorld (objects w) schedule (calls w).

Definition timeout : error := Error false "context deadline exceeded".

End Outage.

(** ** What a pass leaves of the ACLs *)

(** From [w] to [w'] no ACL appeared or disappeared, and each kept its
    type, its metadata and its spec. *)
Definition aclKept (w w' : World) : Prop :=
  forall key,
    match storedACL w key, storedACL w' key with
    | Some before, Some after =>
        ACL.Type_ after = ACL.Type_ before
        /\ ACL.Meta after = ACL.Meta before
        /\ ACL.Spec after = ACL.Spec before
    | None, None => True
    | _, _ => False
    end.

(** From [w] to [w'] the writes of an ACL or a policy were [writes],
    latest first, and the ACLs were kept. *)
Definition trail (w w' : World) (writes : list Call) : Prop :=
  (exists delta,
     calls w' = delta ++ calls w
     /\ filter (fun c => loud c = true) delta = writes)
  /\ aclKept w w'.

(** * Properties *)

(** ** Byte strings *)

Lemma bytes_ofBytes (l : list ascii) : GoString.bytes (GoString.ofBytes l) = l.
Proof. apply list_ascii_of_string_of_list_ascii. Qed.

Lemma ofBytes_bytes (s : string) : GoString.ofBytes (GoString.bytes s) = s.
Proof. apply string_of_list_ascii_of_string. Qed.

Lemma len_ofBytes (l : list ascii) :
  GoString.len (GoString.ofBytes l) = List.length l.
Proof. unfold GoString.len. now rewrite bytes_ofBytes. Qed.

Lemma bytes_app (s t : string) :
  GoString.bytes (s +:+ t) = GoString.bytes s ++ GoString.bytes t.
Proof.
  unfold GoString.bytes.
  induction s as [|c s IH]; simpl; [reflexivity|]. now rewrite IH.
Qed.

Lemma len_app (s t : string) :
  GoString.len (s +:+ t) = (GoString.len s + GoString.len t)%nat.
Proof. unfold GoString.len. now rewrite bytes_app, length_app. Qed.

Lemma prefix_all (n : nat) (s : string) :
  (GoString.len s <= n)%nat -> GoString.prefix n s = s.
Proof.
  intros Hn. unfold GoString.prefix.
  rewrite firstn_all2 by exact Hn. apply ofBytes_bytes.
Qed.

Lemma len_prefix (n : nat) (s : string) :
  (n <= GoString.len s)%nat -> GoString.len (GoString.prefix n s) = n.
Proof.
  intros Hn. unfold GoString.prefix.
  rewrite len_ofBytes. now apply firstn_length_le.
Qed.
Example SHA256_constants :
  nth 0 SHA256.K 0 = 0x428a2f98 /\ nth 63 SHA256.K 0 = 0xc67178f2
  /\ SHA256.h0 SHA256.init = 0x6a09e667 /\ SHA256.h7 SHA256.init = 0x5be0cd19.
Proof. vm_compute. repeat split. Qed.

Example sha256String_empty :
  sha256String "" =
  "e3b0c44298fc1c149afbf4c8996fb92427ae41e4649b934ca495991b7852b855".
Proof. vm_compute. reflexivity. Qed.

Example sha256String_abc :
  sha256String "abc" =
  "ba7816bf8f01cfea414140de5dae2223b00361a396177a9cb410ff61f20015ad".
Proof. vm_compute. reflexivity. Qed.

Example sha256String_two_blocks :
  sha256String "abcdbcdecdefdefgefghfghighijhijkijkljklmklmnlmnomnopnopq" =
  "248d6a61d20638b8e5c026930c3e6039a33ce45964ff2167f6ecedd419db06c1".
Proof. vm_compute. reflexivity. Qed.

Example validResourceName_legal :
  validResourceName "my-app.example.com" = "my-app.example.com".
Proof. vm_compute. reflexivity. Qed.

Example validResourceName_illegal :
  validResourceName "My_App" = "y--pp-0e86b84b26".
Proof. vm_compute. reflexivity. Qed.

(** A two-byte rune is one match of the class, an isolated continuation
    byte another. *)
Example validResourceName_utf8 :
  truncatedName (GoString.ofBytes
    ["a"; ascii_of_nat 195; ascii_of_nat 169; "b"; ascii_of_nat 169; "c"]%char)
  = "a-b-c".
Proof. vm_compute. reflexivity. Qed.

(** ** The identity namer *)

Lemma replaceOutside_length (l : list ascii) :
  forall skip, (List.length (Regexp.replaceOutside skip l) <= List.length l)%nat.
Proof.
  induction l as [|c l IH]; intros skip; simpl; [lia|].
  destruct skip as [|k].
  - destruct (Regexp.nameByte c); simpl.
    + specialize (IH 0%nat). lia.
    + specialize (IH (Regexp.runeSize c l - 1)%nat). lia.
  - specialize (IH k). lia.
Qed.

Lemma dropLeading_length (l : list ascii) :
  forall skip, (List.length (Regexp.dropLeading skip l) <= List.length l)%nat.
Proof.
  induction l as [|c l IH]; intros skip; simpl; [lia|].
  destruct skip as [|k].
  - destruct (Regexp.lowerAlnum c); simpl.
    + lia.
    + specialize (IH (Regexp.runeSize c l - 1)%nat). lia.
  - specialize (IH k). lia.
Qed.

(** Sanitizing never lengthens a name. *)
Lemma truncatedName_length (name : string) :
  (GoString.len (truncatedName name) <= GoString.len name)%nat.
Proof.
  unfold truncatedName. rewrite len_ofBytes.
  etransitivity; [apply dropLeading_length|].
  apply replaceOutside_length.
Qed.

Lemma hex_length (bs : list Z) :
  List.length (SHA256.hex bs) = (2 * List.length bs)%nat.
Proof.
  unfold SHA256.hex. induction bs as [|b bs IH]; simpl; [reflexivity|].
  rewrite IH. lia.
Qed.

Lemma Sum_length (msg : list Z) : List.length (SHA256.Sum msg) = 32%nat.
Proof.
  unfold SHA256.Sum.
  destruct (SHA256.blocks _ _ _) as [a b c d e f g h]. reflexivity.
Qed.

Lemma sha256String_length (str : string) :
  GoString.len (sha256String str) = 64%nat.
Proof.
  unfold sha256String. now rewrite len_ofBytes, hex_length, Sum_length.
Qed.

Lemma digest_length (name : string) : GoString.len (digest name) = 10%nat.
Proof.
  unfold digest. apply len_prefix. rewrite sha256String_length. lia.
Qed.

Lemma IsDNS1123Subdomain_length (name : string) :
  IsDNS1123Subdomain name = true ->
  (GoString.len name <= DNS1123SubdomainMaxLength)%nat.
Proof.
  unfold IsDNS1123Subdomain. intros H.
  apply andb_prop in H as [H _].
  apply negb_true_iff, Nat.ltb_ge in H. exact H.
Qed.

(** C7. A key whose sanitized form is longer than 253 bytes is named by
    the first 253 - 11 bytes of that form, a hyphen and the ten-byte
    digest prefix, 253 bytes in all.  A key that goes through sanitizing,
    that is, one that is not a legal name already, and whose sanitized
    form, hyphen and digest fit in 253 bytes is named by exactly these
    three.  A key that is a legal name already is its own name. *)
Theorem validResourceName_length_contract (name : string) :
  GoString.len (digest name) = 10%nat /\
  ((maxChars < GoString.len (truncatedName name))%nat ->
   validResourceName name
     = GoString.prefix (maxChars - 11) (truncatedName name)
         +:+ "-" +:+ digest name
   /\ GoString.len (validResourceName name) = maxChars) /\
  (IsDNS1123Subdomain name = false ->
   (GoString.len (truncatedName name) + 1 + GoString.len (digest name)
      <= maxChars)%nat ->
   validResourceName name = truncatedName name +:+ "-" +:+ digest name) /\
  (IsDNS1123Subdomain name = true -> validResourceName name = name).
Proof.
  split; [apply digest_length|]. split.
  - intros Hlong.
    assert (Hraw : IsDNS1123Subdomain name = false).
    { destruct (IsDNS1123Subdomain name) eqn:Hlegal; [|reflexivity].
      apply IsDNS1123Subdomain_length in Hlegal.
      pose proof (truncatedName_length name).
      unfold maxChars, DNS1123SubdomainMaxLength in *. lia. }
    assert (Hname : validResourceName name
                    = GoString.prefix (maxChars - 11) (truncatedName name)
                        +:+ "-" +:+ digest name).
    { unfold validResourceName. rewrite Hraw.
      destruct (Nat.ltb_spec (GoString.len (truncatedName name))
                             (maxChars - 11)) as [Hlt|_]; [|reflexivity].
      unfold maxChars in *. lia. }
    split; [exact Hname|].
    rewrite Hname, !len_app, digest_length, len_prefix.
    + unfold maxChars. reflexivity.
    + unfold maxChars in *. lia.
  - split.
    + intros Hraw Hfits. unfold validResourceName. rewrite Hraw.
      destruct (Nat.ltb_spec (GoString.len (truncatedName name))
                             (maxChars - 11)) as [Hlt|Hge]; [reflexivity|].
      rewrite prefix_all; [reflexivity|].
      rewrite digest_length in Hfits. unfold maxChars in *. lia.
    + intros Hlegal. unfold validResourceName. now rewrite Hlegal.
Qed.

(** ** Stateful computations and the store *)

Local Open Scope go_scope.

Lemma bind_inv {A B} (m : M A) (k : A -> M B) (w w' : World) (b : B) :
  bind m k w = (w', b) -> exists w1 a, m w = (w1, a) /\ k a w1 = (w', b).
Proof.
  unfold bind. destruct (m w) as [w1 a]. intros Hk. eauto.
Qed.

Lemma ret_inv {A} (a b : A) (w w' : World) :
  ret a w = (w', b) -> w' = w /\ b = a.
Proof. unfold ret. intros [= <- <-]. auto. Qed.

(** Takes a run apart, one call after the other. *)
Ltac unbind H :=
  let w := fresh "w" in
  let a := fresh "a" in
  let Hm := fresh "Hm" in
  apply bind_inv in H as (w & a & Hm & H).

Lemma issuedSince_app (w w' : World) (delta : list Call) :
  calls w' = delta ++ calls w -> issuedSince w w' = delta.
Proof.
  intros Hc. unfold issuedSince. rewrite Hc, length_app.
  replace (List.length delta + List.length (calls w)
           - List.length (calls w))%nat with (List.length delta) by lia.
  rewrite firstn_app, firstn_all, Nat.sub_diag. simpl. apply app_nil_r.
Qed.

Lemma frame_refl P K w : frame P K w w.
Proof. split; [exists []; auto | auto]. Qed.

Lemma frame_trans P K w1 w2 w3 :
  frame P K w1 w2 -> frame P K w2 w3 -> frame P K w1 w3.
Proof.
  intros [(d1 & Hc1 & Hp1) Ho1] [(d2 & Hc2 & Hp2) Ho2]. split.
  - exists (d2 ++ d1). rewrite Hc2, Hc1, app_assoc. split; [reflexivity|].
    rewrite forallb_app, Hp1, Hp2. reflexivity.
  - intros k key Hk. rewrite Ho2, Ho1; auto.
Qed.

Lemma frame_weaken (P Q : Call -> bool) (K L : Kind -> bool) w w' :
  (forall c, P c = true -> Q c = true) ->
  (forall k, K k = true -> L k = true) ->
  frame P K w w' -> frame Q L w w'.
Proof.
  intros HPQ HKL [(d & Hc & Hp) Ho]. split.
  - exists d. split; [exact Hc|].
    rewrite forallb_forall in *. auto.
  - intros k key Hk. apply Ho.
    destruct (K k) eqn:HK; [|reflexivity].
    apply HKL in HK. congruence.
Qed.

Lemma frame_issued P K w w' :
  frame P K w w' -> forallb P (issuedSince w w') = true.
Proof.
  intros [(d & Hc & Hp) _]. now rewrite (issuedSince_app _ _ _ Hc).
Qed.

Lemma external_frame {A} (P : Call -> bool) K c (answer a : A) w w' :
  external c answer w = (w', a) -> P c = true ->
  frame P K w w' /\ a = answer /\ objects w' = objects w
  /\ faults w' = faults w /\ calls w' = c :: calls w.
Proof.
  unfold external. intros [= <- <-] HP. repeat split; simpl; auto.
  exists [c]. simpl. now rewrite HP.
Qed.

Lemma request_inv c w w' refused :
  request c w = (w', refused) ->
  objects w' = objects w /\ calls w' = c :: calls w.
Proof.
  unfold request. destruct (faults w); intros [= <- <-]; auto.
Qed.

Section ClientFacts.

Context {X : Type} `{Resource X}.

Lemma clientGet_inv key w w' (x : X) err :
  clientGet key w = (w', (x, err)) ->
  objects w' = objects w /\ calls w' = CallGet kind key :: calls w
  /\ (err = None -> objects w !! (kind, key) ≫= ofObject = Some x)
  /\ (err <> None -> x = zero).
Proof.
  unfold clientGet. intros Hrun. unbind Hrun.
  apply request_inv in Hm as [Ho Hc].
  destruct a as [e|].
  - apply ret_inv in Hrun as [-> [= -> ->]]. repeat split; auto; congruence.
  - unbind Hrun. unfold stored in Hm. injection Hm as <- <-.
    destruct (objects w0 !! (kind, key) ≫= ofObject) as [y|] eqn:Hy;
      apply ret_inv in Hrun as [-> [= -> ->]];
      repeat split; auto; try congruence.
Qed.

Lemma clientCreate_inv now (obj : X) w w' err :
  clientCreate now obj w = (w', err) ->
  calls w' = CallCreate (toObject obj) :: calls w
  /\ (forall k key, k <> kind ->
        objects w' !! (k, key) = objects w !! (k, key))
  /\ (err = None ->
      objects w' =
      <[(kind, ObjectMeta.key (meta obj)) :=
          toObject (withMeta (ObjectMeta.setCreationTimestamp (Some now)
                                (meta obj)) obj)]> (objects w))
  /\ (err <> None -> objects w' = objects w).
Proof.
  unfold clientCreate. intros Hrun. unbind Hrun.
  apply request_inv in Hm as [Ho Hc].
  destruct a as [e|].
  { apply ret_inv in Hrun as [-> [= ->]].
    split; [exact Hc|]. split; [intros; now rewrite Ho|].
    split; [discriminate | auto]. }
  unbind Hrun. unfold stored in Hm. injection Hm as <- <-.
  destruct (objects w0 !! _ ≫= ofObject) as [y|] eqn:Hy.
  { apply ret_inv in Hrun as [-> [= ->]].
    split; [exact Hc|]. split; [intros; now rewrite Ho|].
    split; [discriminate | auto]. }
  unbind Hrun. unfold store in Hm. injection Hm as <- <-.
  apply ret_inv in Hrun as [-> [= ->]]. simpl.
  split; [exact Hc|]. split.
  { intros k key Hk. rewrite lookup_insert_ne, Ho; congruence. }
  split; [intros _; now rewrite Ho | congruence].
Qed.

Lemma clientUpdate_inv (obj : X) w w' err :
  clientUpdate obj w = (w', err) ->
  calls w' = CallUpdate (toObject obj) :: calls w
  /\ (forall k key, k <> kind ->
        objects w' !! (k, key) = objects w !! (k, key))
  /\ (err = None ->
      objects w' = <[(kind, ObjectMeta.key (meta obj)) := toObject obj]>
                     (objects w))
  /\ (err <> None -> objects w' = objects w).
Proof.
  unfold clientUpdate. intros Hrun. unbind Hrun.
  apply request_inv in Hm as [Ho Hc].
  destruct a as [e|].
  { apply ret_inv in Hrun as [-> [= ->]].
    split; [exact Hc|]. split; [intros; now rewrite Ho|].
    split; [discriminate | auto]. }
  unbind Hrun. unfold stored in Hm. injection Hm as <- <-.
  destruct (objects w0 !! _ ≫= ofObject) as [y|] eqn:Hy.
  - unbind Hrun. unfold store in Hm. injection Hm as <- <-.
    apply ret_inv in Hrun as [-> [= ->]]. simpl.
    split; [exact Hc|]. split.
    { intros k key Hk. rewrite lookup_insert_ne, Ho; congruence. }
    split; [intros _; now rewrite Ho | congruence].
  - apply ret_inv in Hrun as [-> [= ->]].
    split; [exact Hc|]. split; [intros; now rewrite Ho|].
    split; [discriminate | auto].
Qed.

Lemma clientStatusUpdate_inv (obj : X) w w' err :
  clientStatusUpdate obj w = (w', err) ->
  calls w' = CallStatusUpdate (toObject obj) :: calls w
  /\ (forall k key, k <> kind ->
        objects w' !! (k, key) = objects w !! (k, key))
  /\ (err = None ->
      exists old,
        objects w !! (kind, ObjectMeta.key (meta obj)) ≫= ofObject = Some old
        /\ objects w' =
           <[(kind, ObjectMeta.key (meta obj)) :=
               toObject (withStatusOf old obj)]> (objects w))
  /\ (err <> None -> objects w' = objects w).
Proof.
  unfold clientStatusUpdate. intros Hrun. unbind Hrun.
  apply request_inv in Hm as [Ho Hc].
  destruct a as [e|].
  { apply ret_inv in Hrun as [-> [= ->]].
    split; [exact Hc|]. split; [intros; now rewrite Ho|].
    split; [discriminate | auto]. }
  unbind Hrun. unfold stored in Hm. injection Hm as <- <-.
  destruct (objects w0 !! _ ≫= ofObject) as [y|] eqn:Hy.
  - unbind Hrun. unfold store in Hm. injection Hm as <- <-.
    apply ret_inv in Hrun as [-> [= ->]]. simpl.
    split; [exact Hc|]. split.
    { intros k key Hk. rewrite lookup_insert_ne, Ho; congruence. }
    split; [|congruence].
    intros _. exists y. rewrite <- Ho. auto.
  - apply ret_inv in Hrun as [-> [= ->]].
    split; [exact Hc|]. split; [intros; now rewrite Ho|].
    split; [discriminate | auto].
Qed.

End ClientFacts.

(** ** The platform-application resolver *)

Lemma sortStrings_sorted (l : list string) :
  StronglySorted String.le (sortStrings l).
Proof. unfold sortStrings. apply StronglySorted_merge_sort; apply _. Qed.

Lemma sortStrings_elem (l : list string) (x : string) :
  x ∈ sortStrings l <-> x ∈ l.
Proof. unfold sortStrings. now rewrite merge_sort_Permutation. Qed.

Lemma sortStrings_NoDup (l : list string) : NoDup l -> NoDup (sortStrings l).
Proof. unfold sortStrings. now rewrite merge_sort_Permutation. Qed.

Lemma resolveAll_inv E (addrs : list string) :
  forall (found : gset string) w w' s,
    TsuruAppAdressReconciler.resolveAll E addrs found w = (w', s) ->
    objects w' = objects w /\ faults w' = faults w
    /\ (exists delta, calls w' = delta ++ calls w
                      /\ forallb lookupCall delta = true)
    /\ (forall ip, ip ∈ s <->
          ip ∈ found \/
          exists addr answer,
            addr ∈ addrs /\ Resolver_LookupIPAddr E addr = (answer, None)
            /\ ip ∈ answer).
Proof.
  induction addrs as [|addr rest IH]; intros found w w' s Hrun.
  - apply ret_inv in Hrun as [-> ->]. repeat split; auto.
    + exists []. auto.
    + intros [?|(a & ans & Ha & _)]; [assumption|].
      apply elem_of_nil in Ha. contradiction.
  - simpl in Hrun. unbind Hrun.
    unfold TsuruAppAdressReconciler.resolveAddress, external in Hm.
    injection Hm as <- <-.
    destruct (Resolver_LookupIPAddr E addr) as [ipAddrs [e|]] eqn:Hlookup;
      apply IH in Hrun as (Ho & Hf & (delta & Hc & Hd) & Hs); simpl in *.
    + repeat split; auto.
      * exists (delta ++ [CallLookupIPAddr addr]).
        rewrite Hc, <- app_assoc. split; [reflexivity|].
        rewrite forallb_app, Hd. reflexivity.
      * intros Hip. apply Hs in Hip as [?|(a & ans & Ha & Hl & Hin)]; auto.
        right. exists a, ans. rewrite elem_of_cons. auto.
      * intros [?|(a & ans & Ha & Hl & Hin)]; apply Hs; auto.
        apply elem_of_cons in Ha as [->|Ha]; [congruence|].
        right. eauto.
    + repeat split; auto.
      * exists (delta ++ [CallLookupIPAddr addr]).
        rewrite Hc, <- app_assoc. split; [reflexivity|].
        rewrite forallb_app, Hd. reflexivity.
      * intros Hip. apply Hs in Hip as [Hip|(a & ans & Ha & Hl & Hin)].
        -- apply elem_of_union in Hip as [?|Hip]; auto.
           apply elem_of_list_to_set in Hip.
           right. exists addr, ipAddrs. rewrite elem_of_cons. auto.
        -- right. exists a, ans. rewrite elem_of_cons. auto.
      * intros [?|(a & ans & Ha & Hl & Hin)]; apply Hs.
        -- left. apply elem_of_union. auto.
        -- apply elem_of_cons in Ha as [->|Ha].
           ++ left. apply elem_of_union. right.
              apply elem_of_list_to_set. congruence.
           ++ right. eauto.
Qed.

(** The addresses the resolver writes: sorted, without duplicates, and
    exactly those its lookups gave. *)
Lemma resolvedIPs_spec E (appInfo : AppInfo.t) w w' (found : gset string) :
  TsuruAppAdressReconciler.resolveAll E
    (TsuruAppAdressReconciler.routerAddrs E appInfo) ∅ w = (w', found) ->
  StronglySorted String.le (sortStrings (elements found))
  /\ NoDup (sortStrings (elements found))
  /\ (forall ip, ip ∈ sortStrings (elements found)
                 <-> resolvedFrom E appInfo ip).
Proof.
  intros Hrun. apply resolveAll_inv in Hrun as (_ & _ & _ & Hs).
  split; [apply sortStrings_sorted|].
  split; [apply sortStrings_NoDup, NoDup_elements|].
  intros ip. rewrite sortStrings_elem, elem_of_elements, Hs.
  unfold resolvedFrom. split; [|auto].
  intros [Hempty|?]; [|assumption]. now apply not_elem_of_empty in Hempty.
Qed.

(** How a run of the resolver goes once the record and the platform's
    report are there. *)
Lemma TsuruAppAdress_Reconcile_run E (req : Request) w w1 record appInfo :
  clientGet (X:=TsuruAppAddress.t) req w = (w1, (record, None)) ->
  TsuruAPI_AppInfo E (TsuruAppAddress.SpecName record) = (appInfo, None) ->
  exists w2 found,
    TsuruAppAdressReconciler.resolveAll E
      (TsuruAppAdressReconciler.routerAddrs E appInfo) ∅
      (logged (CallAppInfo (TsuruAppAddress.SpecName record)) w1)
    = (w2, found)
    /\ TsuruAppAdressReconciler.Reconcile E req w =
       let ips := sortStrings (elements found) in
       let status := TsuruAppAddress.Status record in
       if negb (ResourceAddressStatus.Ready status)
          || negb (DeepEqual (Some ips) (ResourceAddressStatus.IPs status))
       then
         let (w', err) :=
           clientStatusUpdate
             (TsuruAppAddress.setStatus
                (ResourceAddressStatus.Make true (Some ips) (Now E)) record)
             w2 in
         (w', (Result.zero, err))
       else (w2, (Result.zero, None)).
Proof.
  intros Hget Hinfo.
  destruct (TsuruAppAdressReconciler.resolveAll E
              (TsuruAppAdressReconciler.routerAddrs E appInfo) ∅
              (logged (CallAppInfo (TsuruAppAddress.SpecName record)) w1))
    as [w2 found] eqn:Hres.
  exists w2, found. split; [reflexivity|].
  unfold TsuruAppAdressReconciler.Reconcile, bind.
  rewrite Hget. simpl. unfold external. rewrite Hinfo, Hres. simpl.
  destruct (negb _ || negb _); [|reflexivity].
  destruct (clientStatusUpdate _ w2) as [w' [e|]]; reflexivity.
Qed.

(** What a run that reaches the lookups computes and writes. *)
Lemma TsuruAppAdress_Reconcile_outcome
    E (req : Request) w w1 record appInfo :
  clientGet (X:=TsuruAppAddress.t) req w = (w1, (record, None)) ->
  ObjectMeta.key (TsuruAppAddress.Meta record) = req ->
  TsuruAPI_AppInfo E (TsuruAppAddress.SpecName record) = (appInfo, None) ->
  exists ips w' err,
    TsuruAppAdressReconciler.Reconcile E req w = (w', (Result.zero, err))
    /\ StronglySorted String.le ips /\ NoDup ips
    /\ (forall ip, ip ∈ ips <-> resolvedFrom E appInfo ip)
    /\ let status := TsuruAppAddress.Status record in
       let written :=
         TsuruAppAddress.setStatus
           (ResourceAddressStatus.Make true (Some ips) (Now E)) record in
       if negb (ResourceAddressStatus.Ready status)
          || negb (DeepEqual (Some ips) (ResourceAddressStatus.IPs status))
       then
         filter (fun c => isWrite c = true) (issuedSince w w')
           = [CallStatusUpdate (ObjTsuruAppAddress written)]
         /\ (err = None -> addressRecord w' req = Some written)
         /\ (err <> None -> objects w' = objects w)
       else
         err = None /\ objects w' = objects w
         /\ filter (fun c => isWrite c = true) (issuedSince w w') = [].
Proof.
  intros Hget Hkey Hinfo.
  destruct (TsuruAppAdress_Reconcile_run E req w w1 record appInfo Hget Hinfo)
    as (w2 & found & Hres & Hrun).
  pose proof (resolvedIPs_spec E appInfo _ _ _ Hres) as (Hsorted & Hnodup & Hmem).
  apply resolveAll_inv in Hres as (Ho2 & _ & (delta & Hc2 & Hd) & _).
  apply clientGet_inv in Hget as (Ho1 & Hc1 & Hfound & _).
  specialize (Hfound eq_refl).
  simpl in Ho2, Hc2.
  assert (Hquiet : filter (fun c => isWrite c = true) delta = []).
  { clear -Hd. induction delta as [|c delta IH]; [reflexivity|].
    simpl in Hd. apply andb_prop in Hd as [Hc Hd].
    destruct c; try discriminate.
    rewrite filter_cons_False by discriminate. auto. }
  exists (sortStrings (elements found)).
  cbv zeta in Hrun.
  destruct (negb _ || negb _) eqn:Hcond.
  - destruct (clientStatusUpdate _ w2) as [w' err] eqn:Hupd.
    exists w', err. split; [exact Hrun|]. repeat (split; [assumption|]).
    cbv zeta. rewrite Hcond.
    apply clientStatusUpdate_inv in Hupd as (Hc3 & _ & Hok & Hko).
    split; [|split].
    + rewrite (issuedSince_app w w'
                 (CallStatusUpdate
                    (ObjTsuruAppAddress
                       (TsuruAppAddress.setStatus
                          (ResourceAddressStatus.Make true
                             (Some (sortStrings (elements found))) (Now E))
                          record))
                  :: delta ++ [CallAppInfo (TsuruAppAddress.SpecName record);
                               CallGet KindTsuruAppAddress req])).
      * rewrite filter_cons_True by reflexivity.
        rewrite filter_app, Hquiet. reflexivity.
      * rewrite Hc3, Hc2, Hc1. simpl. rewrite <- app_assoc. reflexivity.
    + intros ->. destruct (Hok eq_refl) as (old & Hold & Hnew).
      unfold addressRecord. rewrite Hnew. simpl in *.
      rewrite Hkey, lookup_insert_eq. simpl.
      rewrite Hkey, Ho2, Ho1, Hfound in Hold. injection Hold as <-.
      reflexivity.
    + intros Herr. rewrite (Hko Herr), Ho2, Ho1. reflexivity.
  - exists w2, None. split; [exact Hrun|]. repeat (split; [assumption|]).
    cbv zeta. rewrite Hcond.
    split; [reflexivity|]. split; [rewrite Ho2, Ho1; reflexivity|].
    rewrite (issuedSince_app w w2
               (delta ++ [CallAppInfo (TsuruAppAddress.SpecName record);
                          CallGet KindTsuruAppAddress req])).
    + rewrite filter_app, Hquiet. reflexivity.
    + rewrite Hc2, Hc1. simpl. rewrite <- app_assoc. reflexivity.
Qed.

(** The hosts the resolver looks up are those of the URLs of the
    routers: of every address a router lists, or of its one address when
    it lists none. *)
Lemma routerAddrs_spec E (appInfo : AppInfo.t) (addr : string) :
  addr ∈ TsuruAppAdressReconciler.routerAddrs E appInfo
  <-> exists router url,
        router ∈ AppInfo.Routers appInfo
        /\ (url ∈ AppRouter.Addresses router
            \/ (AppRouter.Addresses router = []
                /\ url = AppRouter.Address router))
        /\ addr = URLToHost E url.
Proof.
  assert (Hhere : forall r,
            addr ∈ (if (0 <? List.length (AppRouter.Addresses r))%nat
                    then List.map (URLToHost E) (AppRouter.Addresses r)
                    else [URLToHost E (AppRouter.Address r)])
            <-> exists url,
                  (url ∈ AppRouter.Addresses r
                   \/ (AppRouter.Addresses r = []
                       /\ url = AppRouter.Address r))
                  /\ addr = URLToHost E url).
  { intros r. destruct (AppRouter.Addresses r) as [|a rest]; cbn [length Nat.ltb Nat.leb].
    - rewrite list_elem_of_singleton. split.
      + intros ->. exists (AppRouter.Address r). auto.
      + intros (url & [Hin | [_ ->]] & ->); [|reflexivity].
        now apply elem_of_nil in Hin.
    - rewrite list_elem_of_In, in_map_iff. split.
      + intros (url & <- & Hin). exists url.
        split; [left; now apply list_elem_of_In | reflexivity].
      + intros (url & [Hin | [Hnone _]] & ->); [|discriminate].
        exists url. split; [reflexivity | now apply list_elem_of_In]. }
  unfold TsuruAppAdressReconciler.routerAddrs.
  induction (AppInfo.Routers appInfo) as [|r routers IH]; simpl.
  - split; [intros Hin; now apply elem_of_nil in Hin|].
    intros (router & _ & Hin & _). now apply elem_of_nil in Hin.
  - rewrite elem_of_app, IH, Hhere. clear IH Hhere. split.
    + intros [(url & Hurl & ->) | (router & url & Hin & Hurl & ->)].
      * exists r, url. split; [left|]. auto.
      * exists router, url. split; [now right|]. auto.
    + intros (router & url & Hin & Hurl & ->).
      apply elem_of_cons in Hin as [->|Hin]; [left | right]; eauto.
Qed.

Lemma resolvedFrom_routers E (appInfo : AppInfo.t) (ip : string) :
  resolvedFrom E appInfo ip <-> routerResolved E appInfo ip.
Proof.
  unfold resolvedFrom, routerResolved. split.
  - intros (addr & answer & Haddr & Hlookup & Hip).
    apply routerAddrs_spec in Haddr as (router & url & Hin & Hurl & ->).
    exists router, url, answer. auto.
  - intros (router & url & answer & Hin & Hurl & Hlookup & Hip).
    exists (URLToHost E url), answer. split; [|auto].
    apply routerAddrs_spec. eauto.
Qed.

(** C8. Once the record is found and the platform has reported the
    application, the resolver computes the sorted, duplicate-free list of
    the addresses the hosts of the reported routers resolved to: an
    address is in the list exactly when some router of the report lists
    a URL, or, listing none, has it as its address, whose host the
    lookup answered with that address.  If the record is not ready yet
    or its stored list differs, this list is written to the status, in
    the one write of the run; otherwise nothing is written and the store
    stays as it was. *)
Theorem TsuruAppAdress_Reconcile_writes_only_changes
    E (req : Request) w w1 record appInfo :
  clientGet (X:=TsuruAppAddress.t) req w = (w1, (record, None)) ->
  ObjectMeta.key (TsuruAppAddress.Meta record) = req ->
  TsuruAPI_AppInfo E (TsuruAppAddress.SpecName record) = (appInfo, None) ->
  exists ips w' err,
    TsuruAppAdressReconciler.Reconcile E req w = (w', (Result.zero, err))
    /\ StronglySorted String.le ips /\ NoDup ips
    /\ (forall ip,
          ip ∈ ips
          <-> exists router url answer,
                router ∈ AppInfo.Routers appInfo
                /\ (url ∈ AppRouter.Addresses router
                    \/ (AppRouter.Addresses router = []
                        /\ url = AppRouter.Address router))
                /\ Resolver_LookupIPAddr E (URLToHost E url) = (answer, None)
                /\ ip ∈ answer)
    /\ let status := TsuruAppAddress.Status record in
       let written :=
         TsuruAppAddress.setStatus
           (ResourceAddressStatus.Make true (Some ips) (Now E)) record in
       if negb (ResourceAddressStatus.Ready status)
          || negb (DeepEqual (Some ips) (ResourceAddressStatus.IPs status))
       then
         filter (fun c => isWrite c = true) (issuedSince w w')
           = [CallStatusUpdate (ObjTsuruAppAddress written)]
         /\ (err = None -> addressRecord w' req = Some written)
         /\ (err <> None -> objects w' = objects w)
       else
         err = None /\ objects w' = objects w
         /\ filter (fun c => isWrite c = true) (issuedSince w w') = [].
Proof.
  intros Hget Hkey Hinfo.
  destruct (TsuruAppAdress_Reconcile_outcome E req w w1 record appInfo
              Hget Hkey Hinfo)
    as (ips & w' & err & Hrun & Hsorted & Hnodup & Hmem & Hcase).
  exists ips, w', err. repeat (split; [assumption|]). split; [|exact Hcase].
  intros ip. rewrite Hmem. apply resolvedFrom_routers.
Qed.

(** Whatever a run of the resolver does to the store, it is at most one
    write of a ready status over a record that was there. *)
Lemma TsuruAppAdress_Reconcile_store E (req : Request) w :
  let w' := fst (TsuruAppAdressReconciler.Reconcile E req w) in
  objects w' = objects w \/
  exists key old ips,
    addressRecord w key = Some old
    /\ objects w' =
       <[(KindTsuruAppAddress, key) :=
           ObjTsuruAppAddress
             (TsuruAppAddress.setStatus
                (ResourceAddressStatus.Make true ips (Now E)) old)]>
         (objects w).
Proof.
  cbv zeta.
  destruct (TsuruAppAdressReconciler.Reconcile E req w) as [w' r] eqn:Hrun.
  simpl. unfold TsuruAppAdressReconciler.Reconcile in Hrun.
  unbind Hrun. destruct a as [record err].
  apply clientGet_inv in Hm as (Ho1 & _ & _ & _).
  destruct (IsNotFound err).
  { apply ret_inv in Hrun as [-> _]. auto. }
  destruct err as [e|].
  { apply ret_inv in Hrun as [-> _]. auto. }
  unbind Hrun. destruct a as [appInfo err].
  unfold external in Hm. injection Hm as <- _.
  destruct err as [e|].
  { apply ret_inv in Hrun as [-> _]. auto. }
  unbind Hrun. apply resolveAll_inv in Hm as (Ho2 & _ & _ & _).
  simpl in Ho2.
  destruct (negb _ || negb _).
  - unbind Hrun.
    apply clientStatusUpdate_inv in Hm as (_ & _ & Hok & Hko).
    assert (Hw : w' = w2).
    { destruct a0; apply ret_inv in Hrun as [-> _]; reflexivity. }
    subst w'. destruct a0 as [e|].
    + left. rewrite Hko by discriminate. congruence.
    + right. destruct (Hok eq_refl) as (old & Hold & Hnew).
      exists (ObjectMeta.key (TsuruAppAddress.Meta record)), old,
             (Some (sortStrings (elements a))).
      unfold addressRecord. simpl in *.
      rewrite <- Ho1, <- Ho2. split; [exact Hold|]. rewrite Hnew.
      rewrite Ho2, Ho1. reflexivity.
  - apply ret_inv in Hrun as [-> _]. left. congruence.
Qed.

(** C10. A run that finds the record and gets the platform's report
    ends with the record ready: the stored record when the run returns no
    error, and otherwise the record handed to the refused status write.
    This holds with no address resolved, and then the list is empty.  And
    no run, whatever its outcome, leaves a record that was ready not
    ready. *)
Theorem TsuruAppAdress_Reconcile_ready_is_kept E (req : Request) w :
  (forall w1 record appInfo,
     clientGet (X:=TsuruAppAddress.t) req w = (w1, (record, None)) ->
     ObjectMeta.key (TsuruAppAddress.Meta record) = req ->
     TsuruAPI_AppInfo E (TsuruAppAddress.SpecName record) = (appInfo, None) ->
     exists w' err,
       TsuruAppAdressReconciler.Reconcile E req w = (w', (Result.zero, err))
       /\ (err = None ->
           exists record',
             addressRecord w' req = Some record'
             /\ ResourceAddressStatus.Ready (TsuruAppAddress.Status record')
                = true
             /\ ((forall ip, ~ resolvedFrom E appInfo ip) ->
                 ResourceAddressStatus.IPs (TsuruAppAddress.Status record')
                 = Some []))
       /\ (err <> None ->
           exists written,
             filter (fun c => isWrite c = true) (issuedSince w w')
             = [CallStatusUpdate (ObjTsuruAppAddress written)]
             /\ ResourceAddressStatus.Ready (TsuruAppAddress.Status written)
                = true))
  /\ (forall key record,
        addressRecord w key = Some record ->
        ResourceAddressStatus.Ready (TsuruAppAddress.Status record) = true ->
        exists record',
          addressRecord (fst (TsuruAppAdressReconciler.Reconcile E req w)) key
          = Some record'
          /\ ResourceAddressStatus.Ready (TsuruAppAddress.Status record')
             = true).
Proof.
  split.
  - intros w1 record appInfo Hget Hkey Hinfo.
    destruct (TsuruAppAdress_Reconcile_outcome E req w w1 record appInfo
                Hget Hkey Hinfo)
      as (ips & w' & err & Hrun & _ & _ & Hmem & Hcase).
    exists w', err. split; [exact Hrun|].
    assert (Hnone : (forall ip, ~ resolvedFrom E appInfo ip) -> ips = []).
    { intros Hno. destruct ips as [|ip ips]; [reflexivity|].
      exfalso. apply (Hno ip), Hmem. left. }
    cbv zeta in Hcase.
    destruct (negb _ || negb _) eqn:Hcond.
    + destruct Hcase as (Hwrites & Hok & _). split.
      * intros Herr. eexists. split; [exact (Hok Herr)|]. simpl.
        split; [reflexivity|]. intros Hno. now rewrite (Hnone Hno).
      * intros _. eexists. split; [exact Hwrites|reflexivity].
    + destruct Hcase as (-> & Hobjects & _).
      split; [|intros Herr; now contradiction Herr].
      intros _. exists record.
      apply orb_false_elim in Hcond as [Hready Hsame].
      apply negb_false_iff in Hready, Hsame.
      apply bool_decide_eq_true in Hsame.
      apply clientGet_inv in Hget as (_ & _ & Hfound & _).
      unfold addressRecord. rewrite Hobjects.
      split; [exact (Hfound eq_refl)|]. split; [exact Hready|].
      intros Hno. now rewrite <- Hsame, (Hnone Hno).
  - intros key record Hrecord Hready.
    destruct (TsuruAppAdress_Reconcile_store E req w)
      as [Hsame|(key' & old & ips & Hold & Hnew)].
    + exists record. unfold addressRecord in *. now rewrite Hsame.
    + unfold addressRecord in *. rewrite Hnew.
      destruct (decide (key' = key)) as [->|Hne].
      * rewrite lookup_insert_eq. simpl. eauto.
      * rewrite lookup_insert_ne by congruence. eauto.
Qed.

(** ** What the resolvers and the address cache may touch *)

Lemma frame_call (P : Call -> bool) K c w w' :
  P c = true -> objects w' = objects w -> calls w' = c :: calls w ->
  frame P K w w'.
Proof.
  intros HP Ho Hc. split.
  - exists [c]. simpl. now rewrite HP.
  - intros. now rewrite Ho.
Qed.

Lemma frame_write (P : Call -> bool) (K : Kind -> bool) c k w w' :
  P c = true -> K k = true -> calls w' = c :: calls w ->
  (forall k' key, k' <> k -> objects w' !! (k', key) = objects w !! (k', key)) ->
  frame P K w w'.
Proof.
  intros HP HK Hc Ho. split.
  - exists [c]. simpl. now rewrite HP.
  - intros k' key Hk'. apply Ho. intros ->. congruence.
Qed.

Lemma frame_ret {A} P K (a b : A) w w' :
  ret a w = (w', b) -> frame P K w w'.
Proof. intros [-> _]%ret_inv. apply frame_refl. Qed.

Lemma resolverCall_quiet c : resolverCall c = true -> quietCall c = true.
Proof. destruct c; simpl; auto; discriminate. Qed.

Lemma cacheCall_quiet c : cacheCall c = true -> quietCall c = true.
Proof. destruct c; simpl; auto; discriminate. Qed.

Lemma lookupCall_resolver c : lookupCall c = true -> resolverCall c = true.
Proof. destruct c; simpl; auto; discriminate. Qed.

Lemma clientGet_resolver {X} `{Resource X} key w w' (r : X * option error) :
  clientGet key w = (w', r) ->
  addressKind (kind (X:=X)) = true ->
  frame resolverCall addressKind w w'.
Proof.
  destruct r as [x err]. intros (Ho & Hc & _)%clientGet_inv Haddress.
  apply (frame_call _ _ (CallGet kind key));
    [exact Haddress | exact Ho | exact Hc].
Qed.

Lemma clientCreate_resolver {X} `{Resource X} now (obj : X) w w' err :
  clientCreate now obj w = (w', err) ->
  addressKind (kind (X:=X)) = true ->
  kindOf (toObject obj) = kind ->
  frame resolverCall addressKind w w'.
Proof.
  intros (Hc & Ho & _)%clientCreate_inv Haddress Hkind.
  apply (frame_write _ _ (CallCreate (toObject obj)) kind);
    [simpl; now rewrite Hkind | exact Haddress | exact Hc | exact Ho].
Qed.

Lemma clientStatusUpdate_resolver {X} `{Resource X} (obj : X) w w' err :
  clientStatusUpdate obj w = (w', err) ->
  addressKind (kind (X:=X)) = true ->
  kindOf (toObject obj) = kind ->
  frame resolverCall addressKind w w'.
Proof.
  intros (Hc & Ho & _)%clientStatusUpdate_inv Haddress Hkind.
  apply (frame_write _ _ (CallStatusUpdate (toObject obj)) kind);
    [simpl; now rewrite Hkind | exact Haddress | exact Hc | exact Ho].
Qed.

Lemma resolveAll_resolver E addrs found w w' s :
  TsuruAppAdressReconciler.resolveAll E addrs found w = (w', s) ->
  frame resolverCall addressKind w w'.
Proof.
  intros (Ho & _ & (delta & Hc & Hd) & _)%resolveAll_inv. split.
  - exists delta. split; [exact Hc|].
    rewrite forallb_forall in *. auto using lookupCall_resolver.
  - intros. now rewrite Ho.
Qed.

Lemma external_resolver {A} c (answer : A) w w' a :
  external c answer w = (w', a) -> resolverCall c = true ->
  frame resolverCall addressKind w w'.
Proof. intros Hrun Hc. now apply (external_frame _ _ _ _ _ _ _ Hrun). Qed.

(** Steps through a run whose calls all concern address records,
    chaining the frames of its calls. *)
Ltac resolver_frame :=
  repeat match goal with
  | |- frame _ _ ?w ?w => apply frame_refl
  | H : ret _ _ = (_, _) |- _ => apply ret_inv in H as [-> _]
  | H : bind _ _ _ = (_, _) |- _ => unbind H
  | H : clientGet _ ?w = (_, _) |- frame _ _ ?w _ =>
      eapply frame_trans;
      [ apply (clientGet_resolver _ _ _ _ H); reflexivity | clear H ]
  | H : clientCreate _ _ ?w = (_, _) |- frame _ _ ?w _ =>
      eapply frame_trans;
      [ apply (clientCreate_resolver _ _ _ _ _ H); reflexivity | clear H ]
  | H : clientStatusUpdate _ ?w = (_, _) |- frame _ _ ?w _ =>
      eapply frame_trans;
      [ apply (clientStatusUpdate_resolver _ _ _ _ H); reflexivity | clear H ]
  | H : TsuruAppAdressReconciler.resolveAll _ _ _ ?w = (_, _)
    |- frame _ _ ?w _ =>
      eapply frame_trans; [ eapply resolveAll_resolver; exact H | clear H ]
  | H : external _ _ ?w = (_, _) |- frame _ _ ?w _ =>
      eapply frame_trans;
      [ eapply external_resolver; [exact H | reflexivity] | clear H ]
  | H : (if ?b then _ else _) _ = (_, _) |- _ => destruct b
  | H : match ?x with _ => _ end _ = (_, _) |- _ => destruct x
  | H : (let (_, _) := ?x in _) _ = (_, _) |- _ => destruct x
  end.

Lemma TsuruAppAdress_Reconcile_frame E req w w' r :
  TsuruAppAdressReconciler.Reconcile E req w = (w', r) ->
  frame resolverCall addressKind w w'.
Proof.
  unfold TsuruAppAdressReconciler.Reconcile. intros Hrun. resolver_frame.
Qed.

Lemma TsuruAppAddress_Reconcile_frame E req w w' r :
  TsuruAppAddressReconciler.Reconcile E req w = (w', r) ->
  frame resolverCall addressKind w w'.
Proof.
  unfold TsuruAppAddressReconciler.Reconcile. intros Hrun. resolver_frame.
Qed.

Lemma ACLDNSEntry_Reconcile_frame E req w w' r :
  ACLDNSEntryReconciler.Reconcile E req w = (w', r) ->
  frame resolverCall addressKind w w'.
Proof.
  unfold ACLDNSEntryReconciler.Reconcile. intros Hrun. resolver_frame.
Qed.

Lemma RpaasInstanceAddress_Reconcile_frame E req w w' r :
  RpaasInstanceAddressReconciler.Reconcile E req w = (w', r) ->
  frame resolverCall addressKind w w'.
Proof.
  unfold RpaasInstanceAddressReconciler.Reconcile. intros Hrun.
  resolver_frame.
Qed.

Ltac ensure_frame :=
  repeat match goal with
  | H : TsuruAppAddressReconciler.Reconcile _ _ ?w = (_, _)
    |- frame _ _ ?w _ =>
      eapply frame_trans;
      [ eapply TsuruAppAddress_Reconcile_frame; exact H | clear H ]
  | H : ACLDNSEntryReconciler.Reconcile _ _ ?w = (_, _)
    |- frame _ _ ?w _ =>
      eapply frame_trans;
      [ eapply ACLDNSEntry_Reconcile_frame; exact H | clear H ]
  | H : RpaasInstanceAddressReconciler.Reconcile _ _ ?w = (_, _)
    |- frame _ _ ?w _ =>
      eapply frame_trans;
      [ eapply RpaasInstanceAddress_Reconcile_frame; exact H | clear H ]
  | _ => progress resolver_frame
  end.

Lemma ensureTsuruAppAddress_frame E appName w w' r :
  ACLReconciler.ensureTsuruAppAddress E appName w = (w', r) ->
  frame resolverCall addressKind w w'.
Proof.
  unfold ACLReconciler.ensureTsuruAppAddress. intros Hrun. ensure_frame.
Qed.

Lemma ensureDNSEntry_frame E host w w' r :
  ACLReconciler.ensureDNSEntry E host w = (w', r) ->
  frame resolverCall addressKind w w'.
Proof.
  unfold ACLReconciler.ensureDNSEntry. intros Hrun. ensure_frame.
Qed.

Lemma ensureRpaasInstanceAddress_frame E rpaasInstance w w' r :
  ACLReconciler.ensureRpaasInstanceAddress E rpaasInstance w = (w', r) ->
  frame resolverCall addressKind w w'.
Proof.
  unfold ACLReconciler.ensureRpaasInstanceAddress. intros Hrun. ensure_frame.
Qed.

Lemma egressRulesForDestination_frame E destination w w' r :
  ACLReconciler.egressRulesForDestination E destination w = (w', r) ->
  frame resolverCall addressKind w w'.
Proof.
  unfold ACLReconciler.egressRulesForDestination,
    ACLReconciler.egressRulesForTsuruApp,
    ACLReconciler.egressRulesForExternalDNS,
    ACLReconciler.egressRulesForRpaasInstance.
  intros Hrun.
  repeat match goal with
  | H : ACLReconciler.ensureTsuruAppAddress _ _ ?w = (_, _)
    |- frame _ _ ?w _ =>
      eapply frame_trans;
      [ eapply ensureTsuruAppAddress_frame; exact H | clear H ]
  | H : ACLReconciler.ensureDNSEntry _ _ ?w = (_, _) |- frame _ _ ?w _ =>
      eapply frame_trans; [ eapply ensureDNSEntry_frame; exact H | clear H ]
  | H : ACLReconciler.ensureRpaasInstanceAddress _ _ ?w = (_, _)
    |- frame _ _ ?w _ =>
      eapply frame_trans;
      [ eapply ensureRpaasInstanceAddress_frame; exact H | clear H ]
  | _ => progress resolver_frame
  end.
Qed.

Lemma destinationsLoop_frame E destinations :
  forall rules w w' r,
    ACLReconciler.destinationsLoop E destinations rules w = (w', r) ->
    frame resolverCall addressKind w w'.
Proof.
  induction destinations as [|d rest IH]; intros rules w w' r Hrun.
  - apply ret_inv in Hrun as [-> _]. apply frame_refl.
  - simpl in Hrun. unbind Hrun. destruct a as [egressRules [e|]].
    + apply ret_inv in Hrun as [-> _].
      eapply egressRulesForDestination_frame; eauto.
    + eapply frame_trans; [eapply egressRulesForDestination_frame; eauto|].
      eapply IH; eauto.
Qed.

(** The loop stops at the first destination that fails. *)
Lemma destinationsLoop_app E pre :
  forall rules w w1 rules1 post,
    ACLReconciler.destinationsLoop E pre rules w = (w1, (rules1, None)) ->
    ACLReconciler.destinationsLoop E (pre ++ post) rules w
    = ACLReconciler.destinationsLoop E post rules1 w1.
Proof.
  induction pre as [|d pre IH]; intros rules w w1 rules1 post Hrun.
  - apply ret_inv in Hrun as [-> [= <-]]. reflexivity.
  - simpl in *. unfold bind in *.
    destruct (ACLReconciler.egressRulesForDestination E d w)
      as [w0 [egressRules [e|]]].
    + discriminate.
    + eapply IH; eauto.
Qed.

(** ** Enrichment by the address cache *)

Lemma elems_append {A} (s : slice A) (xs : list A) :
  Slice.elems (Slice.append s xs) = Slice.elems s ++ xs.
Proof. destruct s as [l|], xs; reflexivity. Qed.

(** The inner loop only appends, what it appends are owners' selector
    peers, and when it ends without error every peer it had to look up
    and found an owner for has its owner's peer appended. *)
Lemma toLoop_inv E (tos : list NetworkPolicyPeer.t) :
  forall newDestinations w w' result err,
    ACLReconciler.toLoop E tos newDestinations w = (w', (result, err)) ->
    objects w' = objects w /\ faults w' = faults w
    /\ (exists delta, calls w' = delta ++ calls w
                      /\ forallb cacheCall delta = true)
    /\ exists added,
         result = newDestinations ++ added
         /\ (forall peer, peer ∈ added -> exists svc, peer = ACLReconciler.ownerPeer svc)
         /\ (err = None ->
             forall to ip svc,
               to ∈ tos -> ACLReconciler.singleHost to = Some ip ->
               serviceCache_GetByIP E ip = (Some svc, None) ->
               ACLReconciler.ownerPeer svc ∈ added).
Proof.
  induction tos as [|to rest IH]; intros nd w w' result err Hrun.
  - apply ret_inv in Hrun as [-> [= -> ->]]. repeat split; auto.
    + exists []. auto.
    + exists []. rewrite app_nil_r. repeat split; auto.
      * intros peer Hin. now apply elem_of_nil in Hin.
      * intros _ to ip svc Hin. now apply elem_of_nil in Hin.
  - simpl in Hrun.
    destruct (ACLReconciler.singleHost to) as [ip|] eqn:Hhost.
    + unbind Hrun. unfold external in Hm. injection Hm as <- <-.
      destruct (serviceCache_GetByIP E ip) as [svc [e|]] eqn:Hcache.
      * apply ret_inv in Hrun as [-> [= -> ->]]. simpl.
        repeat split; auto.
        -- exists [CallGetByIP ip]. auto.
        -- exists []. rewrite app_nil_r. repeat split; auto.
           ++ intros peer Hin. now apply elem_of_nil in Hin.
           ++ discriminate.
      * destruct svc as [svc|];
          apply IH in Hrun
            as (Ho & Hf & (delta & Hc & Hd) & added & -> & Hprov & Hall);
          simpl in *.
        -- repeat split; auto.
           ++ exists (delta ++ [CallGetByIP ip]).
              rewrite Hc, <- app_assoc, forallb_app, Hd. auto.
           ++ exists (ACLReconciler.ownerPeer svc :: added).
              rewrite <- app_assoc. repeat split; auto.
              ** intros peer [->|Hin]%elem_of_cons; eauto.
              ** intros Herr to' ip' svc' [->|Hin]%elem_of_cons Hh Hg.
                 --- assert (ip' = ip) as -> by congruence.
                     assert (svc' = svc) as -> by congruence.
                     left.
                 --- right. eapply Hall; eauto.
        -- repeat split; auto.
           ++ exists (delta ++ [CallGetByIP ip]).
              rewrite Hc, <- app_assoc, forallb_app, Hd. auto.
           ++ exists added. repeat split; auto.
              intros Herr to' ip' svc' [->|Hin]%elem_of_cons Hh Hg.
              ** congruence.
              ** eapply Hall; eauto.
    + apply IH in Hrun
        as (Ho & Hf & Hcalls & added & -> & Hprov & Hall).
      repeat split; auto. exists added. repeat split; auto.
      intros Herr to' ip' svc' [->|Hin]%elem_of_cons Hh Hg.
      * congruence.
      * eapply Hall; eauto.
Qed.

Lemma enriched_refl E rule : enriched E false rule rule.
Proof.
  split; [reflexivity|]. exists []. rewrite app_nil_r.
  repeat split; auto; try discriminate.
  intros peer Hin. now apply elem_of_nil in Hin.
Qed.

Lemma enriched_weaken E rule rule' :
  enriched E true rule rule' -> enriched E false rule rule'.
Proof.
  intros [Hp (added & Hto & Hprov & _)]. split; [exact Hp|].
  exists added. repeat split; auto. discriminate.
Qed.

Lemma fillPodSelectorByCIDR_inv E (rules : list NetworkPolicyEgressRule.t) :
  forall w w' rules' err,
    ACLReconciler.fillPodSelectorByCIDR E rules w = (w', (rules', err)) ->
    objects w' = objects w /\ faults w' = faults w
    /\ (exists delta, calls w' = delta ++ calls w
                      /\ forallb cacheCall delta = true)
    /\ Forall2 (enriched E (bool_decide (err = None))) rules rules'.
Proof.
  induction rules as [|rule rest IH]; intros w w' rules' err Hrun.
  - apply ret_inv in Hrun as [-> [= -> ->]]. repeat split; auto.
    exists []. auto.
  - simpl in Hrun. unbind Hrun. destruct a as [newDestinations err0].
    apply toLoop_inv in Hm
      as (Ho & Hf & (delta & Hc & Hd) & added & -> & Hprov & Hall).
    destruct err0 as [e|].
    + apply ret_inv in Hrun as [-> [= -> ->]].
      repeat split; auto; [exists delta; auto|].
      rewrite bool_decide_eq_false_2 by discriminate.
      clear. induction (rule :: rest); constructor; auto using enriched_refl.
    + unbind Hrun. destruct a as [rest' err1].
      apply ret_inv in Hrun as [-> [= -> ->]].
      apply IH in Hm as (Ho' & Hf' & (delta' & Hc' & Hd') & Hrest).
      repeat split; try congruence.
      * exists (delta' ++ delta).
        rewrite Hc', Hc, app_assoc, forallb_app, Hd, Hd'. auto.
      * constructor; [|exact Hrest].
        split; [reflexivity|]. exists added. simpl.
        rewrite elems_append. repeat split; auto.
        intros _. now apply Hall.
Qed.

(** C5. Enrichment leaves the number of rules, every rule's ports and
    every rule's peers as they were, in place, and only appends peers.
    When it ends without error, every single-host literal peer whose
    address the cache maps to an owner is still in its rule, and the
    peer selecting the owner's pods, with the namespace label match, is
    among the appended ones. *)
Theorem fillPodSelectorByCIDR_is_additive
    E (rules : list NetworkPolicyEgressRule.t) w w' rules' err :
  ACLReconciler.fillPodSelectorByCIDR E rules w = (w', (rules', err)) ->
  List.length rules' = List.length rules
  /\ forall i rule,
       rules !! i = Some rule ->
       exists rule' added,
         rules' !! i = Some rule'
         /\ NetworkPolicyEgressRule.Ports rule'
            = NetworkPolicyEgressRule.Ports rule
         /\ Slice.elems (NetworkPolicyEgressRule.To rule')
            = Slice.elems (NetworkPolicyEgressRule.To rule) ++ added
         /\ (err = None ->
             forall to ip svc,
               to ∈ Slice.elems (NetworkPolicyEgressRule.To rule) ->
               ACLReconciler.singleHost to = Some ip ->
               serviceCache_GetByIP E ip = (Some svc, None) ->
               to ∈ Slice.elems (NetworkPolicyEgressRule.To rule')
               /\ NetworkPolicyPeer.Make
                    (Some (LabelSelector.Make (Service.Selector svc)))
                    (Some (LabelSelector.Make
                             (Some {[ "name" := Service.Namespace svc ]})))
                    None ∈ added).
Proof.
  intros (_ & _ & _ & Hall)%fillPodSelectorByCIDR_inv.
  split; [symmetry; eapply Forall2_length; eauto|].
  intros i rule Hrule.
  destruct (Forall2_lookup_l _ _ _ _ _ Hall Hrule)
    as (rule' & Hrule' & Hports & added & Hto & _ & Hcomplete).
  exists rule', added. repeat split; auto.
  - rewrite Hto. apply elem_of_app. auto.
  - subst err. eapply Hcomplete; eauto.
Qed.

(** ** The policy reconciler *)

Lemma setUnreadyStatus_inv acl reason w w' err :
  ACLReconciler.setUnreadyStatus acl reason w = (w', err) ->
  calls w' = CallStatusUpdate (ObjACL (unready acl reason)) :: calls w
  /\ (forall k key, k <> KindACL ->
        objects w' !! (k, key) = objects w !! (k, key))
  /\ (err = None ->
      exists old,
        storedACL w' (ObjectMeta.key (ACL.Meta acl))
        = Some (ACL.setStatus (ACL.Status (unready acl reason)) old)).
Proof.
  unfold ACLReconciler.setUnreadyStatus.
  intros (Hc & Ho & Hok & _)%clientStatusUpdate_inv.
  split; [exact Hc|]. split; [exact Ho|].
  intros Herr. destruct (Hok Herr) as (old & _ & Hnew).
  exists old. unfold storedACL. rewrite Hnew. simpl.
  now rewrite lookup_insert_eq.
Qed.

Lemma filter_quiet (delta : list Call) :
  forallb quietCall delta = true ->
  filter (fun c => quietCall c = false) delta = [].
Proof.
  induction delta as [|c delta IH]; [reflexivity|].
  simpl. intros [Hc Hd]%andb_prop.
  rewrite filter_cons_False by congruence. auto.
Qed.

Lemma filter_quiet_policy (delta : list Call) :
  forallb quietCall delta = true ->
  filter (fun c => policyWrite c = true) delta = [].
Proof.
  induction delta as [|c delta IH]; [reflexivity|].
  simpl. intros [Hc Hd]%andb_prop.
  rewrite filter_cons_False; [auto|].
  intros Hp. destruct c as [| [] | [] | | | | |]; discriminate.
Qed.

(** A pass whose calls so far were quiet and which then sets the ACL
    not ready stops there. *)
Lemma stopsUnready_intro acl reason w w0 w' err :
  frame quietCall addressKind w w0 ->
  ACLReconciler.setUnreadyStatus acl reason w0 = (w', err) ->
  stopsUnready (w', (Result.zero, err)) w acl reason.
Proof.
  intros [(delta & Hc0 & Hd) Ho0] (Hc & Ho & Hok)%setUnreadyStatus_inv.
  assert (Hissued : issuedSince w w'
                    = CallStatusUpdate (ObjACL (unready acl reason)) :: delta).
  { apply issuedSince_app. rewrite Hc, Hc0. reflexivity. }
  unfold stopsUnready. rewrite Hissued.
  split; [reflexivity|]. split; [reflexivity|]. split.
  { rewrite filter_cons_True by reflexivity. now rewrite filter_quiet. }
  split.
  { rewrite filter_cons_False by discriminate. now apply filter_quiet_policy. }
  split.
  { intros key. unfold storedPolicy.
    rewrite Ho by discriminate. now rewrite Ho0. }
  intros Herr. destruct (Hok Herr) as (old & Hold). eauto.
Qed.

Lemma clientGet_quiet {X} `{Resource X} key w w' (r : X * option error) :
  clientGet key w = (w', r) -> frame quietCall addressKind w w'.
Proof.
  destruct r as [x err]. intros (Ho & Hc & _)%clientGet_inv.
  now apply (frame_call _ _ (CallGet kind key)).
Qed.

Lemma destinationsLoop_quiet E destinations rules w w' r :
  ACLReconciler.destinationsLoop E destinations rules w = (w', r) ->
  frame quietCall addressKind w w'.
Proof.
  intros Hrun%destinationsLoop_frame.
  exact (frame_weaken _ _ _ _ _ _ resolverCall_quiet (fun k Hk => Hk) Hrun).
Qed.

Lemma egressRulesForDestination_quiet E destination w w' r :
  ACLReconciler.egressRulesForDestination E destination w = (w', r) ->
  frame quietCall addressKind w w'.
Proof.
  intros Hrun%egressRulesForDestination_frame.
  exact (frame_weaken _ _ _ _ _ _ resolverCall_quiet (fun k Hk => Hk) Hrun).
Qed.

Lemma fillPodSelectorByCIDR_quiet E rules w w' r :
  ACLReconciler.fillPodSelectorByCIDR E rules w = (w', r) ->
  frame quietCall addressKind w w'.
Proof.
  destruct r as [rules' err].
  intros (Ho & _ & (delta & Hc & Hd) & _)%fillPodSelectorByCIDR_inv. split.
  - exists delta. split; [exact Hc|].
    rewrite forallb_forall in *. auto using cacheCall_quiet.
  - intros. now rewrite Ho.
Qed.

(** The pass up to the pod selector. *)
Lemma Reconcile_no_selector E req w w1 acl e1 w2 np e2 :
  clientGet (X:=ACL.t) req w = (w1, (acl, e1)) ->
  unlessNotFound e1 = None ->
  clientGet (X:=NetworkPolicy.t)
    (reqNamespace req, networkPolicyName acl req) w1 = (w2, (np, e2)) ->
  unlessNotFound e2 = None ->
  ACLReconciler.podSelectorForSource (ACLSpec.Source (ACL.Spec acl)) = None ->
  ACLReconciler.Reconcile E req w =
  let (w', err) :=
    ACLReconciler.setUnreadyStatus acl
      "No podSelector generated by spec.source" w2 in
  (w', (Result.zero, err)).
Proof.
  intros Hacl He1 Hnp He2 Hsel.
  unfold ACLReconciler.Reconcile, bind.
  rewrite Hacl. cbn beta iota. rewrite He1. cbv zeta.
  rewrite Hnp. cbn beta iota. rewrite He2.
  repeat match goal with
         | |- context [let '(_, _) := (if ?b then _ else _) in _] => destruct b
         end.
  all: rewrite Hsel; reflexivity.
Qed.

(** Leads a pass through its two reads and the preparation of the
    policy, down to the pod selector. *)
Ltac enter_pass Hacl He1 Hnp He2 :=
  unfold ACLReconciler.Reconcile, bind;
  rewrite Hacl; cbn beta iota; rewrite He1; cbv zeta;
  rewrite Hnp; cbn beta iota; rewrite He2;
  repeat match goal with
         | |- context [let '(_, _) := (if ?b then _ else _) in _] => destruct b
         end.

Lemma Reconcile_destination_failure
    E req w w1 acl e1 w2 np e2 selector w3 rules destination e :
  clientGet (X:=ACL.t) req w = (w1, (acl, e1)) ->
  unlessNotFound e1 = None ->
  clientGet (X:=NetworkPolicy.t)
    (reqNamespace req, networkPolicyName acl req) w1 = (w2, (np, e2)) ->
  unlessNotFound e2 = None ->
  ACLReconciler.podSelectorForSource (ACLSpec.Source (ACL.Spec acl))
  = Some selector ->
  ACLReconciler.destinationsLoop E (ACLSpec.Destinations (ACL.Spec acl)) [] w2
  = (w3, (rules, Some (destination, e))) ->
  ACLReconciler.Reconcile E req w =
  let (w', err) :=
    ACLReconciler.setUnreadyStatus acl
      (ACLReconciler.destinationFailure E destination e) w3 in
  (w', (Result.zero, err)).
Proof.
  intros Hacl He1 Hnp He2 Hsel Hloop.
  enter_pass Hacl He1 Hnp He2.
  all: rewrite Hsel;
    repeat match goal with
           | |- context [let '(_, _) := (if ?b then _ else _) in _] =>
               destruct b
           end;
    rewrite Hloop; reflexivity.
Qed.

Lemma Reconcile_no_egress E req w w1 acl e1 w2 np e2 selector w3 rules w4 :
  clientGet (X:=ACL.t) req w = (w1, (acl, e1)) ->
  unlessNotFound e1 = None ->
  clientGet (X:=NetworkPolicy.t)
    (reqNamespace req, networkPolicyName acl req) w1 = (w2, (np, e2)) ->
  unlessNotFound e2 = None ->
  ACLReconciler.podSelectorForSource (ACLSpec.Source (ACL.Spec acl))
  = Some selector ->
  ACLReconciler.destinationsLoop E (ACLSpec.Destinations (ACL.Spec acl)) [] w2
  = (w3, (rules, None)) ->
  ACLReconciler.fillPodSelectorByCIDR E rules w3 = (w4, ([], None)) ->
  ACLReconciler.Reconcile E req w =
  let (w', err) :=
    ACLReconciler.setUnreadyStatus acl
      "No egress generated by spec.destinations" w4 in
  (w', (Result.zero, err)).
Proof.
  intros Hacl He1 Hnp He2 Hsel Hloop Hfill.
  enter_pass Hacl He1 Hnp He2.
  all: rewrite Hsel;
    repeat match goal with
           | |- context [let '(_, _) := (if ?b then _ else _) in _] =>
               destruct b
           end;
    rewrite Hloop; cbn beta iota; rewrite Hfill; reflexivity.
Qed.

(** C3. When the pass has read the ACL and the policy, the source gives
    a pod selector, the destinations before some index resolved and the
    one at that index fails, the pass stops there: its last call and
    only write of an ACL or a policy is the status write setting the
    ACL not ready, with a reason made of the failing destination and
    the error's message; no policy is created or updated, and the
    stored policies are those of before the pass. *)
Theorem Reconcile_aborts_on_failed_destination
    E req w w1 acl e1 w2 np e2 selector pre destination post
    w3 rules w4 egress e :
  clientGet (X:=ACL.t) req w = (w1, (acl, e1)) ->
  unlessNotFound e1 = None ->
  clientGet (X:=NetworkPolicy.t)
    (reqNamespace req, networkPolicyName acl req) w1 = (w2, (np, e2)) ->
  unlessNotFound e2 = None ->
  ACLReconciler.podSelectorForSource (ACLSpec.Source (ACL.Spec acl))
  = Some selector ->
  ACLSpec.Destinations (ACL.Spec acl) = pre ++ destination :: post ->
  ACLReconciler.destinationsLoop E pre [] w2 = (w3, (rules, None)) ->
  ACLReconciler.egressRulesForDestination E destination w3
  = (w4, (egress, Some e)) ->
  stopsUnready (ACLReconciler.Reconcile E req w) w acl
    ("could not generate egress rule for destination "
     +:+ Marshal E destination +:+ ", err: " +:+ message e).
Proof.
  intros Hacl He1 Hnp He2 Hsel Hds Hpre Hfail.
  assert (Hloop :
    ACLReconciler.destinationsLoop E (ACLSpec.Destinations (ACL.Spec acl))
      [] w2 = (w4, (rules, Some (destination, e)))).
  { rewrite Hds, (destinationsLoop_app E pre _ _ _ _ _ Hpre).
    simpl. unfold bind. rewrite Hfail. reflexivity. }
  rewrite (Reconcile_destination_failure E req w w1 acl e1 w2 np e2
             selector w4 rules destination e Hacl He1 Hnp He2 Hsel Hloop).
  destruct (ACLReconciler.setUnreadyStatus acl _ w4) as [w' err] eqn:Hset.
  eapply stopsUnready_intro; [|exact Hset].
  eapply frame_trans; [exact (clientGet_quiet _ _ _ _ Hacl)|].
  eapply frame_trans; [exact (clientGet_quiet _ _ _ _ Hnp)|].
  eapply destinationsLoop_quiet; exact Hloop.
Qed.

(** C9. When the pass has read the ACL and the policy, the source gives
    a pod selector, every destination resolved and the rule list is
    empty after enrichment, the pass stops: its last call and only
    write of an ACL or a policy is the status write setting the ACL not
    ready with the reason about no egress; no policy is created or
    updated. *)
Theorem Reconcile_stops_without_egress
    E req w w1 acl e1 w2 np e2 selector w3 rules w4 :
  clientGet (X:=ACL.t) req w = (w1, (acl, e1)) ->
  unlessNotFound e1 = None ->
  clientGet (X:=NetworkPolicy.t)
    (reqNamespace req, networkPolicyName acl req) w1 = (w2, (np, e2)) ->
  unlessNotFound e2 = None ->
  ACLReconciler.podSelectorForSource (ACLSpec.Source (ACL.Spec acl))
  = Some selector ->
  ACLReconciler.destinationsLoop E (ACLSpec.Destinations (ACL.Spec acl)) [] w2
  = (w3, (rules, None)) ->
  ACLReconciler.fillPodSelectorByCIDR E rules w3 = (w4, ([], None)) ->
  stopsUnready (ACLReconciler.Reconcile E req w) w acl
    "No egress generated by spec.destinations".
Proof.
  intros Hacl He1 Hnp He2 Hsel Hloop Hfill.
  rewrite (Reconcile_no_egress E req w w1 acl e1 w2 np e2 selector w3 rules w4
             Hacl He1 Hnp He2 Hsel Hloop Hfill).
  destruct (ACLReconciler.setUnreadyStatus acl _ w4) as [w' err] eqn:Hset.
  eapply stopsUnready_intro; [|exact Hset].
  eapply frame_trans; [exact (clientGet_quiet _ _ _ _ Hacl)|].
  eapply frame_trans; [exact (clientGet_quiet _ _ _ _ Hnp)|].
  eapply frame_trans; [eapply destinationsLoop_quiet; exact Hloop|].
  eapply fillPodSelectorByCIDR_quiet; exact Hfill.
Qed.

Lemma filter_quiet_status (delta : list Call) :
  forallb quietCall delta = true ->
  filter (fun c => statusWrite c = true) delta = [].
Proof.
  induction delta as [|c delta IH]; [reflexivity|].
  simpl. intros [Hc Hd]%andb_prop.
  rewrite filter_cons_False; [auto|].
  intros Hp. destruct c as [| [] | [] | [] | | | |]; discriminate.
Qed.

(** C4. When the pass has read the ACL and a stored policy, every
    destination resolved, enrichment went through with at least one
    rule, and the stored policy already has the owner reference, the
    policy types, the pod selector and the egress rules the pass
    computes, the pass creates and updates no policy and writes no
    status: it returns the periodic requeue and leaves the stored
    policies and ACLs as they were. *)
Theorem Reconcile_unchanged_policy_writes_nothing
    E req w w1 acl e1 w2 np selector w3 rules w4 rules' :
  clientGet (X:=ACL.t) req w = (w1, (acl, e1)) ->
  unlessNotFound e1 = None ->
  clientGet (X:=NetworkPolicy.t)
    (reqNamespace req, networkPolicyName acl req) w1 = (w2, (np, None)) ->
  ObjectMeta.CreationTimestamp (NetworkPolicy.Meta np) <> None ->
  ACLReconciler.podSelectorForSource (ACLSpec.Source (ACL.Spec acl))
  = Some selector ->
  ACLReconciler.destinationsLoop E (ACLSpec.Destinations (ACL.Spec acl)) [] w2
  = (w3, (rules, None)) ->
  ACLReconciler.fillPodSelectorByCIDR E rules w3 = (w4, (rules', None)) ->
  rules' <> [] ->
  ObjectMeta.OwnerReferences (NetworkPolicy.Meta np) = [NewControllerRef acl] ->
  NetworkPolicySpec.PolicyTypes (NetworkPolicy.Spec np) = [PolicyTypeEgress] ->
  LabelSelector.MatchLabels (NetworkPolicySpec.PodSelector (NetworkPolicy.Spec np))
  = Some selector ->
  NetworkPolicySpec.Egress (NetworkPolicy.Spec np) = Some rules' ->
  ACLReconciler.Reconcile E req w = (w4, (Result.Make true requeueAfter, None))
  /\ filter (fun c => policyWrite c = true) (issuedSince w w4) = []
  /\ filter (fun c => statusWrite c = true) (issuedSince w w4) = []
  /\ (forall key, storedPolicy w4 key = storedPolicy w key)
  /\ (forall key, storedACL w4 key = storedACL w key).
Proof.
  intros Hacl He1 Hnp Hstamp Hsel Hloop Hfill Hrules Howner Htypes Hpods Hegress.
  assert (Hframe : frame quietCall addressKind w w4).
  { eapply frame_trans; [exact (clientGet_quiet _ _ _ _ Hacl)|].
    eapply frame_trans; [exact (clientGet_quiet _ _ _ _ Hnp)|].
    eapply frame_trans; [eapply destinationsLoop_quiet; exact Hloop|].
    eapply fillPodSelectorByCIDR_quiet; exact Hfill. }
  split.
  - unfold ACLReconciler.Reconcile, bind.
    rewrite Hacl. cbn beta iota. rewrite He1. cbv zeta.
    rewrite Hnp. cbn beta iota.
    cbn [unlessNotFound IsNotFound NetworkPolicy.Meta NetworkPolicy.setMeta
         NetworkPolicy.Spec NetworkPolicy.setSpec
         ObjectMeta.OwnerReferences ObjectMeta.setName ObjectMeta.setNamespace
         ObjectMeta.CreationTimestamp].
    rewrite Howner. cbn [List.length Nat.eqb]. cbn beta iota.
    cbn [NetworkPolicy.Meta NetworkPolicy.setMeta
         NetworkPolicy.Spec NetworkPolicy.setSpec].
    rewrite Htypes. unfold ACLReconciler.policyTypesDiffer.
    cbn [List.length Nat.eqb head negb andb orb].
    rewrite bool_decide_eq_true_2 by reflexivity.
    cbn [List.length Nat.eqb head negb andb orb]. cbn beta iota.
    rewrite Hsel.
    cbn [NetworkPolicy.Meta NetworkPolicy.setMeta
         NetworkPolicy.Spec NetworkPolicy.setSpec].
    rewrite Hpods. unfold DeepEqual at 1.
    rewrite bool_decide_eq_true_2 by reflexivity.
    cbn [negb]. cbn beta iota.
    rewrite Hloop. cbn beta iota. rewrite Hfill. cbn beta iota.
    destruct rules' as [|rule rules']; [contradiction|].
    cbn [List.length Nat.eqb].
    cbn [NetworkPolicy.Meta NetworkPolicy.setMeta
         NetworkPolicy.Spec NetworkPolicy.setSpec].
    rewrite Hegress. unfold DeepEqual.
    rewrite bool_decide_eq_true_2 by reflexivity.
    cbn [negb]. cbn beta iota.
    cbn [NetworkPolicy.Meta NetworkPolicy.setMeta ObjectMeta.setName
         ObjectMeta.setNamespace ObjectMeta.CreationTimestamp].
    rewrite bool_decide_eq_false_2 by exact Hstamp.
    reflexivity.
  - destruct Hframe as [(delta & Hc & Hd) Ho].
    rewrite (issuedSince_app _ _ _ Hc).
    split; [now apply filter_quiet_policy|].
    split; [now apply filter_quiet_status|].
    unfold storedPolicy, storedACL.
    split; intros key; now rewrite Ho.
Qed.

Lemma calm_refl w : calm w w.
Proof. exists []. auto. Qed.

Lemma calm_trans w1 w2 w3 : calm w1 w2 -> calm w2 w3 -> calm w1 w3.
Proof.
  intros (d1 & Hc1 & Hd1) (d2 & Hc2 & Hd2). exists (d2 ++ d1).
  rewrite Hc2, Hc1, app_assoc, forallb_app, Hd1, Hd2. auto.
Qed.

Lemma calm_call c w w' :
  calls w' = c :: calls w -> unreadyWrite c = false -> calm w w'.
Proof. intros Hc Hu. exists [c]. simpl. now rewrite Hu. Qed.

Lemma frame_calm K w w' : frame quietCall K w w' -> calm w w'.
Proof.
  intros [(delta & Hc & Hd) _]. exists delta. split; [exact Hc|].
  rewrite forallb_forall in *. intros c Hin. specialize (Hd c Hin).
  destruct c as [| | | [] | | | |]; try reflexivity; discriminate.
Qed.

Lemma calm_issued w w' :
  calm w w' ->
  forallb (fun c => negb (unreadyWrite c)) (issuedSince w w') = true.
Proof. intros (delta & Hc & Hd). now rewrite (issuedSince_app _ _ _ Hc). Qed.

Lemma stopsUnready_issued w' result err w acl reason :
  stopsUnready (w', (result, err)) w acl reason ->
  result = Result.zero
  /\ forallb (fun c => negb (unreadyWrite c)) (issuedSince w w') = false.
Proof.
  intros (Hres & Hhead & _). split; [exact Hres|].
  destruct (issuedSince w w') as [|c cs]; [discriminate|].
  injection Hhead as ->. reflexivity.
Qed.

Lemma finish_inv b acl w w' result err :
  ACLReconciler.finish b acl w = (w', (result, err)) ->
  (b = true -> ACLStatus.Ready (ACL.Status acl) = true) ->
  result = (if bool_decide (err = None)
            then Result.Make true requeueAfter else Result.zero)
  /\ calm w w'.
Proof.
  unfold ACLReconciler.finish. intros Hrun Hready. destruct b.
  - unbind Hrun. apply clientStatusUpdate_inv in Hm as (Hc & _).
    assert (Hcalm : calm w w0).
    { eapply calm_call; [exact Hc|]. simpl. now rewrite Hready. }
    destruct a as [e|]; apply ret_inv in Hrun as [-> [= -> ->]]; auto.
  - apply ret_inv in Hrun as [-> [= -> ->]]. auto using calm_refl.
Qed.

(** The result of a pass by its outcome. *)
Lemma Reconcile_result E req w w' result err :
  ACLReconciler.Reconcile E req w = (w', (result, err)) ->
  result =
  if bool_decide (err = None)
     && forallb (fun c => negb (unreadyWrite c)) (issuedSince w w')
  then Result.Make true requeueAfter
  else Result.zero.
Proof.
  intros Hrun.
  assert (Hstop : forall w0 acl reason,
            frame quietCall addressKind w w0 ->
            (let* err := ACLReconciler.setUnreadyStatus acl reason in
             ret (Result.zero, err)) w0 = (w', (result, err)) ->
            result =
            if bool_decide (err = None)
               && forallb (fun c => negb (unreadyWrite c)) (issuedSince w w')
            then Result.Make true requeueAfter
            else Result.zero).
  { intros w0 acl reason Hframe Hset. unbind Hset.
    apply ret_inv in Hset as [-> [= -> ->]].
    destruct (stopsUnready_issued _ _ _ _ _ _
                (stopsUnready_intro acl reason w w0 w1 a Hframe Hm))
      as [_ ->].
    now rewrite andb_false_r. }
  unfold ACLReconciler.Reconcile in Hrun.
  unbind Hrun. destruct a as [acl e1].
  pose proof (clientGet_quiet _ _ _ _ Hm) as Hf1. clear Hm.
  destruct (unlessNotFound e1) as [e|].
  { apply ret_inv in Hrun as [-> [= -> ->]]. reflexivity. }
  cbv zeta in Hrun. unbind Hrun. destruct a as [np e2].
  pose proof (frame_trans _ _ _ _ _ Hf1 (clientGet_quiet _ _ _ _ Hm)) as Hf2.
  clear Hm Hf1.
  destruct (unlessNotFound e2) as [e|].
  { apply ret_inv in Hrun as [-> [= -> ->]]. reflexivity. }
  repeat match type of Hrun with
         | context [let '(_, _) := (if ?b then _ else _) in _] => destruct b
         end.
  all: destruct (ACLReconciler.podSelectorForSource _) as [selector|];
    [|eapply Hstop; eauto].
  all: repeat match type of Hrun with
         | context [let '(_, _) := (if ?b then _ else _) in _] => destruct b
         end.
  all: unbind Hrun; destruct a as [rules [[d e]|]];
    pose proof (frame_trans _ _ _ _ _ Hf2 (destinationsLoop_quiet _ _ _ _ _ _ Hm))
      as Hf3; clear Hm Hf2;
    [eapply Hstop; eauto|].
  all: unbind Hrun; destruct a as [rules' [e|]];
    pose proof (frame_trans _ _ _ _ _ Hf3
                  (fillPodSelectorByCIDR_quiet _ _ _ _ _ Hm)) as Hf4;
    clear Hm Hf3;
    [eapply Hstop; eauto|].
  all: destruct (List.length rules' =? 0)%nat; [eapply Hstop; eauto|].
  all: apply frame_calm in Hf4.
  all: repeat match type of Hrun with
         | context [let '(_, _) := (if ?b then _ else _) in _] => destruct b
         end.
  all: repeat match type of Hrun with
         | (if ?b then _ else _) _ = _ => destruct b
         end.
  all: try (unbind Hrun;
            first [ apply clientCreate_inv in Hm as (Hc & _)
                  | apply clientUpdate_inv in Hm as (Hc & _) ];
            pose proof (calm_trans _ _ _ Hf4 (calm_call _ _ _ Hc eq_refl))
              as Hf5;
            destruct a as [e|];
            [ apply ret_inv in Hrun as [-> [= -> ->]]; reflexivity
            | apply finish_inv in Hrun as [-> Hcalm]; [|reflexivity];
              rewrite (calm_issued _ _ (calm_trans _ _ _ Hf5 Hcalm));
              rewrite andb_true_r; reflexivity ]).
  all: apply finish_inv in Hrun as [-> Hcalm]; [|discriminate];
    rewrite (calm_issued _ _ (calm_trans _ _ _ Hf4 Hcalm));
    rewrite andb_true_r; reflexivity.
Qed.

(** C2, as the code has it.  The result of a pass is the requeue after
    ten minutes when the pass returns no error and wrote no ACL not
    ready, and the empty result in every other case. *)
Theorem Reconcile_requeues_unless_unready E req w :
  requeueAfter = 600 * 1000000000
  /\ let '(w', (result, err)) := ACLReconciler.Reconcile E req w in
     result =
     if bool_decide (err = None)
        && forallb (fun c => negb (unreadyWrite c)) (issuedSince w w')
     then Result.Make true requeueAfter
     else Result.zero.
Proof.
  split; [reflexivity|].
  destruct (ACLReconciler.Reconcile E req w) as [w' [result err]] eqn:Hrun.
  exact (Reconcile_result _ _ _ _ _ _ Hrun).
Qed.

(** A pass over a wildcard hostname alone writes the ACL not ready,
    returns no error, and asks for no requeue at all. *)
Lemma Reconcile_unready_is_not_requeued :
  let run :=
    ACLReconciler.Reconcile Scenario.externals Scenario.request
      (Scenario.world [ObjACL Scenario.aclWildcard]) in
  snd run = (Result.zero, None)
  /\ Result.RequeueAfter (fst (snd run)) <> requeueAfter
  /\ Result.Requeue (fst (snd run)) = false.
Proof. vm_compute. repeat split; congruence. Qed.

(** ** Wildcard hostnames *)

(** C6. A destination that is an external hostname starting with a dot
    gives no rule and no error, and its computation leaves the world as
    it was: no call is issued, so no address record is read, created or
    resolved. *)
Theorem wildcard_hostname_contributes_nothing
    E (rest : string) (ports : list ProtoPort.t)
    (externalIP : option ACLSpecExternalIP.t)
    (rpaasInstance : option ACLSpecRpaasInstance.t) (w : World) :
  let externalDNS := ACLSpecExternalDNS.Make (String "."%char rest) ports in
  isWildCard (ACLSpecExternalDNS.Name externalDNS) = true
  /\ ACLReconciler.egressRulesForExternalDNS E externalDNS w = (w, ([], None))
  /\ ACLReconciler.egressRulesForDestination E
       (ACLSpecDestination.Make "" "" (Some externalDNS)
                                externalIP rpaasInstance) w
     = (w, ([], None)).
Proof. repeat split. Qed.

(** ** The key of an application's address record *)

(** C1, at the input [My_App].  The application's address record is
    created under the name the identity namer derives, and the same
    derived name is stored as its spec key: the record does not hold
    [My_App], the resolver asks the platform for an application of the
    derived name, and the platform, which knows [My_App], reports that
    it knows no such application.  The hostname record next to it keeps
    the host it was given. *)
Theorem ensureTsuruAppAddress_keys_record_by_derived_name :
  let run :=
    ACLReconciler.ensureTsuruAppAddress Scenario.capitals "My_App"
      (Scenario.world []) in
  let derived := "y--pp-0e86b84b26" in
  validResourceName "My_App" = derived
  /\ rev (calls (fst run))
     = [CallGet KindTsuruAppAddress ("", derived);
        CallCreate
          (ObjTsuruAppAddress
             (TsuruAppAddress.Make (ObjectMeta.named derived) derived
                                   ResourceAddressStatus.zero));
        CallGet KindTsuruAppAddress ("", derived);
        CallAppInfo derived]
  /\ TsuruAppAddress.SpecName <$> addressRecord (fst run) ("", derived)
     = Some derived
  /\ snd (snd run) = Some (Error false "app not found")
  /\ TsuruAPI_AppInfo Scenario.capitals "My_App"
     = (AppInfo.Make [Scenario.dbRouter], None)
  /\ ACLDNSEntry.SpecHost <$>
       (objects
          (fst (ACLReconciler.ensureDNSEntry Scenario.capitals "My_App"
                  (Scenario.world [])))
          !! (KindACLDNSEntry, ("", derived)) ≫= ofObject)
     = Some "My_App".
Proof. vm_compute. repeat split. Qed.

(** ** The theorems at work on the small cluster *)

(** On a store that hands back what it was given, a second pass over
    the same ACL finds the policy of the first pass and writes
    nothing, be the destination a literal address or an application
    with resolved routers. *)
Example Reconcile_second_pass_is_silent :
  let again acl :=
    let w1 :=
      fst (ACLReconciler.Reconcile Scenario.externals Scenario.request
             (Scenario.world [ObjACL acl])) in
    let w2 :=
      fst (ACLReconciler.Reconcile Scenario.externals Scenario.request w1) in
    (List.length (filter (fun c => isWrite c = true)
                    (issuedSince (Scenario.world [ObjACL acl]) w1)),
     filter (fun c => isWrite c = true) (issuedSince w1 w2)) in
  again Scenario.aclLiteral = (2%nat, [])
  /\ again (Scenario.aclOf [Scenario.toApp "db"]) = (4%nat, []).
Proof. vm_compute. split; reflexivity. Qed.

Lemma validResourceName_length_contract_witness :
  ((maxChars < GoString.len (truncatedName Scenario.longKey))%nat
   /\ GoString.len (validResourceName Scenario.longKey) = maxChars)
  /\ (IsDNS1123Subdomain "My_App" = false
      /\ validResourceName "My_App"
         = truncatedName "My_App" +:+ "-" +:+ digest "My_App")
  /\ (IsDNS1123Subdomain "web" = true /\ validResourceName "web" = "web").
Proof.
  split; [|split].
  - assert (Hlong : (maxChars < GoString.len (truncatedName Scenario.longKey))%nat)
      by (vm_compute; lia).
    split; [exact Hlong|].
    exact (proj2 (proj1 (proj2 (validResourceName_length_contract
                                  Scenario.longKey)) Hlong)).
  - assert (Hraw : IsDNS1123Subdomain "My_App" = false) by reflexivity.
    split; [exact Hraw|].
    apply (proj1 (proj2 (proj2 (validResourceName_length_contract "My_App")))
             Hraw).
    vm_compute. lia.
  - assert (Hlegal : IsDNS1123Subdomain "web" = true) by reflexivity.
    split; [exact Hlegal|].
    exact (proj2 (proj2 (proj2 (validResourceName_length_contract "web")))
             Hlegal).
Defined.

Lemma fillPodSelectorByCIDR_is_additive_witness :
  let run :=
    ACLReconciler.fillPodSelectorByCIDR Scenario.externals Scenario.dbRules
      (Scenario.world []) in
  snd (snd run) = None
  /\ exists rule' added,
       fst (snd run) !! 0%nat = Some rule'
       /\ Slice.elems (NetworkPolicyEgressRule.To rule')
          = [ACLReconciler.ipBlockPeer "10.0.0.9/32";
             ACLReconciler.ipBlockPeer "10.0.0.8/32"] ++ added
       /\ ACLReconciler.ipBlockPeer "10.0.0.9/32"
            ∈ Slice.elems (NetworkPolicyEgressRule.To rule')
       /\ ACLReconciler.ownerPeer Scenario.dbService ∈ added.
Proof.
  cbv zeta.
  assert (Hrun :
    ACLReconciler.fillPodSelectorByCIDR Scenario.externals Scenario.dbRules
      (Scenario.world [])
    = (fst (ACLReconciler.fillPodSelectorByCIDR Scenario.externals
              Scenario.dbRules (Scenario.world [])),
       (fst (snd (ACLReconciler.fillPodSelectorByCIDR Scenario.externals
                    Scenario.dbRules (Scenario.world []))), None)))
    by (vm_compute; reflexivity).
  split; [vm_compute; reflexivity|].
  destruct (proj2 (fillPodSelectorByCIDR_is_additive _ _ _ _ _ _ Hrun)
              0%nat _ eq_refl)
    as (rule' & added & Hrule & _ & Hto & Hall).
  exists rule', added. split; [exact Hrule|]. split; [exact Hto|].
  apply (Hall eq_refl (ACLReconciler.ipBlockPeer "10.0.0.9/32")
              "10.0.0.9" Scenario.dbService).
  - left.
  - reflexivity.
  - reflexivity.
Defined.

Lemma TsuruAppAdress_Reconcile_writes_only_changes_witness :
  let w := Scenario.world [ObjTsuruAppAddress Scenario.dbAddress] in
  exists w' err,
    TsuruAppAdressReconciler.Reconcile Scenario.externals ("", "db") w
    = (w', (Result.zero, err))
    /\ filter (fun c => isWrite c = true) (issuedSince w w')
       = [CallStatusUpdate
            (ObjTsuruAppAddress
               (TsuruAppAddress.setStatus
                  (ResourceAddressStatus.Make true
                     (Some ["10.0.0.8"; "10.0.0.9"])
                     "2022-08-01T12:00:00Z")
                  Scenario.dbAddress))]
    /\ forall ip,
         ip ∈ ["10.0.0.8"; "10.0.0.9"]
         <-> exists router url answer,
               router ∈ [Scenario.dbRouter]
               /\ (url ∈ AppRouter.Addresses router
                   \/ (AppRouter.Addresses router = []
                       /\ url = AppRouter.Address router))
               /\ Resolver_LookupIPAddr Scenario.externals
                    (URLToHost Scenario.externals url) = (answer, None)
               /\ ip ∈ answer.
Proof.
  cbv zeta.
  set (w := Scenario.world [ObjTsuruAppAddress Scenario.dbAddress]).
  set (run := TsuruAppAdressReconciler.Reconcile Scenario.externals
                ("", "db") w).
  assert (Hget :
    clientGet (X:=TsuruAppAddress.t) ("", "db") w
    = (fst (clientGet (X:=TsuruAppAddress.t) ("", "db") w),
       (Scenario.dbAddress, None)))
    by (vm_compute; reflexivity).
  assert (Hwrites :
    filter (fun c => isWrite c = true) (issuedSince w (fst run))
    = [CallStatusUpdate
         (ObjTsuruAppAddress
            (TsuruAppAddress.setStatus
               (ResourceAddressStatus.Make true
                  (Some ["10.0.0.8"; "10.0.0.9"]) "2022-08-01T12:00:00Z")
               Scenario.dbAddress))])
    by (vm_compute; reflexivity).
  destruct (TsuruAppAdress_Reconcile_writes_only_changes
              Scenario.externals ("", "db") w _
              Scenario.dbAddress (AppInfo.Make [Scenario.dbRouter])
              Hget eq_refl eq_refl)
    as (ips & w' & err & Hrun & _ & _ & Hmem & Hcase).
  fold run in Hrun.
  assert (Hw : fst run = w') by now rewrite Hrun.
  destruct Hcase as (Hissued & _). rewrite <- Hw in Hissued.
  rewrite Hwrites in Hissued.
  cbv [TsuruAppAddress.setStatus] in Hissued.
  injection Hissued as Hips. subst ips. exists w', err.
  split; [exact Hrun|]. split; [now rewrite <- Hw|]. exact Hmem.
Defined.

Lemma TsuruAppAdress_Reconcile_ready_is_kept_witness :
  let w := Scenario.world [ObjTsuruAppAddress Scenario.dbAddress] in
  let w2 := Scenario.world [ObjTsuruAppAddress Scenario.dbResolved] in
  (exists record',
     addressRecord
       (fst (TsuruAppAdressReconciler.Reconcile Scenario.deafResolver
               ("", "db") w)) ("", "db") = Some record'
     /\ ResourceAddressStatus.Ready (TsuruAppAddress.Status record') = true
     /\ ResourceAddressStatus.IPs (TsuruAppAddress.Status record') = Some [])
  /\ (exists record',
        addressRecord
          (fst (TsuruAppAdressReconciler.Reconcile Scenario.deafResolver
                  ("", "db") w2)) ("", "db") = Some record'
        /\ ResourceAddressStatus.Ready (TsuruAppAddress.Status record') = true).
Proof.
  cbv zeta. split.
  - assert (Hget :
      clientGet (X:=TsuruAppAddress.t) ("", "db")
        (Scenario.world [ObjTsuruAppAddress Scenario.dbAddress])
      = (fst (clientGet (X:=TsuruAppAddress.t) ("", "db")
                (Scenario.world [ObjTsuruAppAddress Scenario.dbAddress])),
         (Scenario.dbAddress, None)))
      by (vm_compute; reflexivity).
    assert (Herr :
      snd (snd (TsuruAppAdressReconciler.Reconcile Scenario.deafResolver
                  ("", "db")
                  (Scenario.world [ObjTsuruAppAddress Scenario.dbAddress])))
      = None)
      by (vm_compute; reflexivity).
    destruct (proj1 (TsuruAppAdress_Reconcile_ready_is_kept
                       Scenario.deafResolver ("", "db")
                       (Scenario.world [ObjTsuruAppAddress Scenario.dbAddress]))
                _ Scenario.dbAddress (AppInfo.Make [Scenario.dbRouter])
                Hget eq_refl eq_refl)
      as (w' & err & Hrun & Hok & _).
    rewrite Hrun in Herr |- *. simpl in Herr |- *.
    destruct (Hok Herr) as (record' & Hrecord & Hready & Hempty).
    exists record'. split; [exact Hrecord|]. split; [exact Hready|].
    apply Hempty. intros ip (addr & answer & _ & Hlookup & _).
    discriminate Hlookup.
  - apply (proj2 (TsuruAppAdress_Reconcile_ready_is_kept
                    Scenario.deafResolver ("", "db")
                    (Scenario.world [ObjTsuruAppAddress Scenario.dbResolved]))
             ("", "db") Scenario.dbResolved).
    + vm_compute. reflexivity.
    + reflexivity.
Defined.

Lemma Reconcile_aborts_on_failed_destination_witness :
  let w := Scenario.world [ObjACL Scenario.aclGhost] in
  stopsUnready
    (ACLReconciler.Reconcile Scenario.externals Scenario.request w)
    w Scenario.aclGhost
    ("could not generate egress rule for destination "
     +:+ Marshal Scenario.externals (Scenario.toApp "ghost")
     +:+ ", err: " +:+ "app not found").
Proof.
  cbv zeta.
  set (w := Scenario.world [ObjACL Scenario.aclGhost]).
  set (g1 := clientGet (X:=ACL.t) Scenario.request w).
  set (g2 := clientGet (X:=NetworkPolicy.t)
               (reqNamespace Scenario.request,
                networkPolicyName Scenario.aclGhost Scenario.request)
               (fst g1)).
  set (g3 := ACLReconciler.destinationsLoop Scenario.externals
               [Scenario.toIP "10.0.0.5"] [] (fst g2)).
  set (g4 := ACLReconciler.egressRulesForDestination Scenario.externals
               (Scenario.toApp "ghost") (fst g3)).
  assert (H1 : g1 = (fst g1, (Scenario.aclGhost, None)))
    by (vm_compute; reflexivity).
  assert (H2 : g2 = (fst g2, (NetworkPolicy.zero, Some notFound)))
    by (vm_compute; reflexivity).
  assert (H3 : g3 = (fst g3, (Scenario.literalRules, None)))
    by (vm_compute; reflexivity).
  assert (H4 : g4 = (fst g4, ([], Some (Error false "app not found"))))
    by (vm_compute; reflexivity).
  exact (Reconcile_aborts_on_failed_destination
           Scenario.externals Scenario.request w (fst g1) Scenario.aclGhost
           None (fst g2) NetworkPolicy.zero (Some notFound)
           {[ "tsuru.io/app-name" := "web" ]}
           [Scenario.toIP "10.0.0.5"] (Scenario.toApp "ghost") []
           (fst g3) Scenario.literalRules (fst g4) []
           (Error false "app not found")
           H1 eq_refl H2 eq_refl eq_refl eq_refl H3 H4).
Defined.

Lemma Reconcile_stops_without_egress_witness :
  let w := Scenario.world [ObjACL Scenario.aclWildcard] in
  stopsUnready
    (ACLReconciler.Reconcile Scenario.externals Scenario.request w)
    w Scenario.aclWildcard "No egress generated by spec.destinations".
Proof.
  cbv zeta.
  set (w := Scenario.world [ObjACL Scenario.aclWildcard]).
  set (g1 := clientGet (X:=ACL.t) Scenario.request w).
  set (g2 := clientGet (X:=NetworkPolicy.t)
               (reqNamespace Scenario.request,
                networkPolicyName Scenario.aclWildcard Scenario.request)
               (fst g1)).
  set (g3 := ACLReconciler.destinationsLoop Scenario.externals
               (ACLSpec.Destinations (ACL.Spec Scenario.aclWildcard)) []
               (fst g2)).
  set (g4 := ACLReconciler.fillPodSelectorByCIDR Scenario.externals []
               (fst g3)).
  assert (H1 : g1 = (fst g1, (Scenario.aclWildcard, None)))
    by (vm_compute; reflexivity).
  assert (H2 : g2 = (fst g2, (NetworkPolicy.zero, Some notFound)))
    by (vm_compute; reflexivity).
  assert (H3 : g3 = (fst g3, ([], None))) by (vm_compute; reflexivity).
  assert (H4 : g4 = (fst g4, ([], None))) by (vm_compute; reflexivity).
  exact (Reconcile_stops_without_egress
           Scenario.externals Scenario.request w (fst g1) Scenario.aclWildcard
           None (fst g2) NetworkPolicy.zero (Some notFound)
           {[ "tsuru.io/app-name" := "web" ]} (fst g3) [] (fst g4)
           H1 eq_refl H2 eq_refl eq_refl H3 H4).
Defined.

Lemma Reconcile_unchanged_policy_writes_nothing_witness :
  let w := Scenario.world [ObjACL Scenario.aclLiteral;
                           ObjNetworkPolicy Scenario.policyLiteral] in
  exists w',
    ACLReconciler.Reconcile Scenario.externals Scenario.request w
    = (w', (Result.Make true requeueAfter, None))
    /\ filter (fun c => policyWrite c = true) (issuedSince w w') = []
    /\ filter (fun c => statusWrite c = true) (issuedSince w w') = []
    /\ (forall key, storedPolicy w' key = storedPolicy w key)
    /\ (forall key, storedACL w' key = storedACL w key).
Proof.
  cbv zeta.
  set (w := Scenario.world [ObjACL Scenario.aclLiteral;
                            ObjNetworkPolicy Scenario.policyLiteral]).
  set (g1 := clientGet (X:=ACL.t) Scenario.request w).
  set (g2 := clientGet (X:=NetworkPolicy.t)
               (reqNamespace Scenario.request,
                networkPolicyName Scenario.aclLiteral Scenario.request)
               (fst g1)).
  set (g3 := ACLReconciler.destinationsLoop Scenario.externals
               (ACLSpec.Destinations (ACL.Spec Scenario.aclLiteral)) []
               (fst g2)).
  set (g4 := ACLReconciler.fillPodSelectorByCIDR Scenario.externals
               Scenario.literalRules (fst g3)).
  assert (H1 : g1 = (fst g1, (Scenario.aclLiteral, None)))
    by (vm_compute; reflexivity).
  assert (H2 : g2 = (fst g2, (Scenario.policyLiteral, None)))
    by (vm_compute; reflexivity).
  assert (H3 : g3 = (fst g3, (Scenario.literalRules, None)))
    by (vm_compute; reflexivity).
  assert (H4 : g4 = (fst g4, (Scenario.literalRules, None)))
    by (vm_compute; reflexivity).
  exists (fst g4).
  refine (Reconcile_unchanged_policy_writes_nothing
            Scenario.externals Scenario.request w (fst g1) Scenario.aclLiteral
            None (fst g2) Scenario.policyLiteral
            {[ "tsuru.io/app-name" := "web" ]} (fst g3) Scenario.literalRules
            (fst g4) Scenario.literalRules
            H1 eq_refl H2 _ eq_refl H3 H4 _ eq_refl eq_refl eq_refl eq_refl);
    discriminate.
Defined.

(** * Further properties of the controllers *)

(** ** The identity namer, for every key *)

Lemma nameByte_hexDigit (d : Z) : Regexp.nameByte (SHA256.hexDigit d) = true.
Proof.
  unfold SHA256.hexDigit.
  destruct (nth_in_or_default (Z.to_nat d)
              (GoString.bytes "0123456789abcdef") "0"%char) as [Hin| ->];
    [|reflexivity].
  remember (nth (Z.to_nat d) (GoString.bytes "0123456789abcdef") "0"%char)
    as c eqn:Hc.
  clear Hc. cbv in Hin.
  repeat (destruct Hin as [<-|Hin]; [reflexivity|]). contradiction.
Qed.

Lemma hex_nameBytes (bs : list Z) :
  Forall (fun c => Regexp.nameByte c = true) (SHA256.hex bs).
Proof.
  unfold SHA256.hex. induction bs as [|b bs IH]; simpl; [constructor|].
  repeat constructor; auto using nameByte_hexDigit.
Qed.

Lemma replaceOutside_nameBytes (l : list ascii) :
  forall skip,
    Forall (fun c => Regexp.nameByte c = true) (Regexp.replaceOutside skip l).
Proof.
  induction l as [|c l IH]; intros skip; simpl; [constructor|].
  destruct skip as [|k]; [|apply IH].
  destruct (Regexp.nameByte c) eqn:Hc; constructor; auto.
Qed.

Lemma dropLeading_Forall (P : ascii -> Prop) (l : list ascii) :
  forall skip, Forall P l -> Forall P (Regexp.dropLeading skip l).
Proof.
  induction l as [|c l IH]; intros skip Hl; simpl; [constructor|].
  inversion Hl; subst.
  destruct skip as [|k]; [|now apply IH].
  destruct (Regexp.lowerAlnum c); [assumption | now apply IH].
Qed.

Lemma dns1123Subdomain_nameBytes (l : list ascii) :
  forall st,
    Regexp.dns1123Subdomain st l = true ->
    Forall (fun c => Regexp.nameByte c = true) l.
Proof.
  induction l as [|c l IH]; intros st Hl; [constructor|].
  simpl in Hl.
  destruct (Regexp.lowerAlnum c) eqn:Halnum.
  { constructor; [unfold Regexp.nameByte; now rewrite Halnum | eauto]. }
  destruct (Ascii.eqb c "-") eqn:Hhyphen.
  { constructor.
    - unfold Regexp.nameByte. rewrite Hhyphen. apply orb_true_r.
    - destruct st; eauto; discriminate. }
  destruct (Ascii.eqb c ".") eqn:Hdot; [|discriminate].
  constructor.
  - unfold Regexp.nameByte. rewrite Hdot, Halnum. reflexivity.
  - destruct st; eauto; discriminate.
Qed.

Lemma truncatedName_nameBytes (name : string) :
  Forall (fun c => Regexp.nameByte c = true)
         (GoString.bytes (truncatedName name)).
Proof.
  unfold truncatedName. rewrite bytes_ofBytes.
  apply dropLeading_Forall, replaceOutside_nameBytes.
Qed.

Lemma digest_nameBytes (name : string) :
  Forall (fun c => Regexp.nameByte c = true) (GoString.bytes (digest name)).
Proof.
  unfold digest, GoString.prefix, sha256String.
  rewrite !bytes_ofBytes. apply Forall_take, hex_nameBytes.
Qed.

(** X1. Whatever the key, the name returned has at most 253 bytes and all of
    them are lower-case letters, digits, dots or hyphens. *)
Theorem validResourceName_bounded_and_legal_bytes (name : string) :
  (GoString.len (validResourceName name) <= 253)%nat
  /\ Forall (fun c => Regexp.nameByte c = true)
            (GoString.bytes (validResourceName name)).
Proof.
  unfold validResourceName.
  destruct (IsDNS1123Subdomain name) eqn:Hlegal.
  - split; [now apply IsDNS1123Subdomain_length|].
    unfold IsDNS1123Subdomain in Hlegal.
    apply andb_prop in Hlegal as [_ Hmatch].
    eapply dns1123Subdomain_nameBytes; eauto.
  - assert (Hsep : Forall (fun c => Regexp.nameByte c = true)
                          (GoString.bytes "-"))
      by (repeat constructor).
    destruct (Nat.ltb_spec (GoString.len (truncatedName name))
                           (maxChars - 11)) as [Hlt|Hge].
    + split.
      * rewrite !len_app, digest_length. unfold maxChars in Hlt.
        change (GoString.len "-") with 1%nat. lia.
      * rewrite !bytes_app.
        repeat apply Forall_app_2;
          auto using truncatedName_nameBytes, digest_nameBytes.
    + split.
      * rewrite !len_app, digest_length, len_prefix by exact Hge.
        unfold maxChars. change (GoString.len "-") with 1%nat. lia.
      * rewrite !bytes_app.
        repeat apply Forall_app_2; auto using digest_nameBytes.
        unfold GoString.prefix. rewrite bytes_ofBytes.
        apply Forall_take, truncatedName_nameBytes.
Qed.

(** X2. A key that is not a legal name and of which sanitizing leaves
    nothing (the empty key, or one made of illegal characters, dots and
    hyphens only) is named by a hyphen and the digest: a name of eleven
    bytes that is not a legal name itself. *)
Theorem validResourceName_of_empty_sanitized_form (name : string) :
  IsDNS1123Subdomain name = false ->
  truncatedName name = "" ->
  validResourceName name = "-" +:+ digest name
  /\ GoString.len (validResourceName name) = 11%nat
  /\ IsDNS1123Subdomain (validResourceName name) = false.
Proof.
  intros Hraw Hempty.
  assert (Hname : validResourceName name = "-" +:+ digest name).
  { unfold validResourceName. rewrite Hraw, Hempty. reflexivity. }
  rewrite Hname. split; [reflexivity|]. split.
  - rewrite len_app, digest_length. reflexivity.
  - unfold IsDNS1123Subdomain. rewrite bytes_app. simpl.
    apply andb_false_r.
Qed.

Lemma validResourceName_of_empty_sanitized_form_witness :
  (IsDNS1123Subdomain "" = false /\ truncatedName "" = ""
   /\ validResourceName "" = "-e3b0c44298")
  /\ (IsDNS1123Subdomain "_._" = false /\ truncatedName "_._" = ""
      /\ IsDNS1123Subdomain (validResourceName "_._") = false).
Proof.
  split.
  - assert (Hraw : IsDNS1123Subdomain "" = false) by reflexivity.
    assert (Hempty : truncatedName "" = "") by reflexivity.
    split; [exact Hraw|]. split; [exact Hempty|].
    rewrite (proj1 (validResourceName_of_empty_sanitized_form "" Hraw Hempty)).
    vm_compute. reflexivity.
  - assert (Hraw : IsDNS1123Subdomain "_._" = false) by reflexivity.
    assert (Hempty : truncatedName "_._" = "") by reflexivity.
    split; [exact Hraw|]. split; [exact Hempty|].
    exact (proj2 (proj2 (validResourceName_of_empty_sanitized_form
                           "_._" Hraw Hempty))).
Defined.

(** X3. The digest is printed as 64 bytes, each a decimal digit or a letter
    from [a] to [f]. *)
Theorem sha256String_is_lower_hex (str : string) :
  GoString.len (sha256String str) = 64%nat
  /\ Forall (fun c => In c (GoString.bytes "0123456789abcdef"))
            (GoString.bytes (sha256String str)).
Proof.
  split; [apply sha256String_length|].
  unfold sha256String. rewrite bytes_ofBytes. unfold SHA256.hex.
  generalize (SHA256.Sum (List.map GoString.code (GoString.bytes str))).
  intros bs.
  assert (Hdigit : forall d, In (SHA256.hexDigit d)
                                (GoString.bytes "0123456789abcdef")).
  { intros d. unfold SHA256.hexDigit.
    destruct (nth_in_or_default (Z.to_nat d)
                (GoString.bytes "0123456789abcdef") "0"%char) as [Hin| ->];
      [exact Hin | left; reflexivity]. }
  induction bs as [|b bs IH]; simpl; [constructor|].
  constructor; [apply Hdigit|]. constructor; [apply Hdigit | exact IH].
Qed.

(** ** The rules of one destination *)

Lemma isPrefixOf_app (p l : list ascii) : GoString.isPrefixOf p (p ++ l) = true.
Proof.
  induction p as [|a p IH]; simpl; [reflexivity|].
  now rewrite Ascii.eqb_refl.
Qed.

Lemma isPrefixOf_inv (p l : list ascii) :
  GoString.isPrefixOf p l = true -> exists rest, l = p ++ rest.
Proof.
  revert l. induction p as [|a p IH]; intros l Hp; simpl in *; [eauto|].
  destruct l as [|b l]; [discriminate|].
  destruct (Ascii.eqb a b) eqn:Hab; [|discriminate].
  apply Ascii.eqb_eq in Hab as ->.
  destruct (IH l Hp) as [rest ->]. eauto.
Qed.

Lemma HasSuffix_app (s suffix : string) :
  GoString.HasSuffix (s +:+ suffix) suffix = true.
Proof.
  unfold GoString.HasSuffix. rewrite bytes_app, rev_app_distr.
  apply isPrefixOf_app.
Qed.

Lemma HasSuffix_inv (s suffix : string) :
  GoString.HasSuffix s suffix = true ->
  exists front, GoString.bytes s = front ++ GoString.bytes suffix.
Proof.
  unfold GoString.HasSuffix. intros [rest Hrev]%isPrefixOf_inv.
  exists (rev rest).
  rewrite <- (rev_involutive (GoString.bytes s)), Hrev, rev_app_distr.
  now rewrite rev_involutive.
Qed.

Lemma beforeByte_app (c : ascii) (front rest : list ascii) :
  existsb (Ascii.eqb c) front = false ->
  GoString.beforeByte c (front ++ c :: rest) = front.
Proof.
  induction front as [|a front IH]; simpl.
  - now rewrite Ascii.eqb_refl.
  - intros [Ha Hfront]%orb_false_elim.
    rewrite Ascii.eqb_sym, Ha. now rewrite IH.
Qed.

Lemma SplitHead_app (s rest : string) (c : ascii) :
  GoString.ContainsByte s c = false ->
  GoString.SplitHead (s +:+ String c rest) c = s.
Proof.
  unfold GoString.ContainsByte, GoString.SplitHead. intros Hc.
  rewrite bytes_app. change (GoString.bytes (String c rest))
    with (c :: GoString.bytes rest).
  rewrite beforeByte_app by exact Hc. apply ofBytes_bytes.
Qed.

Lemma ContainsByte_suffix (s suffix : string) (c : ascii) :
  GoString.HasSuffix s suffix = true ->
  GoString.ContainsByte suffix c = true ->
  GoString.ContainsByte s c = true.
Proof.
  intros [front Hs]%HasSuffix_inv Hc. unfold GoString.ContainsByte in *.
  rewrite Hs, existsb_app, Hc. apply orb_true_r.
Qed.

(** A peer for [address] with the mask of a single host appended is
    looked up in the address cache under [address]. *)
Lemma singleHost_masked (address : string) (mask : string) :
  GoString.ContainsByte address "/" = false ->
  mask = "32" \/ mask = "128" ->
  ACLReconciler.singleHost
    (ACLReconciler.ipBlockPeer (address +:+ String "/" mask))
  = Some address.
Proof.
  intros Hslash Hmask. unfold ACLReconciler.singleHost. simpl.
  rewrite (SplitHead_app address mask "/"%char Hslash).
  destruct Hmask as [-> | ->].
  - change (String "/" "32") with "/32". now rewrite HasSuffix_app.
  - change (String "/" "128") with "/128".
    rewrite (HasSuffix_app address "/128"). now rewrite orb_true_r.
Qed.

Lemma egressRulesForExternalIP_run E (externalIP : ACLSpecExternalIP.t) :
  exists cidr,
    ACLReconciler.egressRulesForExternalIP E externalIP
    = ([NetworkPolicyEgressRule.Make
          (ACLReconciler.ports E (ACLSpecExternalIP.Ports externalIP))
          (Some [ACLReconciler.ipBlockPeer cidr])], None).
Proof. eexists. reflexivity. Qed.

(** X4. A literal address never fails and gives one rule with one IP block.
    An address that has a slash is passed on as it is.  One that has
    none gets the mask of a single host, [/128] if it has a colon and
    [/32] if it has a dot, and is then looked up by enrichment under
    the address itself.  One with neither slash, colon nor dot is passed
    on bare, and enrichment does not look it up. *)
Theorem egressRulesForExternalIP_is_one_block E (externalIP : ACLSpecExternalIP.t) :
  let ip := ACLSpecExternalIP.IP externalIP in
  exists cidr,
    ACLReconciler.egressRulesForExternalIP E externalIP
    = ([NetworkPolicyEgressRule.Make
          (ACLReconciler.ports E (ACLSpecExternalIP.Ports externalIP))
          (Some [ACLReconciler.ipBlockPeer cidr])], None)
    /\ (GoString.ContainsByte ip "/" = true -> cidr = ip)
    /\ (GoString.ContainsByte ip "/" = false ->
        GoString.ContainsByte ip ":" = true ->
        cidr = ip +:+ "/128"
        /\ ACLReconciler.singleHost (ACLReconciler.ipBlockPeer cidr) = Some ip)
    /\ (GoString.ContainsByte ip "/" = false ->
        GoString.ContainsByte ip ":" = false ->
        GoString.ContainsByte ip "." = true ->
        cidr = ip +:+ "/32"
        /\ ACLReconciler.singleHost (ACLReconciler.ipBlockPeer cidr) = Some ip)
    /\ (GoString.ContainsByte ip "/" = false ->
        GoString.ContainsByte ip ":" = false ->
        GoString.ContainsByte ip "." = false ->
        cidr = ip
        /\ ACLReconciler.singleHost (ACLReconciler.ipBlockPeer cidr) = None).
Proof.
  cbv zeta. unfold ACLReconciler.egressRulesForExternalIP.
  set (ip := ACLSpecExternalIP.IP externalIP).
  destruct (GoString.ContainsByte ip "/") eqn:Hslash; simpl.
  { eexists. split; [reflexivity|]. repeat split; intros; congruence. }
  destruct (GoString.ContainsByte ip ":") eqn:Hcolon.
  { eexists. split; [reflexivity|]. repeat split; intros; try congruence.
    apply (singleHost_masked ip "128"); auto. }
  destruct (GoString.ContainsByte ip ".") eqn:Hdot.
  { eexists. split; [reflexivity|]. repeat split; intros; try congruence.
    apply (singleHost_masked ip "32"); auto. }
  eexists. split; [reflexivity|]. repeat split; intros; try congruence.
  unfold ACLReconciler.singleHost. simpl.
  destruct (GoString.HasSuffix ip "/32") eqn:H32.
  { pose proof (ContainsByte_suffix ip "/32" "/"%char H32 eq_refl). congruence. }
  destruct (GoString.HasSuffix ip "/128") eqn:H128; [|reflexivity].
  pose proof (ContainsByte_suffix ip "/128" "/"%char H128 eq_refl). congruence.
Qed.

Lemma egressRulesForExternalIP_is_one_block_witness :
  exists cidr,
    ACLReconciler.egressRulesForExternalIP Scenario.externals
      (ACLSpecExternalIP.Make "fd00::1" [])
    = ([NetworkPolicyEgressRule.Make (Some [])
          (Some [ACLReconciler.ipBlockPeer cidr])], None)
    /\ cidr = "fd00::1/128"
    /\ ACLReconciler.singleHost (ACLReconciler.ipBlockPeer cidr)
       = Some "fd00::1".
Proof.
  destruct (egressRulesForExternalIP_is_one_block Scenario.externals
              (ACLSpecExternalIP.Make "fd00::1" []))
    as (cidr & Hrun & _ & Hcolon & _).
  exists cidr. split; [exact Hrun|]. exact (Hcolon eq_refl eq_refl).
Defined.

Lemma resourceAddressRules_spec E (ips : list string) :
  ACLReconciler.resourceAddressRules E ips
  = (flat_map
       (fun ip =>
          fst (ACLReconciler.egressRulesForExternalIP E
                 (ACLSpecExternalIP.Make ip [])))
       ips, []).
Proof.
  induction ips as [|ip ips IH]; [reflexivity|].
  cbn [ACLReconciler.resourceAddressRules flat_map]. rewrite IH.
  destruct (egressRulesForExternalIP_run E
              (ACLSpecExternalIP.Make ip [])) as (cidr & ->).
  reflexivity.
Qed.

(** X5. An application destination fails exactly when its address record
    cannot be had.  Otherwise its rules are the rule selecting the
    application's pods by label, then one literal-address rule for each
    address of the record, in the record's order and without ports. *)
Theorem egressRulesForTsuruApp_rules E (tsuruApp : string) w w' record err :
  ACLReconciler.ensureTsuruAppAddress E tsuruApp w = (w', (record, err)) ->
  ACLReconciler.egressRulesForTsuruApp E tsuruApp w
  = (w',
     (match err with
      | Some _ => []
      | None =>
          NetworkPolicyEgressRule.Make None
            (Some [NetworkPolicyPeer.Make
                     (Some (LabelSelector.Make
                              (Some {[ "tsuru.io/app-name" := tsuruApp ]})))
                     None None])
          :: flat_map
               (fun ip =>
                  fst (ACLReconciler.egressRulesForExternalIP E
                         (ACLSpecExternalIP.Make ip [])))
               (Slice.elems
                  (ResourceAddressStatus.IPs (TsuruAppAddress.Status record)))
      end, err)).
Proof.
  intros Hensure. unfold ACLReconciler.egressRulesForTsuruApp, bind.
  rewrite Hensure. destruct err as [e|]; [reflexivity|].
  unfold ACLReconciler.egressRulesForResourceAddressStatus.
  rewrite resourceAddressRules_spec. reflexivity.
Qed.

(** X6. A managed-instance destination fails exactly when its address
    record cannot be had.  Otherwise its rules are the rule selecting the
    instance's pods by the service and instance labels, then one
    literal-address rule for each address of the record, in the record's
    order and without ports. *)
Theorem egressRulesForRpaasInstance_rules
    E (rpaasInstance : ACLSpecRpaasInstance.t) w w' record err :
  ACLReconciler.ensureRpaasInstanceAddress E rpaasInstance w
  = (w', (record, err)) ->
  ACLReconciler.egressRulesForRpaasInstance E rpaasInstance w
  = (w',
     (match err with
      | Some _ => []
      | None =>
          NetworkPolicyEgressRule.Make None
            (Some [NetworkPolicyPeer.Make
                     (Some (LabelSelector.Make
                              (ACLReconciler.podSelectorForRpasInstance
                                 rpaasInstance)))
                     None None])
          :: flat_map
               (fun ip =>
                  fst (ACLReconciler.egressRulesForExternalIP E
                         (ACLSpecExternalIP.Make ip [])))
               (Slice.elems
                  (ResourceAddressStatus.IPs
                     (RpaasInstanceAddress.Status record)))
      end, err)).
Proof.
  intros Hensure. unfold ACLReconciler.egressRulesForRpaasInstance, bind.
  rewrite Hensure. destruct err as [e|]; [reflexivity|].
  unfold ACLReconciler.egressRulesForResourceAddressStatus.
  rewrite resourceAddressRules_spec. reflexivity.
Qed.

Lemma dnsPeers_single_hosts (ips : list ACLDNSEntryStatusIP.t) :
  Forall
    (fun peer =>
       exists ip,
         ip ∈ ips
         /\ (peer = ACLReconciler.ipBlockPeer
                      (ACLDNSEntryStatusIP.Address ip +:+ "/128")
             \/ peer = ACLReconciler.ipBlockPeer
                         (ACLDNSEntryStatusIP.Address ip +:+ "/32"))
         /\ is_Some (ACLReconciler.singleHost peer))
    (ACLReconciler.dnsPeers ips).
Proof.
  unfold ACLReconciler.dnsPeers.
  induction ips as [|ip ips IH]; simpl; [constructor|].
  assert (Hrest : Forall
    (fun peer =>
       exists ip0,
         ip0 ∈ ip :: ips
         /\ (peer = ACLReconciler.ipBlockPeer
                      (ACLDNSEntryStatusIP.Address ip0 +:+ "/128")
             \/ peer = ACLReconciler.ipBlockPeer
                         (ACLDNSEntryStatusIP.Address ip0 +:+ "/32"))
         /\ is_Some (ACLReconciler.singleHost peer))
    (flat_map
       (fun ip0 =>
          if GoString.ContainsByte (ACLDNSEntryStatusIP.Address ip0) ":"
          then [ACLReconciler.ipBlockPeer
                  (ACLDNSEntryStatusIP.Address ip0 +:+ "/128")]
          else if GoString.ContainsByte (ACLDNSEntryStatusIP.Address ip0) "."
          then [ACLReconciler.ipBlockPeer
                  (ACLDNSEntryStatusIP.Address ip0 +:+ "/32")]
          else []) ips)).
  { eapply Forall_impl; [exact IH|].
    intros peer (ip0 & Hin & Hpeer & Hhost). exists ip0.
    split; [now right | auto]. }
  assert (Hhost : forall mask,
            mask = "32" \/ mask = "128" ->
            is_Some (ACLReconciler.singleHost
                       (ACLReconciler.ipBlockPeer
                          (ACLDNSEntryStatusIP.Address ip +:+ String "/" mask)))).
  { intros mask Hmask. unfold ACLReconciler.singleHost. simpl.
    destruct Hmask as [-> | ->].
    - change (String "/" "32") with "/32". rewrite HasSuffix_app. simpl. eauto.
    - change (String "/" "128") with "/128".
      rewrite (HasSuffix_app _ "/128"), orb_true_r. eauto. }
  destruct (GoString.ContainsByte (ACLDNSEntryStatusIP.Address ip) ":").
  { constructor; [|exact Hrest]. exists ip.
    split; [left|]. split; [now left|]. apply (Hhost "128"). auto. }
  destruct (GoString.ContainsByte (ACLDNSEntryStatusIP.Address ip) ".");
    [|exact Hrest].
  constructor; [|exact Hrest]. exists ip.
  split; [left|]. split; [now right|]. apply (Hhost "32"). auto.
Qed.

(** X7. A hostname destination that is not a wildcard fails exactly when its
    entry cannot be had.  An entry that is not ready gives no rule and no
    error.  A ready entry gives one rule with the destination's ports,
    whose peers are IP blocks of the entry's addresses with the mask of
    a single host, each of which enrichment looks up. *)
Theorem egressRulesForExternalDNS_rules
    E (name : string) (ports : list ProtoPort.t) w w' entry err :
  isWildCard name = false ->
  ACLReconciler.ensureDNSEntry E name w = (w', (entry, err)) ->
  ACLReconciler.egressRulesForExternalDNS E
    (ACLSpecExternalDNS.Make name ports) w
  = (w',
     (match err with
      | Some _ => []
      | None =>
          if ACLDNSEntryStatus.Ready (ACLDNSEntry.Status entry)
          then [NetworkPolicyEgressRule.Make
                  (ACLReconciler.ports E ports)
                  (Some (ACLReconciler.dnsPeers
                           (Slice.elems
                              (ACLDNSEntryStatus.IPs
                                 (ACLDNSEntry.Status entry)))))]
          else []
      end, err))
  /\ Forall
       (fun peer =>
          exists ip,
            ip ∈ Slice.elems (ACLDNSEntryStatus.IPs (ACLDNSEntry.Status entry))
            /\ (peer = ACLReconciler.ipBlockPeer
                         (ACLDNSEntryStatusIP.Address ip +:+ "/128")
                \/ peer = ACLReconciler.ipBlockPeer
                            (ACLDNSEntryStatusIP.Address ip +:+ "/32"))
            /\ is_Some (ACLReconciler.singleHost peer))
       (ACLReconciler.dnsPeers
          (Slice.elems (ACLDNSEntryStatus.IPs (ACLDNSEntry.Status entry)))).
Proof.
  intros Hwild Hensure. split; [|apply dnsPeers_single_hosts].
  unfold ACLReconciler.egressRulesForExternalDNS, bind. simpl.
  rewrite Hwild, Hensure. destruct err as [e|]; [reflexivity|].
  destruct (ACLDNSEntryStatus.Ready (ACLDNSEntry.Status entry)); reflexivity.
Qed.

(** ** Destinations together *)

Lemma egressRulesForDestination_offline E destination w :
  offline destination = true ->
  exists rules,
    ACLReconciler.egressRulesForDestination E destination w
    = (w, (rules, None)).
Proof.
  unfold offline, ACLReconciler.egressRulesForDestination.
  intros [Happ Hrest]%andb_prop. rewrite Happ. cbn [negb].
  destruct (String.eqb (ACLSpecDestination.TsuruAppPool destination) "");
    cbn [negb]; [|eexists; reflexivity].
  simpl in Hrest.
  destruct (ACLSpecDestination.ExternalDNS destination) as [externalDNS|].
  { unfold ACLReconciler.egressRulesForExternalDNS. rewrite Hrest.
    eexists; reflexivity. }
  destruct (ACLSpecDestination.ExternalIP destination) as [externalIP|].
  { destruct (egressRulesForExternalIP_run E externalIP)
      as (cidr & ->).
    eexists; reflexivity. }
  destruct (ACLSpecDestination.RpaasInstance destination);
    [discriminate | eexists; reflexivity].
Qed.

(** X8. Destinations that are pools, wildcard hostnames, literal addresses
    or empty are resolved without a single call, cannot fail, and leave
    the rules gathered before them in front. *)
Theorem destinationsLoop_of_offline_destinations
    E (destinations : list ACLSpecDestination.t) :
  forallb offline destinations = true ->
  forall rules w,
  exists added,
    ACLReconciler.destinationsLoop E destinations rules w
    = (w, (rules ++ added, None)).
Proof.
  induction destinations as [|d rest IH]; intros Hall rules w.
  - exists []. now rewrite app_nil_r.
  - simpl in Hall. apply andb_prop in Hall as [Hd Hrest].
    destruct (egressRulesForDestination_offline E d w Hd) as [egress Hrun].
    destruct (IH Hrest (rules ++ egress) w) as [added Hloop].
    exists (egress ++ added). simpl. unfold bind.
    rewrite Hrun, Hloop, app_assoc. reflexivity.
Qed.

Lemma destinationsLoop_of_offline_destinations_witness :
  exists added,
    ACLReconciler.destinationsLoop Scenario.externals
      [Scenario.toIP "10.0.0.5"; Scenario.toDNS ".example.com";
       ACLSpecDestination.Make "" "pool-a" None None None;
       ACLSpecDestination.Make "" "" None None None]
      [] (Scenario.world [])
    = (Scenario.world [], ([] ++ added, None))
    /\ List.length added = 2%nat.
Proof.
  destruct (destinationsLoop_of_offline_destinations Scenario.externals
              [Scenario.toIP "10.0.0.5"; Scenario.toDNS ".example.com";
               ACLSpecDestination.Make "" "pool-a" None None None;
               ACLSpecDestination.Make "" "" None None None]
              eq_refl [] (Scenario.world [])) as [added Hrun].
  exists added. split; [exact Hrun|].
  assert (Hrules :
    fst (snd (ACLReconciler.destinationsLoop Scenario.externals
      [Scenario.toIP "10.0.0.5"; Scenario.toDNS ".example.com";
       ACLSpecDestination.Make "" "pool-a" None None None;
       ACLSpecDestination.Make "" "" None None None]
      [] (Scenario.world []))) = added) by (now rewrite Hrun).
  rewrite <- Hrules. vm_compute. reflexivity.
Defined.

(** X9. When the loop reports a failing destination, that destination is in
    the list, every destination before it resolved, the rules returned
    are those gathered before it, and its own rule computation gave the
    error reported. *)
Theorem destinationsLoop_reports_first_failure
    E (destinations : list ACLSpecDestination.t) :
  forall rules w w' gathered destination e,
    ACLReconciler.destinationsLoop E destinations rules w
    = (w', (gathered, Some (destination, e))) ->
    exists pre post w1 egress,
      destinations = pre ++ destination :: post
      /\ ACLReconciler.destinationsLoop E pre rules w = (w1, (gathered, None))
      /\ ACLReconciler.egressRulesForDestination E destination w1
         = (w', (egress, Some e)).
Proof.
  induction destinations as [|d rest IH];
    intros rules w w' gathered destination e Hrun.
  - apply ret_inv in Hrun as [_ [=]].
  - simpl in Hrun. unbind Hrun. destruct a as [egress [e0|]].
    + apply ret_inv in Hrun as [-> [= -> -> ->]].
      exists [], rest, w, egress. repeat split; auto.
    + destruct (IH _ _ _ _ _ _ Hrun)
        as (pre & post & w1 & egress' & -> & Hpre & Hfail).
      exists (d :: pre), post, w1, egress'. repeat split; auto.
      simpl. unfold bind. rewrite Hm. exact Hpre.
Qed.

Lemma destinationsLoop_reports_first_failure_witness :
  exists pre post w1 egress,
    [Scenario.toIP "10.0.0.5"; Scenario.toApp "ghost"; Scenario.toApp "db"]
    = pre ++ Scenario.toApp "ghost" :: post
    /\ ACLReconciler.destinationsLoop Scenario.externals pre []
         (Scenario.world []) = (w1, (Scenario.literalRules, None))
    /\ ACLReconciler.egressRulesForDestination Scenario.externals
         (Scenario.toApp "ghost") w1
       = (fst (ACLReconciler.destinationsLoop Scenario.externals
                 [Scenario.toIP "10.0.0.5"; Scenario.toApp "ghost";
                  Scenario.toApp "db"] [] (Scenario.world [])),
          (egress, Some (Error false "app not found"))).
Proof.
  apply (destinationsLoop_reports_first_failure Scenario.externals
           [Scenario.toIP "10.0.0.5"; Scenario.toApp "ghost";
            Scenario.toApp "db"] [] (Scenario.world [])).
  vm_compute. reflexivity.
Defined.

(** ** Pod selectors *)

Lemma labelOf_app (key a : string) :
  labelOf key (ACLReconciler.podSelectorForTsuruApp a)
  = if decide (key = "tsuru.io/app-name") then Some a else None.
Proof.
  unfold labelOf, ACLReconciler.podSelectorForTsuruApp.
  cbn [mbind option_bind]. rewrite lookup_singleton.
  destruct (decide ("tsuru.io/app-name" = key)), (decide (key = "tsuru.io/app-name"));
    congruence.
Qed.

Lemma labelOf_rpaas (key : string) (r : ACLSpecRpaasInstance.t) :
  labelOf key (ACLReconciler.podSelectorForRpasInstance r)
  = if decide (key = "rpaas.extensions.tsuru.io/instance-name")
    then Some (ACLSpecRpaasInstance.Instance r)
    else if decide (key = "rpaas.extensions.tsuru.io/service-name")
    then Some (ACLSpecRpaasInstance.ServiceName r)
    else None.
Proof.
  unfold labelOf, ACLReconciler.podSelectorForRpasInstance.
  cbn [mbind option_bind]. rewrite lookup_insert, lookup_singleton.
  repeat case_decide; congruence.
Qed.

(** X10. A source gives no selector exactly when it names neither an
    application nor an instance, and an application name wins over an
    instance.  The selectors of two applications are equal only if the
    names are, those of two instances only if service and instance are,
    and the selector of an application is never that of an instance. *)
Theorem podSelectors_tell_sources_apart :
  (forall source,
     ACLReconciler.podSelectorForSource source = None
     <-> ACLSpecSource.TsuruApp source = ""
         /\ ACLSpecSource.RpaasInstance source = None)
  /\ (forall app rpaasInstance,
        app <> "" ->
        ACLReconciler.podSelectorForSource
          (ACLSpecSource.Make app rpaasInstance)
        = ACLReconciler.podSelectorForTsuruApp app)
  /\ (forall a b,
        ACLReconciler.podSelectorForTsuruApp a
        = ACLReconciler.podSelectorForTsuruApp b -> a = b)
  /\ (forall r s,
        ACLReconciler.podSelectorForRpasInstance r
        = ACLReconciler.podSelectorForRpasInstance s -> r = s)
  /\ (forall a r,
        ACLReconciler.podSelectorForTsuruApp a
        <> ACLReconciler.podSelectorForRpasInstance r).
Proof.
  split; [|split; [|split; [|split]]].
  - intros [app rpaas]. unfold ACLReconciler.podSelectorForSource. simpl.
    destruct (String.eqb_spec app "") as [->|Hne]; simpl.
    + destruct rpaas as [r|].
      * split; [discriminate | intros [_ Hr]; discriminate Hr].
      * split; auto.
    + split; [discriminate | intros [Happ _]; contradiction].
  - intros app rpaas Hne. unfold ACLReconciler.podSelectorForSource. simpl.
    destruct (String.eqb_spec app "") as [->|_]; [contradiction|reflexivity].
  - intros a b Heq.
    pose proof (labelOf_app "tsuru.io/app-name" a) as Ha.
    rewrite Heq, labelOf_app in Ha. rewrite !decide_True in Ha by reflexivity.
    congruence.
  - intros [s1 i1] [s2 i2] Heq.
    pose proof (labelOf_rpaas "rpaas.extensions.tsuru.io/instance-name"
                  (ACLSpecRpaasInstance.Make s1 i1)) as Hi.
    pose proof (labelOf_rpaas "rpaas.extensions.tsuru.io/service-name"
                  (ACLSpecRpaasInstance.Make s1 i1)) as Hs.
    rewrite Heq, labelOf_rpaas in Hi, Hs. simpl in Hi, Hs.
    repeat case_decide; congruence.
  - intros a r Heq.
    pose proof (labelOf_app "tsuru.io/app-name" a) as Ha.
    rewrite decide_True in Ha by reflexivity.
    rewrite Heq, labelOf_rpaas in Ha.
    rewrite !decide_False in Ha by discriminate. discriminate.
Qed.

(** ** Getting or creating an address record *)

(** X11. A record that is there is handed back as it is: the one call is the
    read, nothing is written and nothing is resolved again. *)
Theorem ensure_returns_the_record_that_exists E w w1 :
  (forall appName record,
     clientGet (X:=TsuruAppAddress.t) ("", validResourceName appName) w
     = (w1, (record, None)) ->
     ACLReconciler.ensureTsuruAppAddress E appName w = (w1, (record, None))
     /\ objects w1 = objects w
     /\ issuedSince w w1
        = [CallGet KindTsuruAppAddress ("", validResourceName appName)])
  /\ (forall host entry,
        clientGet (X:=ACLDNSEntry.t) ("", validResourceName host) w
        = (w1, (entry, None)) ->
        ACLReconciler.ensureDNSEntry E host w = (w1, (entry, None))
        /\ objects w1 = objects w
        /\ issuedSince w w1
           = [CallGet KindACLDNSEntry ("", validResourceName host)])
  /\ (forall rpaasInstance record,
        let name :=
          validResourceName
            (ACLSpecRpaasInstance.ServiceName rpaasInstance
             +:+ "-" +:+ ACLSpecRpaasInstance.Instance rpaasInstance) in
        clientGet (X:=RpaasInstanceAddress.t) ("", name) w
        = (w1, (record, None)) ->
        ACLReconciler.ensureRpaasInstanceAddress E rpaasInstance w
        = (w1, (record, None))
        /\ objects w1 = objects w
        /\ issuedSince w w1 = [CallGet KindRpaasInstanceAddress ("", name)]).
Proof.
  split; [|split].
  - intros appName record Hget.
    split; [unfold ACLReconciler.ensureTsuruAppAddress, bind;
            now rewrite Hget|].
    apply clientGet_inv in Hget as (Ho & Hc & _).
    split; [exact Ho|]. now apply issuedSince_app.
  - intros host entry Hget.
    split; [unfold ACLReconciler.ensureDNSEntry, bind; now rewrite Hget|].
    apply clientGet_inv in Hget as (Ho & Hc & _).
    split; [exact Ho|]. now apply issuedSince_app.
  - intros rpaasInstance record name Hget.
    split; [unfold ACLReconciler.ensureRpaasInstanceAddress, bind;
            fold name; now rewrite Hget|].
    apply clientGet_inv in Hget as (Ho & Hc & _).
    split; [exact Ho|]. now apply issuedSince_app.
Qed.

(** The calls of a run that started by reading [w] and creating in [w1]. *)
Lemma issued_after_create (w w1 w2 w' : World) (get create : Call)
    (delta : list Call) :
  calls w1 = get :: calls w ->
  calls w2 = create :: calls w1 ->
  calls w' = delta ++ calls w2 ->
  rev (issuedSince w w') = get :: create :: rev delta.
Proof.
  intros H1 H2 H3.
  rewrite (issuedSince_app w w' (delta ++ [create; get])).
  - rewrite rev_app_distr. reflexivity.
  - rewrite H3, H2, H1, <- app_assoc. reflexivity.
Qed.

Lemma frame_delta P K w w' :
  frame P K w w' -> exists delta, calls w' = delta ++ calls w.
Proof. intros [(delta & Hc & _) _]. eauto. Qed.

(** X12. A record that is not there is created before anything else, under
    the name the identity namer gives the key.  The hostname entry and
    the instance record hold the key as it was given, the application
    record holds the derived name.  A refused create ends the call with
    its error. *)
Theorem ensure_creates_the_missing_record E w w1 :
  (forall appName record err,
     let name := validResourceName appName in
     let created :=
       TsuruAppAddress.Make (ObjectMeta.named name) name
                            ResourceAddressStatus.zero in
     clientGet (X:=TsuruAppAddress.t) ("", name) w = (w1, (record, err)) ->
     IsNotFound err = true ->
     (exists later,
        rev (issuedSince w
               (fst (ACLReconciler.ensureTsuruAppAddress E appName w)))
        = CallGet KindTsuruAppAddress ("", name)
          :: CallCreate (ObjTsuruAppAddress created) :: later)
     /\ (forall w2 e,
           clientCreate (Now E) created w1 = (w2, Some e) ->
           ACLReconciler.ensureTsuruAppAddress E appName w
           = (w2, (TsuruAppAddress.zero, Some e))))
  /\ (forall host entry err,
        let name := validResourceName host in
        let created :=
          ACLDNSEntry.Make (ObjectMeta.named name) host
                           ACLDNSEntryStatus.zero in
        clientGet (X:=ACLDNSEntry.t) ("", name) w = (w1, (entry, err)) ->
        IsNotFound err = true ->
        (exists later,
           rev (issuedSince w (fst (ACLReconciler.ensureDNSEntry E host w)))
           = CallGet KindACLDNSEntry ("", name)
             :: CallCreate (ObjACLDNSEntry created) :: later)
        /\ (forall w2 e,
              clientCreate (Now E) created w1 = (w2, Some e) ->
              ACLReconciler.ensureDNSEntry E host w
              = (w2, (ACLDNSEntry.zero, Some e))))
  /\ (forall rpaasInstance record err,
        let name :=
          validResourceName
            (ACLSpecRpaasInstance.ServiceName rpaasInstance
             +:+ "-" +:+ ACLSpecRpaasInstance.Instance rpaasInstance) in
        let created :=
          RpaasInstanceAddress.Make (ObjectMeta.named name)
            (ACLSpecRpaasInstance.ServiceName rpaasInstance)
            (ACLSpecRpaasInstance.Instance rpaasInstance)
            ResourceAddressStatus.zero in
        clientGet (X:=RpaasInstanceAddress.t) ("", name) w
        = (w1, (record, err)) ->
        IsNotFound err = true ->
        (exists later,
           rev (issuedSince w
                  (fst (ACLReconciler.ensureRpaasInstanceAddress E
                          rpaasInstance w)))
           = CallGet KindRpaasInstanceAddress ("", name)
             :: CallCreate (ObjRpaasInstanceAddress created) :: later)
        /\ (forall w2 e,
              clientCreate (Now E) created w1 = (w2, Some e) ->
              ACLReconciler.ensureRpaasInstanceAddress E rpaasInstance w
              = (w2, (RpaasInstanceAddress.zero, Some e)))).
Proof.
  split; [|split].
  - intros appName record err name created Hget Hmissing. split.
    + unfold ACLReconciler.ensureTsuruAppAddress, bind. fold name.
      rewrite Hget, Hmissing. fold created.
      apply clientGet_inv in Hget as (_ & Hc1 & _).
      destruct (clientCreate (Now E) created w1) as [w2 ec] eqn:Hcreate.
      pose proof Hcreate as (Hc2 & _)%clientCreate_inv.
      destruct ec as [e|].
      { exists []. now apply (issued_after_create w w1 w2 w2 _ _ []). }
      destruct (TsuruAppAddressReconciler.Reconcile E _ w2)
        as [w3 [res e3]] eqn:Hsub.
      destruct (frame_delta _ _ _ _ (TsuruAppAddress_Reconcile_frame _ _ _ _ _ Hsub))
        as [d3 Hc3].
      destruct e3 as [e|].
      { exists (rev d3). now apply (issued_after_create w w1 w2 w3 _ _ d3). }
      destruct (clientGet (X:=TsuruAppAddress.t) ("", name) w3)
        as [w4 [r4 e4]] eqn:Hget4.
      apply clientGet_inv in Hget4 as (_ & Hc4 & _).
      exists (rev (CallGet KindTsuruAppAddress ("", name) :: d3)).
      apply (issued_after_create w w1 w2 w4 _ _ (_ :: d3)); auto.
      simpl. now rewrite Hc4, Hc3.
    + intros w2 e Hcreate.
      unfold ACLReconciler.ensureTsuruAppAddress, bind. fold name.
      rewrite Hget, Hmissing. fold created. now rewrite Hcreate.
  - intros host entry err name created Hget Hmissing. split.
    + unfold ACLReconciler.ensureDNSEntry, bind. fold name.
      rewrite Hget, Hmissing. fold created.
      apply clientGet_inv in Hget as (_ & Hc1 & _).
      destruct (clientCreate (Now E) created w1) as [w2 ec] eqn:Hcreate.
      pose proof Hcreate as (Hc2 & _)%clientCreate_inv.
      destruct ec as [e|].
      { exists []. now apply (issued_after_create w w1 w2 w2 _ _ []). }
      destruct (ACLDNSEntryReconciler.Reconcile E _ w2)
        as [w3 [res e3]] eqn:Hsub.
      destruct (frame_delta _ _ _ _ (ACLDNSEntry_Reconcile_frame _ _ _ _ _ Hsub))
        as [d3 Hc3].
      destruct e3 as [e|].
      { exists (rev d3). now apply (issued_after_create w w1 w2 w3 _ _ d3). }
      destruct (clientGet (X:=ACLDNSEntry.t) ("", name) w3)
        as [w4 [r4 e4]] eqn:Hget4.
      apply clientGet_inv in Hget4 as (_ & Hc4 & _).
      exists (rev (CallGet KindACLDNSEntry ("", name) :: d3)).
      apply (issued_after_create w w1 w2 w4 _ _ (_ :: d3)); auto.
      simpl. now rewrite Hc4, Hc3.
    + intros w2 e Hcreate.
      unfold ACLReconciler.ensureDNSEntry, bind. fold name.
      rewrite Hget, Hmissing. fold created. now rewrite Hcreate.
  - intros rpaasInstance record err name created Hget Hmissing. split.
    + unfold ACLReconciler.ensureRpaasInstanceAddress, bind. fold name.
      rewrite Hget, Hmissing. fold created.
      apply clientGet_inv in Hget as (_ & Hc1 & _).
      destruct (clientCreate (Now E) created w1) as [w2 ec] eqn:Hcreate.
      pose proof Hcreate as (Hc2 & _)%clientCreate_inv.
      destruct ec as [e|].
      { exists []. now apply (issued_after_create w w1 w2 w2 _ _ []). }
      destruct (RpaasInstanceAddressReconciler.Reconcile E _ w2)
        as [w3 [res e3]] eqn:Hsub.
      destruct (frame_delta _ _ _ _
                  (RpaasInstanceAddress_Reconcile_frame _ _ _ _ _ Hsub))
        as [d3 Hc3].
      destruct e3 as [e|].
      { exists (rev d3). now apply (issued_after_create w w1 w2 w3 _ _ d3). }
      destruct (clientGet (X:=RpaasInstanceAddress.t) ("", name) w3)
        as [w4 [r4 e4]] eqn:Hget4.
      apply clientGet_inv in Hget4 as (_ & Hc4 & _).
      exists (rev (CallGet KindRpaasInstanceAddress ("", name) :: d3)).
      apply (issued_after_create w w1 w2 w4 _ _ (_ :: d3)); auto.
      simpl. now rewrite Hc4, Hc3.
    + intros w2 e Hcreate.
      unfold ACLReconciler.ensureRpaasInstanceAddress, bind. fold name.
      rewrite Hget, Hmissing. fold created. now rewrite Hcreate.
Qed.

Lemma egressRulesForTsuruApp_rules_witness :
  let w := Scenario.world [ObjTsuruAppAddress Scenario.dbResolved] in
  ACLReconciler.egressRulesForTsuruApp Scenario.externals "db" w
  = (fst (ACLReconciler.ensureTsuruAppAddress Scenario.externals "db" w),
     ([NetworkPolicyEgressRule.Make None
         (Some [ACLReconciler.podSelectorPeer
                  (Some {[ "tsuru.io/app-name" := "db" ]})]);
       NetworkPolicyEgressRule.Make (Some [])
         (Some [ACLReconciler.ipBlockPeer "10.0.0.8/32"]);
       NetworkPolicyEgressRule.Make (Some [])
         (Some [ACLReconciler.ipBlockPeer "10.0.0.9/32"])], None)).
Proof.
  cbv zeta.
  assert (Hensure :
    ACLReconciler.ensureTsuruAppAddress Scenario.externals "db"
      (Scenario.world [ObjTsuruAppAddress Scenario.dbResolved])
    = (fst (ACLReconciler.ensureTsuruAppAddress Scenario.externals "db"
              (Scenario.world [ObjTsuruAppAddress Scenario.dbResolved])),
       (Scenario.dbResolved, None)))
    by (vm_compute; reflexivity).
  exact (egressRulesForTsuruApp_rules Scenario.externals "db" _ _
           Scenario.dbResolved None Hensure).
Defined.

Lemma egressRulesForRpaasInstance_rules_witness :
  let gateway :=
    RpaasInstanceAddress.Make (ObjectMeta.named "rpaasv2-gateway")
      "rpaasv2" "gateway"
      (ResourceAddressStatus.Make true (Some ["10.1.0.1"]) "") in
  let w := Scenario.world [ObjRpaasInstanceAddress gateway] in
  ACLReconciler.egressRulesForRpaasInstance Scenario.externals
    (ACLSpecRpaasInstance.Make "rpaasv2" "gateway") w
  = (fst (ACLReconciler.ensureRpaasInstanceAddress Scenario.externals
            (ACLSpecRpaasInstance.Make "rpaasv2" "gateway") w),
     ([NetworkPolicyEgressRule.Make None
         (Some [ACLReconciler.podSelectorPeer
                  (ACLReconciler.podSelectorForRpasInstance
                     (ACLSpecRpaasInstance.Make "rpaasv2" "gateway"))]);
       NetworkPolicyEgressRule.Make (Some [])
         (Some [ACLReconciler.ipBlockPeer "10.1.0.1/32"])], None)).
Proof.
  cbv zeta.
  set (gateway :=
    RpaasInstanceAddress.Make (ObjectMeta.named "rpaasv2-gateway")
      "rpaasv2" "gateway"
      (ResourceAddressStatus.Make true (Some ["10.1.0.1"]) "")).
  assert (Hensure :
    ACLReconciler.ensureRpaasInstanceAddress Scenario.externals
      (ACLSpecRpaasInstance.Make "rpaasv2" "gateway")
      (Scenario.world [ObjRpaasInstanceAddress gateway])
    = (fst (ACLReconciler.ensureRpaasInstanceAddress Scenario.externals
              (ACLSpecRpaasInstance.Make "rpaasv2" "gateway")
              (Scenario.world [ObjRpaasInstanceAddress gateway])),
       (gateway, None)))
    by (vm_compute; reflexivity).
  exact (egressRulesForRpaasInstance_rules Scenario.externals
           (ACLSpecRpaasInstance.Make "rpaasv2" "gateway") _ _
           gateway None Hensure).
Defined.

Lemma egressRulesForExternalDNS_rules_witness :
  let entry :=
    ACLDNSEntry.Make (ObjectMeta.named "db.example.com") "db.example.com"
      (ACLDNSEntryStatus.Make true
         (Some [ACLDNSEntryStatusIP.Make "10.0.0.9";
                ACLDNSEntryStatusIP.Make "fd00::9"])) in
  let w := Scenario.world [ObjACLDNSEntry entry] in
  ACLReconciler.egressRulesForExternalDNS Scenario.externals
    (ACLSpecExternalDNS.Make "db.example.com" []) w
  = (fst (ACLReconciler.ensureDNSEntry Scenario.externals
            "db.example.com" w),
     ([NetworkPolicyEgressRule.Make (Some [])
         (Some [ACLReconciler.ipBlockPeer "10.0.0.9/32";
                ACLReconciler.ipBlockPeer "fd00::9/128"])], None)).
Proof.
  cbv zeta.
  set (entry :=
    ACLDNSEntry.Make (ObjectMeta.named "db.example.com") "db.example.com"
      (ACLDNSEntryStatus.Make true
         (Some [ACLDNSEntryStatusIP.Make "10.0.0.9";
                ACLDNSEntryStatusIP.Make "fd00::9"]))).
  assert (Hensure :
    ACLReconciler.ensureDNSEntry Scenario.externals "db.example.com"
      (Scenario.world [ObjACLDNSEntry entry])
    = (fst (ACLReconciler.ensureDNSEntry Scenario.externals "db.example.com"
              (Scenario.world [ObjACLDNSEntry entry])),
       (entry, None)))
    by (vm_compute; reflexivity).
  exact (proj1 (egressRulesForExternalDNS_rules Scenario.externals
                  "db.example.com" [] _ _ entry None eq_refl Hensure)).
Defined.

Lemma podSelectors_tell_sources_apart_witness :
  ACLReconciler.podSelectorForSource
    (ACLSpecSource.Make "web"
       (Some (ACLSpecRpaasInstance.Make "rpaasv2" "gateway")))
  = ACLReconciler.podSelectorForTsuruApp "web"
  /\ ACLReconciler.podSelectorForTsuruApp "web"
     <> ACLReconciler.podSelectorForRpasInstance
          (ACLSpecRpaasInstance.Make "rpaasv2" "gateway").
Proof.
  destruct podSelectors_tell_sources_apart as (_ & Hwins & _ & _ & Hapart).
  split; [apply Hwins; discriminate | apply Hapart].
Defined.

Lemma ensure_returns_the_record_that_exists_witness :
  let w := Scenario.world [ObjTsuruAppAddress Scenario.dbResolved] in
  ACLReconciler.ensureTsuruAppAddress Scenario.externals "db" w
  = (fst (clientGet (X:=TsuruAppAddress.t) ("", "db") w),
     (Scenario.dbResolved, None))
  /\ objects (fst (clientGet (X:=TsuruAppAddress.t) ("", "db") w))
     = objects w
  /\ issuedSince w (fst (clientGet (X:=TsuruAppAddress.t) ("", "db") w))
     = [CallGet KindTsuruAppAddress ("", "db")].
Proof.
  cbv zeta.
  assert (Hget :
    clientGet (X:=TsuruAppAddress.t) ("", validResourceName "db")
      (Scenario.world [ObjTsuruAppAddress Scenario.dbResolved])
    = (fst (clientGet (X:=TsuruAppAddress.t) ("", "db")
              (Scenario.world [ObjTsuruAppAddress Scenario.dbResolved])),
       (Scenario.dbResolved, None)))
    by (vm_compute; reflexivity).
  assert (Hname : validResourceName "db" = "db") by (vm_compute; reflexivity).
  destruct (proj1 (ensure_returns_the_record_that_exists
                     Scenario.externals _ _) "db" Scenario.dbResolved Hget)
    as (Hrun & Hobjects & Hcalls).
  rewrite Hname in Hcalls. auto.
Defined.

Lemma ensure_creates_the_missing_record_witness :
  let name := validResourceName "My_Host" in
  let created :=
    ACLDNSEntry.Make (ObjectMeta.named name) "My_Host"
                     ACLDNSEntryStatus.zero in
  exists later,
    rev (issuedSince (Scenario.world [])
           (fst (ACLReconciler.ensureDNSEntry Scenario.externals "My_Host"
                   (Scenario.world []))))
    = CallGet KindACLDNSEntry ("", name)
      :: CallCreate (ObjACLDNSEntry created) :: later.
Proof.
  cbv zeta.
  assert (Hget :
    clientGet (X:=ACLDNSEntry.t) ("", validResourceName "My_Host")
      (Scenario.world [])
    = (fst (clientGet (X:=ACLDNSEntry.t) ("", validResourceName "My_Host")
              (Scenario.world [])),
       (ACLDNSEntry.zero,
        Some (Error true "not found"))))
    by (vm_compute; reflexivity).
  exact (proj1 (proj1 (proj2 (ensure_creates_the_missing_record
                                Scenario.externals _ _))
                  "My_Host" _ _ Hget eq_refl)).
Defined.

(** ** More on the platform-application resolver *)

(** X13. A run stops at the first thing it cannot have.  A record that is not
    there ends it without an error, a failed read ends it with the read's
    error, and a failed report of the platform ends it with the
    platform's error; in each case nothing is looked up and the store is
    left alone. *)
Theorem TsuruAppAdress_Reconcile_stops_early E (req : Request) w w1 record :
  (forall e,
     clientGet (X:=TsuruAppAddress.t) req w = (w1, (record, Some e)) ->
     TsuruAppAdressReconciler.Reconcile E req w
     = (w1, (Result.zero, if NotFound e then None else Some e))
     /\ objects w1 = objects w
     /\ issuedSince w w1 = [CallGet KindTsuruAppAddress req])
  /\ (forall appInfo e,
        clientGet (X:=TsuruAppAddress.t) req w = (w1, (record, None)) ->
        TsuruAPI_AppInfo E (TsuruAppAddress.SpecName record)
        = (appInfo, Some e) ->
        let w' := logged (CallAppInfo (TsuruAppAddress.SpecName record)) w1 in
        TsuruAppAdressReconciler.Reconcile E req w
        = (w', (Result.zero, Some e))
        /\ objects w' = objects w
        /\ issuedSince w w'
           = [CallAppInfo (TsuruAppAddress.SpecName record);
              CallGet KindTsuruAppAddress req]).
Proof.
  split.
  - intros e Hget.
    split.
    { unfold TsuruAppAdressReconciler.Reconcile, bind. rewrite Hget.
      simpl. destruct (NotFound e); reflexivity. }
    apply clientGet_inv in Hget as (Ho & Hc & _).
    split; [exact Ho|]. now apply issuedSince_app.
  - intros appInfo e Hget Hinfo w'.
    split.
    { unfold TsuruAppAdressReconciler.Reconcile, bind. rewrite Hget.
      simpl. unfold external. rewrite Hinfo. reflexivity. }
    apply clientGet_inv in Hget as (Ho & Hc & _).
    split; [exact Ho|].
    apply (issuedSince_app w w' [_; _]). simpl. now rewrite Hc.
Qed.

Lemma TsuruAppAdress_Reconcile_stops_early_witness :
  TsuruAppAdressReconciler.Reconcile Scenario.externals ("", "ghost")
    (Scenario.world
       [ObjTsuruAppAddress
          (TsuruAppAddress.Make (ObjectMeta.named "ghost") "ghost"
                                ResourceAddressStatus.zero)])
  = (logged (CallAppInfo "ghost")
       (logged (CallGet KindTsuruAppAddress ("", "ghost"))
          (Scenario.world
             [ObjTsuruAppAddress
                (TsuruAppAddress.Make (ObjectMeta.named "ghost") "ghost"
                                      ResourceAddressStatus.zero)])),
     (Result.zero, Some (Error false "app not found"))).
Proof.
  apply (proj2 (TsuruAppAdress_Reconcile_stops_early Scenario.externals
                  ("", "ghost") _ _
                  (TsuruAppAddress.Make (ObjectMeta.named "ghost") "ghost"
                                        ResourceAddressStatus.zero))
           AppInfo.zero (Error false "app not found")).
  - vm_compute. reflexivity.
  - reflexivity.
Defined.

(** Two sorted lists without duplicates that hold the same strings are
    the same list. *)
Lemma sorted_strings_unique (l k : list string) :
  StronglySorted String.le l -> StronglySorted String.le k ->
  NoDup l -> NoDup k ->
  (forall x, x ∈ l <-> x ∈ k) ->
  l = k.
Proof.
  intros Hl Hk Hnl Hnk Hmem.
  apply (StronglySorted_unique String.le); auto.
  now apply NoDup_Permutation.
Qed.

(** X14. A run that went through leaves nothing for the next one to do: run
    again on the world it left, with the platform and the resolver
    answering as before, the resolver writes nothing. *)
Theorem TsuruAppAdress_Reconcile_settles
    E (req : Request) w w1 record appInfo w' result :
  clientGet (X:=TsuruAppAddress.t) req w = (w1, (record, None)) ->
  ObjectMeta.key (TsuruAppAddress.Meta record) = req ->
  TsuruAPI_AppInfo E (TsuruAppAddress.SpecName record) = (appInfo, None) ->
  TsuruAppAdressReconciler.Reconcile E req w = (w', (result, None)) ->
  forall w1' record',
    clientGet (X:=TsuruAppAddress.t) req w' = (w1', (record', None)) ->
    exists w'',
      TsuruAppAdressReconciler.Reconcile E req w' = (w'', (Result.zero, None))
      /\ objects w'' = objects w'
      /\ filter (fun c => isWrite c = true) (issuedSince w' w'') = [].
Proof.
  intros Hget Hkey Hinfo Hrun w1' record' Hget'.
  destruct (TsuruAppAdress_Reconcile_outcome E req w w1 record appInfo
              Hget Hkey Hinfo)
    as (ips & w'0 & err & Hrun0 & Hsorted & Hnodup & Hmem & Hcase).
  rewrite Hrun in Hrun0. injection Hrun0 as <- _ <-.
  assert (Hstored :
    exists stored,
      addressRecord w' req = Some stored
      /\ TsuruAppAddress.Meta stored = TsuruAppAddress.Meta record
      /\ TsuruAppAddress.SpecName stored = TsuruAppAddress.SpecName record
      /\ ResourceAddressStatus.Ready (TsuruAppAddress.Status stored) = true
      /\ ResourceAddressStatus.IPs (TsuruAppAddress.Status stored)
         = Some ips).
  { cbv zeta in Hcase.
    destruct (negb _ || negb _) eqn:Hcond.
    - destruct Hcase as (_ & Hok & _). eexists. split; [exact (Hok eq_refl)|].
      simpl. auto.
    - destruct Hcase as (_ & Ho & _).
      apply orb_false_elim in Hcond as [Hready Hsame].
      apply negb_false_iff in Hready, Hsame.
      apply bool_decide_eq_true in Hsame.
      exists record. unfold addressRecord. rewrite Ho.
      apply clientGet_inv in Hget as (_ & _ & Hfound & _).
      split; [exact (Hfound eq_refl)|]. auto. }
  destruct Hstored as (stored & Hrecord & Hmeta & Hname & Hready & Hips).
  assert (record' = stored) as ->.
  { pose proof Hget' as (_ & _ & Hfound & _)%clientGet_inv.
    specialize (Hfound eq_refl).
    assert (Heq : Some record' = Some stored)
      by (rewrite <- Hfound, <- Hrecord; reflexivity).
    now injection Heq. }
  rewrite <- Hmeta in Hkey. rewrite <- Hname in Hinfo.
  destruct (TsuruAppAdress_Reconcile_outcome E req w' w1' stored appInfo
              Hget' Hkey Hinfo)
    as (ips' & w'' & err' & Hrun' & Hsorted' & Hnodup' & Hmem' & Hcase').
  assert (ips' = ips) as ->.
  { apply sorted_strings_unique; auto.
    intros x. now rewrite Hmem, Hmem'. }
  cbv zeta in Hcase'. rewrite Hready, Hips in Hcase'.
  unfold DeepEqual in Hcase'. rewrite bool_decide_eq_true_2 in Hcase' by reflexivity.
  simpl in Hcase'. destruct Hcase' as (-> & Ho & Hquiet).
  exists w''. auto.
Qed.

Lemma TsuruAppAdress_Reconcile_settles_witness :
  let w := Scenario.world [ObjTsuruAppAddress Scenario.dbAddress] in
  let w' :=
    fst (TsuruAppAdressReconciler.Reconcile Scenario.externals ("", "db") w) in
  addressRecord w' ("", "db") = Some Scenario.dbResolved
  /\ exists w'',
       TsuruAppAdressReconciler.Reconcile Scenario.externals ("", "db") w'
       = (w'', (Result.zero, None))
       /\ objects w'' = objects w'
       /\ filter (fun c => isWrite c = true) (issuedSince w' w'') = [].
Proof.
  cbv zeta. split; [vm_compute; reflexivity|].
  assert (Hget :
    clientGet (X:=TsuruAppAddress.t) ("", "db")
      (Scenario.world [ObjTsuruAppAddress Scenario.dbAddress])
    = (fst (clientGet (X:=TsuruAppAddress.t) ("", "db")
              (Scenario.world [ObjTsuruAppAddress Scenario.dbAddress])),
       (Scenario.dbAddress, None)))
    by (vm_compute; reflexivity).
  assert (Hrun :
    TsuruAppAdressReconciler.Reconcile Scenario.externals ("", "db")
      (Scenario.world [ObjTsuruAppAddress Scenario.dbAddress])
    = (fst (TsuruAppAdressReconciler.Reconcile Scenario.externals ("", "db")
              (Scenario.world [ObjTsuruAppAddress Scenario.dbAddress])),
       (Result.zero, None)))
    by (vm_compute; reflexivity).
  assert (Hget' :
    clientGet (X:=TsuruAppAddress.t) ("", "db")
      (fst (TsuruAppAdressReconciler.Reconcile Scenario.externals ("", "db")
              (Scenario.world [ObjTsuruAppAddress Scenario.dbAddress])))
    = (fst (clientGet (X:=TsuruAppAddress.t) ("", "db")
              (fst (TsuruAppAdressReconciler.Reconcile Scenario.externals
                      ("", "db")
                      (Scenario.world
                         [ObjTsuruAppAddress Scenario.dbAddress])))),
       (Scenario.dbResolved, None)))
    by (vm_compute; reflexivity).
  exact (TsuruAppAdress_Reconcile_settles Scenario.externals ("", "db")
           _ _ Scenario.dbAddress (AppInfo.Make [Scenario.dbRouter]) _ _
           Hget eq_refl eq_refl Hrun _ _ Hget').
Defined.

(** X15. A run of the resolver touches nothing but the status of a record of
    its own kind: objects of other kinds stay as they are, no record
    appears or disappears, and every record keeps its metadata and the
    application name of its spec. *)
Theorem TsuruAppAdress_Reconcile_writes_status_only E (req : Request) w :
  let w' := fst (TsuruAppAdressReconciler.Reconcile E req w) in
  (forall k key,
     k <> KindTsuruAppAddress ->
     objects w' !! (k, key) = objects w !! (k, key))
  /\ (forall key,
        match addressRecord w key, addressRecord w' key with
        | Some old, Some new =>
            TsuruAppAddress.Meta new = TsuruAppAddress.Meta old
            /\ TsuruAppAddress.SpecName new = TsuruAppAddress.SpecName old
        | None, None => True
        | _, _ => False
        end).
Proof.
  intros w'.
  destruct (TsuruAppAdress_Reconcile_store E req w)
    as [Ho | (key0 & old & ips & Hold & Ho)]; fold w' in Ho.
  - split; [intros; now rewrite Ho|].
    intros key.
    assert (addressRecord w' key = addressRecord w key) as ->
      by (unfold addressRecord; now rewrite Ho).
    destruct (addressRecord w key); auto.
  - split.
    { intros k key Hk. rewrite Ho, lookup_insert_ne; congruence. }
    intros key. destruct (decide (key = key0)) as [->|Hne].
    + assert (addressRecord w' key0
              = Some (TsuruAppAddress.setStatus
                        (ResourceAddressStatus.Make true ips (Now E)) old))
        as -> by (unfold addressRecord; now rewrite Ho, lookup_insert_eq).
      rewrite Hold. simpl. auto.
    + assert (addressRecord w' key = addressRecord w key) as ->
        by (unfold addressRecord; rewrite Ho, lookup_insert_ne;
            [reflexivity | congruence]).
      destruct (addressRecord w key); auto.
Qed.

(** ** The pass that writes the policy *)

Lemma policyTypesDiffer_false (types : list PolicyType) :
  ACLReconciler.policyTypesDiffer types = false <-> types = [PolicyTypeEgress].
Proof.
  split; [|intros ->; reflexivity].
  destruct types as [|[] [|? ?]]; try discriminate. reflexivity.
Qed.

Ltac policy_fields :=
  cbn [NetworkPolicy.Meta NetworkPolicy.setMeta NetworkPolicy.Spec
       NetworkPolicy.setSpec ObjectMeta.OwnerReferences ObjectMeta.setName
       ObjectMeta.setNamespace ObjectMeta.setOwnerReferences
       ObjectMeta.CreationTimestamp ObjectMeta.Name ObjectMeta.Namespace
       ObjectMeta.UID NetworkPolicySpec.PolicyTypes
       NetworkPolicySpec.setPolicyTypes NetworkPolicySpec.PodSelector
       NetworkPolicySpec.setPodSelector NetworkPolicySpec.Egress
       NetworkPolicySpec.setEgress LabelSelector.MatchLabels].

(** A pass that reaches its end, in terms of the policy it aims at. *)
Lemma Reconcile_pass
    E req w w1 acl e1 w2 np e2 selector w3 rules w4 rules' :
  clientGet (X:=ACL.t) req w = (w1, (acl, e1)) ->
  unlessNotFound e1 = None ->
  clientGet (X:=NetworkPolicy.t)
    (reqNamespace req, networkPolicyName acl req) w1 = (w2, (np, e2)) ->
  unlessNotFound e2 = None ->
  ACLReconciler.podSelectorForSource (ACLSpec.Source (ACL.Spec acl))
  = Some selector ->
  ACLReconciler.destinationsLoop E (ACLSpec.Destinations (ACL.Spec acl)) [] w2
  = (w3, (rules, None)) ->
  ACLReconciler.fillPodSelectorByCIDR E rules w3 = (w4, (rules', None)) ->
  rules' <> [] ->
  ACLReconciler.Reconcile E req w =
  let policy := desired acl req np selector rules' in
  if bool_decide (ObjectMeta.CreationTimestamp (NetworkPolicy.Meta np) = None)
  then
    (let* err := clientCreate (Now E) policy in
     match err with
     | Some e => ret (Result.zero, Some e)
     | None => ACLReconciler.finish true (readied acl req)
     end) w4
  else if bool_decide (policy = located acl req np)
  then ACLReconciler.finish false acl w4
  else
    (let* err := clientUpdate policy in
     match err with
     | Some e => ret (Result.zero, Some e)
     | None => ACLReconciler.finish true (readied acl req)
     end) w4.
Proof.
  intros Hacl He1 Hnp He2 Hsel Hloop Hfill Hrules.
  unfold ACLReconciler.Reconcile.
  unfold bind at 1. rewrite Hacl. cbn beta iota. rewrite He1. cbv zeta.
  unfold bind at 1. rewrite Hnp. cbn beta iota. rewrite He2.
  clear Hacl Hnp He1 He2.
  unfold desired, located, readied.
  destruct np as [[ns nm uid stamp owners] [[labels] egress types]].
  policy_fields. rewrite Hsel.
  destruct rules' as [|rule rules']; [contradiction|]. clear Hrules.
  destruct owners as [|owner owners]; cbn [length Nat.eqb]; cbn beta iota;
    policy_fields.
  all: destruct (ACLReconciler.policyTypesDiffer types) eqn:Htypes;
    cbn beta iota; policy_fields.
  all: destruct (DeepEqual labels (Some selector)) eqn:Hlabels;
    cbn [negb]; cbn beta iota; policy_fields.
  all: unfold bind at 1; rewrite Hloop; cbn beta iota;
    unfold bind at 1; rewrite Hfill; cbn beta iota;
    cbn [length Nat.eqb]; policy_fields.
  all: destruct (DeepEqual egress (Some (rule :: rules'))) eqn:Hegress;
    cbn [negb]; cbn beta iota; policy_fields.
  all: unfold DeepEqual in *.
  all: try apply policyTypesDiffer_false in Htypes.
  all: try apply bool_decide_eq_true in Hlabels.
  all: try apply bool_decide_eq_true in Hegress.
  all: try apply bool_decide_eq_false in Hlabels.
  all: try apply bool_decide_eq_false in Hegress.
  all: subst.
  all: destruct (bool_decide (stamp = None)); [reflexivity|].
  all: case_bool_decide as Heq; first [reflexivity | exfalso].
  all: try (apply Heq; reflexivity).
  all: injection Heq; intros; subst; try discriminate; try congruence.
Qed.

Lemma filter_loud (delta : list Call) :
  forallb quietCall delta = true ->
  filter (fun c => loud c = true) delta = [].
Proof.
  induction delta as [|c delta IH]; [reflexivity|].
  simpl. intros [Hc Hd]%andb_prop.
  rewrite filter_cons_False; [auto|].
  unfold loud. rewrite Hc. discriminate.
Qed.

(** X16. A pass that reaches its end with something to write, because the
    policy read was never created or is not the policy the ACL asks for,
    writes that policy first, by a create in the first case and by an
    update in the second, and then, if the write was taken, the ready
    status of the ACL with the policy's name.  These are its only writes
    of a policy or an ACL.  When it returns no error the store holds the
    policy and the ready status, and the result is the periodic
    requeue. *)
Theorem Reconcile_writes_the_policy_then_ready
    E req w w1 acl e1 w2 np e2 selector w3 rules w4 rules' :
  clientGet (X:=ACL.t) req w = (w1, (acl, e1)) ->
  unlessNotFound e1 = None ->
  clientGet (X:=NetworkPolicy.t)
    (reqNamespace req, networkPolicyName acl req) w1 = (w2, (np, e2)) ->
  unlessNotFound e2 = None ->
  ACLReconciler.podSelectorForSource (ACLSpec.Source (ACL.Spec acl))
  = Some selector ->
  ACLReconciler.destinationsLoop E (ACLSpec.Destinations (ACL.Spec acl)) [] w2
  = (w3, (rules, None)) ->
  ACLReconciler.fillPodSelectorByCIDR E rules w3 = (w4, (rules', None)) ->
  rules' <> [] ->
  let policy := desired acl req np selector rules' in
  let fresh :=
    bool_decide
      (ObjectMeta.CreationTimestamp (NetworkPolicy.Meta np) = None) in
  fresh = true \/ policy <> located acl req np ->
  let write :=
    if fresh then CallCreate (ObjNetworkPolicy policy)
    else CallUpdate (ObjNetworkPolicy policy) in
  let status := CallStatusUpdate (ObjACL (readied acl req)) in
  exists w' result err,
    ACLReconciler.Reconcile E req w = (w', (result, err))
    /\ (filter (fun c => loud c = true) (issuedSince w w') = [write]
        \/ filter (fun c => loud c = true) (issuedSince w w')
           = [status; write])
    /\ (err = None ->
        result = Result.Make true requeueAfter
        /\ filter (fun c => loud c = true) (issuedSince w w')
           = [status; write]
        /\ storedPolicy w' (ObjectMeta.key (NetworkPolicy.Meta policy))
           = Some (if fresh
                   then NetworkPolicy.setMeta
                          (ObjectMeta.setCreationTimestamp (Some (Now E))
                             (NetworkPolicy.Meta policy))
                          policy
                   else policy)
        /\ exists old,
             storedACL w' (ObjectMeta.key (ACL.Meta acl))
             = Some (ACL.setStatus
                       (ACLStatus.Make (networkPolicyName acl req) true "")
                       old)).
Proof.
  intros Hacl He1 Hnp He2 Hsel Hloop Hfill Hrules policy fresh Hwork
         write status.
  assert (Hframe : frame quietCall addressKind w w4).
  { eapply frame_trans; [exact (clientGet_quiet _ _ _ _ Hacl)|].
    eapply frame_trans; [exact (clientGet_quiet _ _ _ _ Hnp)|].
    eapply frame_trans; [eapply destinationsLoop_quiet; exact Hloop|].
    eapply fillPodSelectorByCIDR_quiet; exact Hfill. }
  destruct Hframe as [(delta & Hc4 & Hquiet%filter_loud) _].
  rewrite (Reconcile_pass E req w w1 acl e1 w2 np e2 selector w3 rules w4
             rules' Hacl He1 Hnp He2 Hsel Hloop Hfill Hrules).
  cbv zeta. fold policy. fold fresh.
  assert (Htail : forall w5 (c : Call),
            calls w5 = c :: calls w4 -> loud c = true ->
            forall w6 result err,
              ACLReconciler.finish true (readied acl req) w5
              = (w6, (result, err)) ->
              (forall key, storedPolicy w6 key = storedPolicy w5 key)
              /\ filter (fun c => loud c = true) (issuedSince w w6)
                 = [status; c]
              /\ (err = None ->
                  result = Result.Make true requeueAfter
                  /\ exists old,
                       storedACL w6 (ObjectMeta.key (ACL.Meta acl))
                       = Some (ACL.setStatus
                                 (ACLStatus.Make (networkPolicyName acl req)
                                                 true "") old))).
  { intros w5 c Hc5 Hloud w6 result err Hfinish.
    unfold ACLReconciler.finish in Hfinish. unbind Hfinish.
    apply clientStatusUpdate_inv in Hm as (Hc6 & Ho6 & Hok & _).
    assert (w6 = w0 /\ err = a
            /\ result = if bool_decide (a = None)
                        then Result.Make true requeueAfter else Result.zero)
      as (-> & -> & ->).
    { destruct a; apply ret_inv in Hfinish as [-> [= -> ->]]; auto. }
    split.
    { intros key. unfold storedPolicy. now rewrite Ho6 by discriminate. }
    split.
    { rewrite (issuedSince_app w w0 (status :: c :: delta))
        by (rewrite Hc6, Hc5, Hc4; reflexivity).
      rewrite filter_cons_True by reflexivity.
      rewrite filter_cons_True by exact Hloud. now rewrite Hquiet. }
    intros ->. split; [reflexivity|].
    destruct (Hok eq_refl) as (old & _ & Hnew). exists old.
    unfold storedACL. rewrite Hnew. simpl. now rewrite lookup_insert_eq. }
  destruct fresh eqn:Hfresh.
  - unfold bind.
    destruct (clientCreate (Now E) policy w4) as [w5 e5] eqn:Hcreate.
    pose proof Hcreate as (Hc5 & _ & Hok & _)%clientCreate_inv.
    destruct e5 as [e|].
    + exists w5, Result.zero, (Some e). split; [reflexivity|].
      split; [|discriminate]. left.
      rewrite (issuedSince_app w w5 (write :: delta))
        by (rewrite Hc5, Hc4; reflexivity).
      rewrite filter_cons_True by reflexivity. now rewrite Hquiet.
    + destruct (ACLReconciler.finish true (readied acl req) w5)
        as [w6 [result err]] eqn:Hfinish.
      destruct (Htail w5 write Hc5 eq_refl w6 result err Hfinish)
        as (Hpol & Hissued & Hdone).
      exists w6, result, err. split; [reflexivity|].
      split; [now right|]. intros Herr.
      destruct (Hdone Herr) as (-> & Hacl'). split; [reflexivity|].
      split; [exact Hissued|]. split; [|exact Hacl'].
      rewrite Hpol. unfold storedPolicy. rewrite (Hok eq_refl). simpl.
      now rewrite lookup_insert_eq.
  - destruct Hwork as [|Hwork]; [discriminate|].
    rewrite bool_decide_eq_false_2 by exact Hwork.
    unfold bind.
    destruct (clientUpdate policy w4) as [w5 e5] eqn:Hupdate.
    pose proof Hupdate as (Hc5 & _ & Hok & _)%clientUpdate_inv.
    destruct e5 as [e|].
    + exists w5, Result.zero, (Some e). split; [reflexivity|].
      split; [|discriminate]. left.
      rewrite (issuedSince_app w w5 (write :: delta))
        by (rewrite Hc5, Hc4; reflexivity).
      rewrite filter_cons_True by reflexivity. now rewrite Hquiet.
    + destruct (ACLReconciler.finish true (readied acl req) w5)
        as [w6 [result err]] eqn:Hfinish.
      destruct (Htail w5 write Hc5 eq_refl w6 result err Hfinish)
        as (Hpol & Hissued & Hdone).
      exists w6, result, err. split; [reflexivity|].
      split; [now right|]. intros Herr.
      destruct (Hdone Herr) as (-> & Hacl'). split; [reflexivity|].
      split; [exact Hissued|]. split; [|exact Hacl'].
      rewrite Hpol. unfold storedPolicy. rewrite (Hok eq_refl). simpl.
      now rewrite lookup_insert_eq.
Qed.

Lemma Reconcile_writes_the_policy_then_ready_witness :
  let w := Scenario.world [ObjACL Scenario.aclLiteral] in
  let policy :=
    desired Scenario.aclLiteral Scenario.request NetworkPolicy.zero
            {[ "tsuru.io/app-name" := "web" ]} Scenario.literalRules in
  exists w' result err,
    ACLReconciler.Reconcile Scenario.externals Scenario.request w
    = (w', (result, err))
    /\ (filter (fun c => loud c = true) (issuedSince w w')
        = [CallCreate (ObjNetworkPolicy policy)]
        \/ filter (fun c => loud c = true) (issuedSince w w')
           = [CallStatusUpdate
                (ObjACL (readied Scenario.aclLiteral Scenario.request));
              CallCreate (ObjNetworkPolicy policy)])
    /\ (err = None ->
        result = Result.Make true requeueAfter
        /\ filter (fun c => loud c = true) (issuedSince w w')
           = [CallStatusUpdate
                (ObjACL (readied Scenario.aclLiteral Scenario.request));
              CallCreate (ObjNetworkPolicy policy)]
        /\ storedPolicy w' ("apps", "acl-web")
           = Some (NetworkPolicy.setMeta
                     (ObjectMeta.setCreationTimestamp
                        (Some "2022-08-01T12:00:00Z")
                        (NetworkPolicy.Meta policy))
                     policy)
        /\ exists old,
             storedACL w' ("apps", "web")
             = Some (ACL.setStatus (ACLStatus.Make "acl-web" true "") old)).
Proof.
  cbv zeta.
  set (w := Scenario.world [ObjACL Scenario.aclLiteral]).
  set (g1 := clientGet (X:=ACL.t) Scenario.request w).
  set (g2 := clientGet (X:=NetworkPolicy.t)
               (reqNamespace Scenario.request,
                networkPolicyName Scenario.aclLiteral Scenario.request)
               (fst g1)).
  set (g3 := ACLReconciler.destinationsLoop Scenario.externals
               (ACLSpec.Destinations (ACL.Spec Scenario.aclLiteral)) []
               (fst g2)).
  set (g4 := ACLReconciler.fillPodSelectorByCIDR Scenario.externals
               Scenario.literalRules (fst g3)).
  assert (H1 : g1 = (fst g1, (Scenario.aclLiteral, None)))
    by (vm_compute; reflexivity).
  assert (H2 : g2 = (fst g2, (NetworkPolicy.zero, Some notFound)))
    by (vm_compute; reflexivity).
  assert (H3 : g3 = (fst g3, (Scenario.literalRules, None)))
    by (vm_compute; reflexivity).
  assert (H4 : g4 = (fst g4, (Scenario.literalRules, None)))
    by (vm_compute; reflexivity).
  assert (Hrules : Scenario.literalRules <> []) by discriminate.
  exact (Reconcile_writes_the_policy_then_ready
           Scenario.externals Scenario.request w (fst g1) Scenario.aclLiteral
           None (fst g2) NetworkPolicy.zero (Some notFound)
           {[ "tsuru.io/app-name" := "web" ]} (fst g3) Scenario.literalRules
           (fst g4) Scenario.literalRules
           H1 eq_refl H2 eq_refl eq_refl H3 H4 Hrules (or_introl eq_refl)).
Defined.

(** ** The ways a pass ends early *)

(** X17. A read that fails for another reason than a missing object ends the
    pass with the read's error: nothing else is called and the store is
    left alone.  The policy is read in the namespace of the request,
    under the name the status of the ACL holds, or, if that is empty,
    the name of the request behind the prefix of the policies. *)
Theorem Reconcile_read_failure_ends_the_pass E (req : Request) w w1 acl :
  (forall e,
     clientGet (X:=ACL.t) req w = (w1, (acl, Some e)) ->
     NotFound e = false ->
     ACLReconciler.Reconcile E req w = (w1, (Result.zero, Some e))
     /\ objects w1 = objects w
     /\ issuedSince w w1 = [CallGet KindACL req])
  /\ (forall e1 w2 np e,
        clientGet (X:=ACL.t) req w = (w1, (acl, e1)) ->
        unlessNotFound e1 = None ->
        let name :=
          if String.eqb (ACLStatus.NetworkPolicy (ACL.Status acl)) ""
          then "acl-" +:+ snd req
          else ACLStatus.NetworkPolicy (ACL.Status acl) in
        clientGet (X:=NetworkPolicy.t) (fst req, name) w1
        = (w2, (np, Some e)) ->
        NotFound e = false ->
        ACLReconciler.Reconcile E req w = (w2, (Result.zero, Some e))
        /\ objects w2 = objects w
        /\ issuedSince w w2
           = [CallGet KindNetworkPolicy (fst req, name); CallGet KindACL req]).
Proof.
  split.
  - intros e Hacl Hhard.
    split.
    { unfold ACLReconciler.Reconcile, bind. rewrite Hacl.
      unfold unlessNotFound. simpl. now rewrite Hhard. }
    apply clientGet_inv in Hacl as (Ho & Hc & _).
    split; [exact Ho|]. now apply issuedSince_app.
  - intros e1 w2 np e Hacl He1 name Hnp Hhard.
    split.
    { unfold ACLReconciler.Reconcile, bind. rewrite Hacl.
      cbn beta iota. rewrite He1. cbv zeta.
      change (reqNamespace req, networkPolicyName acl req)
        with (fst req, name).
      rewrite Hnp. unfold unlessNotFound. simpl. now rewrite Hhard. }
    apply clientGet_inv in Hacl as (Ho1 & Hc1 & _).
    apply clientGet_inv in Hnp as (Ho2 & Hc2 & _).
    split; [congruence|].
    apply (issuedSince_app w w2 [_; _]). simpl. now rewrite Hc2, Hc1.
Qed.

Lemma Reconcile_read_failure_ends_the_pass_witness :
  let w :=
    Outage.refusing [None; Some Outage.timeout]
      (Scenario.world [ObjACL Scenario.aclLiteral]) in
  exists w2,
    ACLReconciler.Reconcile Scenario.externals Scenario.request w
    = (w2, (Result.zero, Some Outage.timeout))
    /\ objects w2 = objects w
    /\ issuedSince w w2
       = [CallGet KindNetworkPolicy ("apps", "acl-web");
          CallGet KindACL ("apps", "web")].
Proof.
  cbv zeta.
  set (w := Outage.refusing [None; Some Outage.timeout]
              (Scenario.world [ObjACL Scenario.aclLiteral])).
  set (g1 := clientGet (X:=ACL.t) Scenario.request w).
  set (g2 := clientGet (X:=NetworkPolicy.t) ("apps", "acl-web") (fst g1)).
  assert (H1 : g1 = (fst g1, (Scenario.aclLiteral, None)))
    by (vm_compute; reflexivity).
  assert (H2 : g2 = (fst g2, (NetworkPolicy.zero, Some Outage.timeout)))
    by (vm_compute; reflexivity).
  exists (fst g2).
  exact (proj2 (Reconcile_read_failure_ends_the_pass Scenario.externals
                  Scenario.request w (fst g1) Scenario.aclLiteral)
           None (fst g2) NetworkPolicy.zero Outage.timeout
           H1 eq_refl H2 eq_refl).
Defined.

(** X18. A source that names neither an application nor an instance stops the
    pass before any destination is looked at: after the two reads the
    one further call is the status write that sets the ACL not ready.
    The pass returns the empty result with the error of that write, and
    ends in the world that write leaves. *)
Theorem Reconcile_stops_without_selector E req w w1 acl e1 w2 np e2 :
  clientGet (X:=ACL.t) req w = (w1, (acl, e1)) ->
  unlessNotFound e1 = None ->
  clientGet (X:=NetworkPolicy.t)
    (reqNamespace req, networkPolicyName acl req) w1 = (w2, (np, e2)) ->
  unlessNotFound e2 = None ->
  ACLReconciler.podSelectorForSource (ACLSpec.Source (ACL.Spec acl)) = None ->
  let write :=
    ACLReconciler.setUnreadyStatus acl
      "No podSelector generated by spec.source" w2 in
  ACLReconciler.Reconcile E req w = (fst write, (Result.zero, snd write))
  /\ stopsUnready (ACLReconciler.Reconcile E req w) w acl
       "No podSelector generated by spec.source"
  /\ issuedSince w (fst (ACLReconciler.Reconcile E req w))
     = [CallStatusUpdate
          (ObjACL (unready acl "No podSelector generated by spec.source"));
        CallGet KindNetworkPolicy (reqNamespace req, networkPolicyName acl req);
        CallGet KindACL req].
Proof.
  intros Hacl He1 Hnp He2 Hsel write. subst write.
  rewrite (Reconcile_no_selector E req w w1 acl e1 w2 np e2
             Hacl He1 Hnp He2 Hsel).
  destruct (ACLReconciler.setUnreadyStatus acl _ w2) as [w' err] eqn:Hset.
  split; [reflexivity|]. split.
  - eapply stopsUnready_intro; [|exact Hset].
    eapply frame_trans; [exact (clientGet_quiet _ _ _ _ Hacl)|].
    exact (clientGet_quiet _ _ _ _ Hnp).
  - apply setUnreadyStatus_inv in Hset as (Hc & _).
    apply clientGet_inv in Hacl as (_ & Hc1 & _).
    apply clientGet_inv in Hnp as (_ & Hc2 & _).
    apply (issuedSince_app w w' [_; _; _]). simpl.
    now rewrite Hc, Hc2, Hc1.
Qed.

Lemma Reconcile_stops_without_selector_witness :
  let acl :=
    ACL.Make (ACL.Type_ Scenario.aclLiteral) (ACL.Meta Scenario.aclLiteral)
      (ACLSpec.Make ACLSpecSource.zero [Scenario.toIP "10.0.0.5"])
      ACLStatus.zero in
  let w := Scenario.world [ObjACL acl] in
  let refused := Outage.refusing [None; None; Some Outage.timeout] w in
  snd (ACLReconciler.Reconcile Scenario.externals Scenario.request w)
  = (Result.zero, None)
  /\ snd (ACLReconciler.Reconcile Scenario.externals Scenario.request refused)
     = (Result.zero, Some Outage.timeout)
  /\ stopsUnready
       (ACLReconciler.Reconcile Scenario.externals Scenario.request w) w acl
       "No podSelector generated by spec.source"
  /\ issuedSince w
       (fst (ACLReconciler.Reconcile Scenario.externals Scenario.request w))
     = [CallStatusUpdate
          (ObjACL (unready acl "No podSelector generated by spec.source"));
        CallGet KindNetworkPolicy ("apps", "acl-web");
        CallGet KindACL ("apps", "web")].
Proof.
  cbv zeta.
  set (acl :=
    ACL.Make (ACL.Type_ Scenario.aclLiteral) (ACL.Meta Scenario.aclLiteral)
      (ACLSpec.Make ACLSpecSource.zero [Scenario.toIP "10.0.0.5"])
      ACLStatus.zero).
  set (w := Scenario.world [ObjACL acl]).
  set (refused := Outage.refusing [None; None; Some Outage.timeout] w).
  set (g1 := clientGet (X:=ACL.t) Scenario.request w).
  set (g2 := clientGet (X:=NetworkPolicy.t)
               (reqNamespace Scenario.request,
                networkPolicyName acl Scenario.request)
               (fst g1)).
  set (r1 := clientGet (X:=ACL.t) Scenario.request refused).
  set (r2 := clientGet (X:=NetworkPolicy.t)
               (reqNamespace Scenario.request,
                networkPolicyName acl Scenario.request)
               (fst r1)).
  assert (H1 : g1 = (fst g1, (acl, None))) by (vm_compute; reflexivity).
  assert (H2 : g2 = (fst g2, (NetworkPolicy.zero, Some notFound)))
    by (vm_compute; reflexivity).
  assert (R1 : r1 = (fst r1, (acl, None))) by (vm_compute; reflexivity).
  assert (R2 : r2 = (fst r2, (NetworkPolicy.zero, Some notFound)))
    by (vm_compute; reflexivity).
  destruct (Reconcile_stops_without_selector Scenario.externals
              Scenario.request w (fst g1) acl None (fst g2)
              NetworkPolicy.zero (Some notFound)
              H1 eq_refl H2 eq_refl eq_refl)
    as (Hrun & Hstop & Hcalls).
  destruct (Reconcile_stops_without_selector Scenario.externals
              Scenario.request refused (fst r1) acl None (fst r2)
              NetworkPolicy.zero (Some notFound)
              R1 eq_refl R2 eq_refl eq_refl)
    as (Hrefused & _).
  split; [rewrite Hrun; vm_compute; reflexivity|].
  split; [rewrite Hrefused; vm_compute; reflexivity|].
  split; [exact Hstop | exact Hcalls].
Defined.

(** X19. A request for an ACL that is not in the store does not end at the
    read.  The pass goes on with a zero-valued ACL: it reads the policy
    named after the request, finds no pod selector, and tries to write a
    not-ready status for an ACL without a name.  It never writes a
    policy, and unless the store holds an ACL under the empty name it
    returns an error and leaves the store as it was. *)
Theorem Reconcile_of_a_missing_ACL E req w w1 acl e1 w2 np e2 :
  clientGet (X:=ACL.t) req w = (w1, (acl, e1)) ->
  IsNotFound e1 = true ->
  clientGet (X:=NetworkPolicy.t) (fst req, "acl-" +:+ snd req) w1
  = (w2, (np, e2)) ->
  unlessNotFound e2 = None ->
  let run := ACLReconciler.Reconcile E req w in
  stopsUnready run w ACL.zero "No podSelector generated by spec.source"
  /\ issuedSince w (fst run)
     = [CallStatusUpdate
          (ObjACL (unready ACL.zero "No podSelector generated by spec.source"));
        CallGet KindNetworkPolicy (fst req, "acl-" +:+ snd req);
        CallGet KindACL req]
  /\ (storedACL w ("", "") = None ->
      snd (snd run) <> None /\ objects (fst run) = objects w).
Proof.
  intros Hacl Hmissing Hnp He2 run.
  assert (acl = ACL.zero) as ->.
  { apply clientGet_inv in Hacl as (_ & _ & _ & Hzero).
    apply Hzero. intros ->. discriminate Hmissing. }
  assert (He1 : unlessNotFound e1 = None)
    by (unfold unlessNotFound; now rewrite Hmissing).
  pose proof (Reconcile_no_selector E req w w1 ACL.zero e1 w2 np e2
                Hacl He1 Hnp He2 eq_refl) as Hrun.
  fold run in Hrun.
  destruct (ACLReconciler.setUnreadyStatus ACL.zero _ w2) as [w' err] eqn:Hset.
  rewrite Hrun. cbn [fst snd].
  pose proof Hacl as (Ho1 & Hc1 & _)%clientGet_inv.
  pose proof Hnp as (Ho2 & Hc2 & _)%clientGet_inv.
  split; [|split].
  - eapply stopsUnready_intro; [|exact Hset].
    eapply frame_trans; [exact (clientGet_quiet _ _ _ _ Hacl)|].
    exact (clientGet_quiet _ _ _ _ Hnp).
  - apply setUnreadyStatus_inv in Hset as (Hc & _).
    apply (issuedSince_app w w' [_; _; _]). simpl.
    now rewrite Hc, Hc2, Hc1.
  - intros Hnone. unfold ACLReconciler.setUnreadyStatus in Hset.
    apply clientStatusUpdate_inv in Hset as (_ & _ & Hok & Hko).
    assert (Herr : err <> None).
    { intros ->. destruct (Hok eq_refl) as (old & Hold & _).
      rewrite Ho2, Ho1 in Hold.
      assert (Heq : Some old = None)
        by (rewrite <- Hold, <- Hnone; reflexivity).
      discriminate Heq. }
    split; [exact Herr|]. rewrite (Hko Herr). congruence.
Qed.

Lemma Reconcile_of_a_missing_ACL_witness :
  let w := Scenario.world [ObjNetworkPolicy Scenario.policyLiteral] in
  let run := ACLReconciler.Reconcile Scenario.externals Scenario.request w in
  snd run = (Result.zero, Some notFound)
  /\ objects (fst run) = objects w
  /\ stopsUnready run w ACL.zero "No podSelector generated by spec.source".
Proof.
  cbv zeta.
  set (w := Scenario.world [ObjNetworkPolicy Scenario.policyLiteral]).
  set (g1 := clientGet (X:=ACL.t) Scenario.request w).
  set (g2 := clientGet (X:=NetworkPolicy.t)
               (fst Scenario.request, "acl-" +:+ snd Scenario.request)
               (fst g1)).
  assert (H1 : g1 = (fst g1, (ACL.zero, Some notFound)))
    by (vm_compute; reflexivity).
  assert (H2 : g2 = (fst g2, (Scenario.policyLiteral, None)))
    by (vm_compute; reflexivity).
  destruct (Reconcile_of_a_missing_ACL Scenario.externals Scenario.request
              w (fst g1) ACL.zero (Some notFound) (fst g2)
              Scenario.policyLiteral None H1 eq_refl H2 eq_refl)
    as (Hstop & _ & Hrest).
  split; [vm_compute; reflexivity|].
  split; [|exact Hstop].
  apply Hrest. vm_compute. reflexivity.
Defined.

Lemma Reconcile_cache_failure
    E req w w1 acl e1 w2 np e2 selector w3 rules w4 rules' e :
  clientGet (X:=ACL.t) req w = (w1, (acl, e1)) ->
  unlessNotFound e1 = None ->
  clientGet (X:=NetworkPolicy.t)
    (reqNamespace req, networkPolicyName acl req) w1 = (w2, (np, e2)) ->
  unlessNotFound e2 = None ->
  ACLReconciler.podSelectorForSource (ACLSpec.Source (ACL.Spec acl))
  = Some selector ->
  ACLReconciler.destinationsLoop E (ACLSpec.Destinations (ACL.Spec acl)) [] w2
  = (w3, (rules, None)) ->
  ACLReconciler.fillPodSelectorByCIDR E rules w3 = (w4, (rules', Some e)) ->
  ACLReconciler.Reconcile E req w =
  let (w', err) :=
    ACLReconciler.setUnreadyStatus acl
      ("could not generate egress rule based on kubernetes selector, err: "
       +:+ message e) w4 in
  (w', (Result.zero, err)).
Proof.
  intros Hacl He1 Hnp He2 Hsel Hloop Hfill.
  enter_pass Hacl He1 Hnp He2.
  all: rewrite Hsel;
    repeat match goal with
           | |- context [let '(_, _) := (if ?b then _ else _) in _] =>
               destruct b
           end;
    rewrite Hloop; cbn beta iota; rewrite Hfill; reflexivity.
Qed.

(** X20. When the address cache fails during enrichment the pass stops: it
    sets the ACL not ready with the cache's error in the reason and
    writes no policy. *)
Theorem Reconcile_stops_on_cache_failure
    E req w w1 acl e1 w2 np e2 selector w3 rules w4 rules' e :
  clientGet (X:=ACL.t) req w = (w1, (acl, e1)) ->
  unlessNotFound e1 = None ->
  clientGet (X:=NetworkPolicy.t)
    (reqNamespace req, networkPolicyName acl req) w1 = (w2, (np, e2)) ->
  unlessNotFound e2 = None ->
  ACLReconciler.podSelectorForSource (ACLSpec.Source (ACL.Spec acl))
  = Some selector ->
  ACLReconciler.destinationsLoop E (ACLSpec.Destinations (ACL.Spec acl)) [] w2
  = (w3, (rules, None)) ->
  ACLReconciler.fillPodSelectorByCIDR E rules w3 = (w4, (rules', Some e)) ->
  stopsUnready (ACLReconciler.Reconcile E req w) w acl
    ("could not generate egress rule based on kubernetes selector, err: "
     +:+ message e).
Proof.
  intros Hacl He1 Hnp He2 Hsel Hloop Hfill.
  rewrite (Reconcile_cache_failure E req w w1 acl e1 w2 np e2 selector
             w3 rules w4 rules' e Hacl He1 Hnp He2 Hsel Hloop Hfill).
  destruct (ACLReconciler.setUnreadyStatus acl _ w4) as [w' err] eqn:Hset.
  eapply stopsUnready_intro; [|exact Hset].
  eapply frame_trans; [exact (clientGet_quiet _ _ _ _ Hacl)|].
  eapply frame_trans; [exact (clientGet_quiet _ _ _ _ Hnp)|].
  eapply frame_trans; [eapply destinationsLoop_quiet; exact Hloop|].
  eapply fillPodSelectorByCIDR_quiet; exact Hfill.
Qed.

Lemma Reconcile_stops_on_cache_failure_witness :
  let w := Scenario.world [ObjACL Scenario.aclLiteral] in
  stopsUnready
    (ACLReconciler.Reconcile Outage.brokenCache Scenario.request w)
    w Scenario.aclLiteral
    ("could not generate egress rule based on kubernetes selector, err: "
     +:+ "cache is down").
Proof.
  cbv zeta.
  set (w := Scenario.world [ObjACL Scenario.aclLiteral]).
  set (g1 := clientGet (X:=ACL.t) Scenario.request w).
  set (g2 := clientGet (X:=NetworkPolicy.t)
               (reqNamespace Scenario.request,
                networkPolicyName Scenario.aclLiteral Scenario.request)
               (fst g1)).
  set (g3 := ACLReconciler.destinationsLoop Outage.brokenCache
               (ACLSpec.Destinations (ACL.Spec Scenario.aclLiteral)) []
               (fst g2)).
  set (g4 := ACLReconciler.fillPodSelectorByCIDR Outage.brokenCache
               Scenario.literalRules (fst g3)).
  assert (H1 : g1 = (fst g1, (Scenario.aclLiteral, None)))
    by (vm_compute; reflexivity).
  assert (H2 : g2 = (fst g2, (NetworkPolicy.zero, Some notFound)))
    by (vm_compute; reflexivity).
  assert (H3 : g3 = (fst g3, (Scenario.literalRules, None)))
    by (vm_compute; reflexivity).
  assert (H4 : g4 = (fst g4, (Scenario.literalRules,
                              Some (Error false "cache is down"))))
    by (vm_compute; reflexivity).
  exact (Reconcile_stops_on_cache_failure
           Outage.brokenCache Scenario.request w (fst g1) Scenario.aclLiteral
           None (fst g2) NetworkPolicy.zero (Some notFound)
           {[ "tsuru.io/app-name" := "web" ]} (fst g3) Scenario.literalRules
           (fst g4) Scenario.literalRules (Error false "cache is down")
           H1 eq_refl H2 eq_refl eq_refl H3 H4).
Defined.

(** ** What no pass does *)

Lemma aclKept_same w w' :
  (forall key, objects w' !! (KindACL, key) = objects w !! (KindACL, key)) ->
  aclKept w w'.
Proof.
  intros Ho key. unfold storedACL. rewrite Ho.
  destruct (objects w !! (KindACL, key) ≫= ofObject); auto.
Qed.

Lemma aclKept_trans w1 w2 w3 : aclKept w1 w2 -> aclKept w2 w3 -> aclKept w1 w3.
Proof.
  intros H12 H23 key. specialize (H12 key). specialize (H23 key).
  destruct (storedACL w1 key), (storedACL w2 key), (storedACL w3 key);
    try contradiction; auto.
  destruct H12 as (? & ? & ?), H23 as (? & ? & ?).
  repeat split; congruence.
Qed.

Lemma trail_trans w1 w2 w3 l1 l2 :
  trail w1 w2 l1 -> trail w2 w3 l2 -> trail w1 w3 (l2 ++ l1).
Proof.
  intros [(d1 & Hc1 & Hl1) Hk1] [(d2 & Hc2 & Hl2) Hk2]. split.
  - exists (d2 ++ d1). rewrite Hc2, Hc1, app_assoc. split; [reflexivity|].
    rewrite filter_app. congruence.
  - eapply aclKept_trans; eauto.
Qed.

Lemma trail_quiet w w' : frame quietCall addressKind w w' -> trail w w' [].
Proof.
  intros [(delta & Hc & Hd) Ho]. split.
  - exists delta. split; [exact Hc | now apply filter_loud].
  - apply aclKept_same. intros key. now apply Ho.
Qed.

Lemma trail_refl w : trail w w [].
Proof. apply trail_quiet, frame_refl. Qed.

Lemma trail_status (acl : ACL.t) w w' err :
  clientStatusUpdate acl w = (w', err) ->
  trail w w' [CallStatusUpdate (ObjACL acl)].
Proof.
  intros (Hc & _ & Hok & Hko)%clientStatusUpdate_inv. split.
  - exists [CallStatusUpdate (ObjACL acl)]. split; [exact Hc | reflexivity].
  - destruct err as [e|].
    + apply aclKept_same. intros key. now rewrite Hko by discriminate.
    + destruct (Hok eq_refl) as (old & Hold & Hnew).
      intros key. unfold storedACL. rewrite Hnew.
      destruct (decide (key = ObjectMeta.key (ACL.Meta acl))) as [->|Hne].
      * rewrite lookup_insert_eq.
        assert (storedACL w (ObjectMeta.key (ACL.Meta acl)) = Some old)
          as Hstored by exact Hold.
        unfold storedACL in Hstored. rewrite Hstored. simpl. auto.
      * rewrite lookup_insert_ne by (simpl; congruence).
        destruct (objects w !! (KindACL, key) ≫= ofObject); auto.
Qed.

Lemma trail_policy (c : Call) w w' :
  calls w' = c :: calls w ->
  policyWrite c = true ->
  (forall k key, k <> KindNetworkPolicy ->
     objects w' !! (k, key) = objects w !! (k, key)) ->
  trail w w' [c].
Proof.
  intros Hc Hp Ho. split.
  - exists [c]. split; [exact Hc|].
    rewrite filter_cons_True; [reflexivity|].
    destruct c as [| [] | [] | | | | |]; try discriminate; reflexivity.
  - apply aclKept_same. intros key. now apply Ho.
Qed.

Lemma trail_finish b acl w w' r :
  ACLReconciler.finish b acl w = (w', r) ->
  trail w w' (if b then [CallStatusUpdate (ObjACL acl)] else []).
Proof.
  unfold ACLReconciler.finish. intros Hrun. destruct b.
  - unbind Hrun. apply trail_status in Hm.
    destruct a; apply ret_inv in Hrun as [-> _]; exact Hm.
  - apply ret_inv in Hrun as [-> _]. apply trail_refl.
Qed.

Lemma trail_unready acl reason w w0 w' err :
  frame quietCall addressKind w w0 ->
  ACLReconciler.setUnreadyStatus acl reason w0 = (w', err) ->
  trail w w' [CallStatusUpdate (ObjACL (unready acl reason))].
Proof.
  intros Hframe%trail_quiet Hset%trail_status.
  exact (trail_trans _ _ _ _ _ Hframe Hset).
Qed.

(** The writes of a pass, whatever the store and the collaborators
    answer. *)
Lemma Reconcile_trail E req w :
  exists writes,
    trail w (fst (ACLReconciler.Reconcile E req w)) writes
    /\ (writes = []
        \/ (exists s, statusWrite s = true /\ writes = [s])
        \/ (exists p, policyWrite p = true /\ writes = [p])
        \/ (exists s p, statusWrite s = true /\ policyWrite p = true
                        /\ writes = [s; p])).
Proof.
  destruct (clientGet (X:=ACL.t) req w) as [w1 [acl e1]] eqn:Hacl.
  pose proof (clientGet_quiet _ _ _ _ Hacl) as Hf1.
  destruct (unlessNotFound e1) as [e|] eqn:He1.
  { exists []. split; [|now left].
    unfold ACLReconciler.Reconcile, bind. rewrite Hacl. cbn beta iota.
    rewrite He1. now apply trail_quiet. }
  destruct (clientGet (X:=NetworkPolicy.t)
              (reqNamespace req, networkPolicyName acl req) w1)
    as [w2 [np e2]] eqn:Hnp.
  pose proof (frame_trans _ _ _ _ _ Hf1 (clientGet_quiet _ _ _ _ Hnp)) as Hf2.
  destruct (unlessNotFound e2) as [e|] eqn:He2.
  { exists []. split; [|now left].
    unfold ACLReconciler.Reconcile, bind. rewrite Hacl. cbn beta iota.
    rewrite He1. cbv zeta. rewrite Hnp. cbn beta iota. rewrite He2.
    now apply trail_quiet. }
  assert (Hstop : forall w0 reason,
            frame quietCall addressKind w w0 ->
            ACLReconciler.Reconcile E req w =
            (let (w', err) := ACLReconciler.setUnreadyStatus acl reason w0 in
             (w', (Result.zero, err))) ->
            exists writes,
              trail w (fst (ACLReconciler.Reconcile E req w)) writes
              /\ (writes = []
                  \/ (exists s, statusWrite s = true /\ writes = [s])
                  \/ (exists p, policyWrite p = true /\ writes = [p])
                  \/ (exists s p, statusWrite s = true /\ policyWrite p = true
                                  /\ writes = [s; p]))).
  { intros w0 reason Hframe ->.
    destruct (ACLReconciler.setUnreadyStatus acl reason w0) as [w' err]
      eqn:Hset.
    exists [CallStatusUpdate (ObjACL (unready acl reason))].
    split; [exact (trail_unready _ _ _ _ _ _ Hframe Hset)|].
    right. left. eexists. split; [|reflexivity]. reflexivity. }
  destruct (ACLReconciler.podSelectorForSource (ACLSpec.Source (ACL.Spec acl)))
    as [selector|] eqn:Hsel.
  2: { eapply Hstop; [exact Hf2|].
       exact (Reconcile_no_selector E req w w1 acl e1 w2 np e2
                Hacl He1 Hnp He2 Hsel). }
  destruct (ACLReconciler.destinationsLoop E
              (ACLSpec.Destinations (ACL.Spec acl)) [] w2)
    as [w3 [rules failed]] eqn:Hloop.
  pose proof (frame_trans _ _ _ _ _ Hf2
                (destinationsLoop_quiet _ _ _ _ _ _ Hloop)) as Hf3.
  destruct failed as [[destination e]|].
  { eapply Hstop; [exact Hf3|].
    exact (Reconcile_destination_failure E req w w1 acl e1 w2 np e2 selector
             w3 rules destination e Hacl He1 Hnp He2 Hsel Hloop). }
  destruct (ACLReconciler.fillPodSelectorByCIDR E rules w3)
    as [w4 [rules' failed]] eqn:Hfill.
  pose proof (frame_trans _ _ _ _ _ Hf3
                (fillPodSelectorByCIDR_quiet _ _ _ _ _ Hfill)) as Hf4.
  destruct failed as [e|].
  { eapply Hstop; [exact Hf4|].
    exact (Reconcile_cache_failure E req w w1 acl e1 w2 np e2 selector
             w3 rules w4 rules' e Hacl He1 Hnp He2 Hsel Hloop Hfill). }
  destruct rules' as [|rule rules'].
  { eapply Hstop; [exact Hf4|].
    exact (Reconcile_no_egress E req w w1 acl e1 w2 np e2 selector
             w3 rules w4 Hacl He1 Hnp He2 Hsel Hloop Hfill). }
  rewrite (Reconcile_pass E req w w1 acl e1 w2 np e2 selector w3 rules w4
             (rule :: rules') Hacl He1 Hnp He2 Hsel Hloop Hfill)
    by discriminate.
  cbv zeta. apply trail_quiet in Hf4.
  set (policy := desired acl req np selector (rule :: rules')).
  assert (Hwrite : forall (c : Call) w5 (e5 : option error),
            calls w5 = c :: calls w4 ->
            policyWrite c = true ->
            (forall k key, k <> KindNetworkPolicy ->
               objects w5 !! (k, key) = objects w4 !! (k, key)) ->
            exists writes,
              trail w
                (fst (match e5 with
                      | Some e => ret (Result.zero, Some e)
                      | None => ACLReconciler.finish true (readied acl req)
                      end w5)) writes
              /\ (writes = []
                  \/ (exists s, statusWrite s = true /\ writes = [s])
                  \/ (exists p, policyWrite p = true /\ writes = [p])
                  \/ (exists s p, statusWrite s = true /\ policyWrite p = true
                                  /\ writes = [s; p]))).
  { intros c w5 e5 Hc5 Hp Ho5.
    pose proof (trail_trans _ _ _ _ _ Hf4 (trail_policy c w4 w5 Hc5 Hp Ho5))
      as Hf5.
    destruct e5 as [e|].
    - exists [c]. split; [exact Hf5|]. right. right. left. eauto.
    - destruct (ACLReconciler.finish true (readied acl req) w5) as [w6 r]
        eqn:Hfinish.
      apply trail_finish in Hfinish.
      exists [CallStatusUpdate (ObjACL (readied acl req)); c].
      split; [exact (trail_trans _ _ _ _ _ Hf5 Hfinish)|].
      right. right. right.
      exists (CallStatusUpdate (ObjACL (readied acl req))), c. auto. }
  case_bool_decide as Hfresh.
  - unfold bind.
    destruct (clientCreate (Now E) policy w4) as [w5 e5] eqn:Hcreate.
    apply clientCreate_inv in Hcreate as (Hc5 & Ho5 & _).
    exact (Hwrite _ w5 e5 Hc5 eq_refl Ho5).
  - case_bool_decide as Hsame.
    + destruct (ACLReconciler.finish false acl w4) as [w5 r] eqn:Hfinish.
      apply trail_finish in Hfinish.
      exists []. split; [exact (trail_trans _ _ _ _ _ Hf4 Hfinish)|]. now left.
    + unfold bind.
      destruct (clientUpdate policy w4) as [w5 e5] eqn:Hupdate.
      apply clientUpdate_inv in Hupdate as (Hc5 & Ho5 & _).
      exact (Hwrite _ w5 e5 Hc5 eq_refl Ho5).
Qed.

(** X21. Whatever the store and the collaborators answer, a pass writes at
    most one policy and at most one ACL status, the status after the
    policy, and nothing else of an ACL or a policy.  No ACL appears or
    disappears by it, and every ACL keeps its type, its metadata and its
    spec. *)
Theorem Reconcile_keeps_every_spec E req w :
  let w' := fst (ACLReconciler.Reconcile E req w) in
  let writes := filter (fun c => loud c = true) (issuedSince w w') in
  aclKept w w'
  /\ (writes = []
      \/ (exists s, statusWrite s = true /\ writes = [s])
      \/ (exists p, policyWrite p = true /\ writes = [p])
      \/ (exists s p, statusWrite s = true /\ policyWrite p = true
                      /\ writes = [s; p])).
Proof.
  cbv zeta.
  destruct (Reconcile_trail E req w)
    as (writes & [(delta & Hc & Hwrites) Hkept] & Hshape).
  split; [exact Hkept|].
  rewrite (issuedSince_app _ _ _ Hc), Hwrites. exact Hshape.
Qed.

(** ** Enrichment without owners *)

Lemma toLoop_unknown E (tos : list NetworkPolicyPeer.t) :
  forall (newDestinations : list NetworkPolicyPeer.t) w,
    (forall to ip,
       to ∈ tos -> ACLReconciler.singleHost to = Some ip ->
       serviceCache_GetByIP E ip = (None, None)) ->
    exists w',
      ACLReconciler.toLoop E tos newDestinations w
      = (w', (newDestinations, None))
      /\ objects w' = objects w
      /\ calls w'
         = rev (List.map CallGetByIP (omap ACLReconciler.singleHost tos))
           ++ calls w.
Proof.
  induction tos as [|to rest IH]; intros acc w Hunknown.
  - exists w. auto.
  - assert (Hrest : forall to0 ip,
              to0 ∈ rest -> ACLReconciler.singleHost to0 = Some ip ->
              serviceCache_GetByIP E ip = (None, None)).
    { intros to0 ip Hin. apply Hunknown. now right. }
    cbn [ACLReconciler.toLoop omap list_omap].
    destruct (ACLReconciler.singleHost to) as [ip|] eqn:Hhost.
    + unfold bind, external.
      rewrite (Hunknown to ip) by (auto; left).
      destruct (IH acc (logged (CallGetByIP ip) w) Hrest)
        as (w' & Hrun & Ho & Hc).
      exists w'. split; [exact Hrun|]. split; [exact Ho|].
      rewrite Hc. simpl. now rewrite <- app_assoc.
    + exact (IH acc w Hrest).
Qed.

(** X22. Enrichment asks the cache once for every single-host peer, in the
    order of the rules and of their peers, duplicates included.  When
    the cache knows no owner for any of them, which is so in particular
    when no rule has such a peer, the rules come back exactly as they
    were given and nothing is stored. *)
Theorem fillPodSelectorByCIDR_without_owners
    E (rules : list NetworkPolicyEgressRule.t) w :
  (forall rule to ip,
     rule ∈ rules ->
     to ∈ Slice.elems (NetworkPolicyEgressRule.To rule) ->
     ACLReconciler.singleHost to = Some ip ->
     serviceCache_GetByIP E ip = (None, None)) ->
  exists w',
    ACLReconciler.fillPodSelectorByCIDR E rules w = (w', (rules, None))
    /\ objects w' = objects w
    /\ rev (issuedSince w w')
       = List.map CallGetByIP
           (omap ACLReconciler.singleHost
              (flat_map
                 (fun rule => Slice.elems (NetworkPolicyEgressRule.To rule))
                 rules)).
Proof.
  intros Hunknown.
  enough (Hgoal : exists w',
            ACLReconciler.fillPodSelectorByCIDR E rules w
            = (w', (rules, None))
            /\ objects w' = objects w
            /\ calls w'
               = rev (List.map CallGetByIP
                        (omap ACLReconciler.singleHost
                           (flat_map
                              (fun rule =>
                                 Slice.elems (NetworkPolicyEgressRule.To rule))
                              rules)))
                 ++ calls w).
  { destruct Hgoal as (w' & Hrun & Ho & Hc). exists w'.
    split; [exact Hrun|]. split; [exact Ho|].
    rewrite (issuedSince_app _ _ _ Hc). apply rev_involutive. }
  revert w.
  induction rules as [|rule rest IH]; intros w.
  - exists w. auto.
  - cbn [ACLReconciler.fillPodSelectorByCIDR flat_map].
    destruct (toLoop_unknown E
                (Slice.elems (NetworkPolicyEgressRule.To rule)) [] w)
      as (w1 & Hloop & Ho1 & Hc1).
    { intros to ip. apply Hunknown. left. }
    destruct (IH (fun r to ip Hin => Hunknown r to ip
                    (proj2 (elem_of_cons _ _ _) (or_intror Hin))) w1)
      as (w' & Hrest & Ho & Hc).
    exists w'. unfold bind. rewrite Hloop. cbn beta iota.
    rewrite Hrest. cbn beta iota. unfold ret.
    split.
    + f_equal. f_equal. f_equal.
      destruct rule as [ports [to|]]; cbn; [|reflexivity].
      now rewrite app_nil_r.
    + split; [congruence|].
      rewrite Hc, Hc1, omap_app, map_app, rev_app_distr, <- app_assoc.
      reflexivity.
Qed.

Lemma fillPodSelectorByCIDR_without_owners_witness :
  let rules :=
    [NetworkPolicyEgressRule.Make None
       (Some [ACLReconciler.ipBlockPeer "10.0.0.8/32";
              ACLReconciler.ipBlockPeer "10.0.0.0/24";
              ACLReconciler.ipBlockPeer "10.0.0.8/32"]);
     NetworkPolicyEgressRule.Make None None] in
  exists w',
    ACLReconciler.fillPodSelectorByCIDR Scenario.externals rules
      (Scenario.world [])
    = (w', (rules, None))
    /\ objects w' = objects (Scenario.world [])
    /\ rev (issuedSince (Scenario.world []) w')
       = [CallGetByIP "10.0.0.8"; CallGetByIP "10.0.0.8"].
Proof.
  cbv zeta.
  apply (fillPodSelectorByCIDR_without_owners Scenario.externals
           [NetworkPolicyEgressRule.Make None
              (Some [ACLReconciler.ipBlockPeer "10.0.0.8/32";
                     ACLReconciler.ipBlockPeer "10.0.0.0/24";
                     ACLReconciler.ipBlockPeer "10.0.0.8/32"]);
            NetworkPolicyEgressRule.Make None None]
           (Scenario.world [])).
  intros rule to ip Hrule Hto Hhost.
  repeat (apply elem_of_cons in Hrule as [->|Hrule]);
    [| |apply elem_of_nil in Hrule; contradiction].
  - simpl in Hto.
    repeat (apply elem_of_cons in Hto as [->|Hto]);
      [| | |apply elem_of_nil in Hto; contradiction];
      vm_compute in Hhost; try discriminate;
      injection Hhost as <-; reflexivity.
  - apply elem_of_nil in Hto. contradiction.
Defined.
